(** * Vendor report: a shallow embedding of [fetch_vendors.py]

    The program pages through a vendor endpoint for each organization,
    replaces [center_id] by a resolved [center_name], builds one table per
    organization, normalizes the [work_phone] column and writes a workbook.

    Python values are embedded as the inductive [value]; a Python dict is
    an association list in insertion order; every builtin that can raise
    returns a [result].  The network, the file system, the clock and the
    spreadsheet writer are parameters of [Section Program]. *)

From Stdlib Require Import String Ascii List ZArith Lia Bool.
From Stdlib Require Import DecimalString.
From Stdlib Require DecimalFacts DecimalNat.
From Stdlib Require Import SpecFloat.
Import ListNotations.
Open Scope list_scope.
Open Scope string_scope.

Set Warnings "-register-all".

(** ** Python values *)

(** The JSON-shaped values that reach the program: [None], booleans,
    integers, floats, strings, lists and dicts keyed by strings.  A float
    is zero, infinite, [nan] or a signed mantissa times a power of two.
    [VNaN] is the float [nan], which is also what pandas stores in a cell
    whose record lacks the column. *)
Inductive value : Type :=
| VNone
| VBool (b : bool)
| VInt (z : Z)
| VFloat (x : spec_float)
| VStr (s : string)
| VList (l : list value)
| VDict (d : list (string * value)).

Abbreviation VNaN := (VFloat S754_nan).

(** Exceptions, by class.  [RequestException] stands for the whole
    [requests.exceptions] hierarchy (connection errors, HTTP status errors,
    undecodable bodies); [OtherException] is any further [Exception]
    subclass the environment may raise. *)
Inductive exn : Type :=
| KeyError (key : string)
| TypeError
| AttributeError
| ValueError (msg : string)
| OverflowError
| FileNotFoundError (msg : string)
| JSONDecodeError
| RequestException (detail : string)
| OtherException (name : string).

(** Outcome of running a piece of the program.  [OutOfFuel] marks a loop
    that did not finish within the step budget; [NotModelled] marks a call
    into pandas on a shape the embedding does not describe. *)
Inductive result (A : Type) : Type :=
| Ret (a : A)
| Raise (e : exn)
| OutOfFuel
| NotModelled.
Arguments Ret {A} a.
Arguments Raise {A} e.
Arguments OutOfFuel {A}.
Arguments NotModelled {A}.

Class Monad (m : Type -> Type) : Type := {
  ret : forall {A : Type}, A -> m A;
  bind : forall {A B : Type}, m A -> (A -> m B) -> m B
}.

Declare Scope py_scope.
Delimit Scope py_scope with py.
Notation "x <- c ;; k" := (bind c (fun x => k))
  (at level 61, c at next level, right associativity) : py_scope.
Notation "c ;; k" := (bind c (fun _ => k))
  (at level 61, right associativity) : py_scope.
Open Scope py_scope.

Definition result_bind {A B : Type} (c : result A) (k : A -> result B) : result B :=
  match c with
  | Ret a => k a
  | Raise e => Raise e
  | OutOfFuel => OutOfFuel
  | NotModelled => NotModelled
  end.

#[export] Instance Monad_result : Monad result := {
  ret := @Ret;
  bind := @result_bind
}.

Fixpoint mapM {m : Type -> Type} `{Monad m} {A B : Type}
    (f : A -> m B) (l : list A) : m (list B) :=
  match l with
  | [] => ret []
  | x :: r => y <- f x ;; ys <- mapM f r ;; ret (y :: ys)
  end.

(** ** Dicts: association lists in insertion order *)

Section Dict.
Context {A : Type}.

Fixpoint dict_get (k : string) (d : list (string * A)) : option A :=
  match d with
  | [] => None
  | (k', v) :: r => if String.eqb k k' then Some v else dict_get k r
  end.

Definition dict_mem (k : string) (d : list (string * A)) : bool :=
  match dict_get k d with Some _ => true | None => false end.

(** [d[k] = v]: an existing key keeps its position. *)
Fixpoint dict_set (k : string) (v : A) (d : list (string * A)) : list (string * A) :=
  match d with
  | [] => [(k, v)]
  | (k', v') :: r =>
      if String.eqb k k' then (k, v) :: r else (k', v') :: dict_set k v r
  end.

(** [d.pop(k, None)], result discarded. *)
Definition dict_pop (k : string) (d : list (string * A)) : list (string * A) :=
  filter (fun kv => negb (String.eqb k (fst kv))) d.

Definition dict_keys (d : list (string * A)) : list string := map fst d.
End Dict.

(** ** Builtins *)

(** [x != 0.0] on a float: false on the two zeros only; [nan] differs from
    everything. *)
Definition float_nonzero (x : spec_float) : bool :=
  match x with
  | S754_zero _ => false
  | _ => true
  end.

(** [bool(v)] *)
Definition py_truthy (v : value) : bool :=
  match v with
  | VNone => false
  | VBool b => b
  | VInt z => negb (Z.eqb z 0)
  | VFloat x => float_nonzero x
  | VStr s => negb (String.eqb s "")
  | VList l => match l with [] => false | _ => true end
  | VDict d => match d with [] => false | _ => true end
  end.

Definition isinstance_dict (v : value) : bool :=
  match v with VDict _ => true | _ => false end.

(** [v != 0] *)
Definition py_ne_zero (v : value) : bool :=
  match v with
  | VInt z => negb (Z.eqb z 0)
  | VBool b => b
  | VFloat x => float_nonzero x
  | _ => true
  end.

Definition str_of_Z (z : Z) : string := NilZero.string_of_int (Z.to_int z).
Definition str_of_nat (n : nat) : string := NilZero.string_of_uint (Nat.to_uint n).

(** [needle in hay] on two strings *)
Fixpoint is_substring (needle hay : string) : bool :=
  String.prefix needle hay
  || match hay with
     | EmptyString => false
     | String _ rest => is_substring needle rest
     end.

(** [key in obj] for a string [key]: key membership on a dict, substring on
    a string, element equality on a list, [TypeError] on the rest. *)
Definition py_contains (key : string) (obj : value) : result bool :=
  match obj with
  | VDict d => Ret (dict_mem key d)
  | VStr s => Ret (is_substring key s)
  | VList l =>
      Ret (existsb (fun x => match x with VStr s => String.eqb key s | _ => false end) l)
  | _ => Raise TypeError
  end.

(** Looking up the [get] method: only dicts have one. *)
Definition py_get_method (obj : value) : result (list (string * value)) :=
  match obj with
  | VDict d => Ret d
  | _ => Raise AttributeError
  end.

(** [obj.get(key, default)] for a string [key]. *)
Definition py_get (obj : value) (key : string) (default : value) : result value :=
  d <- py_get_method obj ;;
  Ret (match dict_get key d with Some v => v | None => default end).

(** Lists and dicts cannot be dict keys. *)
Definition hashable (v : value) : bool :=
  match v with
  | VList _ | VDict _ => false
  | _ => true
  end.

(** [d.get(key, default)] where the key is any value: an unhashable key
    raises; a hashable key that is not a string equals no JSON key. *)
Definition dict_get_value (d : list (string * value)) (key default : value) : result value :=
  if negb (hashable key) then Raise TypeError
  else match key with
       | VStr k => Ret (match dict_get k d with Some v => v | None => default end)
       | _ => Ret default
       end.

(** [obj[key]] for a string [key]. *)
Definition py_getitem (obj : value) (key : string) : result value :=
  match obj with
  | VDict d => match dict_get key d with Some v => Ret v | None => Raise (KeyError key) end
  | _ => Raise TypeError
  end.

(** [obj[key] = v] for a string [key]. *)
Definition py_setitem (obj : value) (key : string) (v : value) : result value :=
  match obj with
  | VDict d => Ret (VDict (dict_set key v d))
  | _ => Raise TypeError
  end.

(** [obj.pop(key, None)] *)
Definition py_pop (obj : value) (key : string) : result value :=
  match obj with
  | VDict d => Ret (VDict (dict_pop key d))
  | VList _ => Raise TypeError
  | _ => Raise AttributeError
  end.

(** [obj.keys()] *)
Definition py_keys (obj : value) : result (list string) :=
  match obj with
  | VDict d => Ret (dict_keys d)
  | _ => Raise AttributeError
  end.

(** [k in keys] *)
Definition list_mem (k : string) (l : list string) : bool := existsb (String.eqb k) l.

(** [for x in obj]: the elements of a list, the keys of a dict, the
    characters of a string. *)
Definition py_iter (obj : value) : result (list value) :=
  match obj with
  | VList l => Ret l
  | VDict d => Ret (map VStr (dict_keys d))
  | VStr s => Ret (map (fun c => VStr (String c EmptyString)) (list_ascii_of_string s))
  | _ => Raise TypeError
  end.

Section Str.
(** [repr] of a list or a dict: Python's quoting of nested strings is
    left abstract. *)
Variable container_repr : value -> string.

(** [repr] of a finite non-zero float: the shortest decimal that reads
    back as the same float is left abstract. *)
Variable float_repr : spec_float -> string.

(** [str(x)] of a float. *)
Definition float_str (x : spec_float) : string :=
  match x with
  | S754_zero false => "0.0"
  | S754_zero true => "-0.0"
  | S754_infinity false => "inf"
  | S754_infinity true => "-inf"
  | S754_nan => "nan"
  | S754_finite _ _ _ => float_repr x
  end.

(** [str(v)], which is also what an f-string field renders. *)
Definition py_str (v : value) : string :=
  match v with
  | VNone => "None"
  | VBool true => "True"
  | VBool false => "False"
  | VInt z => str_of_Z z
  | VFloat x => float_str x
  | VStr s => s
  | VList _ | VDict _ => container_repr v
  end.

(** *** What a cell can hold *)

(** [Series.apply] hands the closure whatever object the cell holds.  A
    table built from JSON records holds values; any other Python object
    that is not a dict is known here by what the two operations the closure
    applies to it do, each of which can raise: [bool(x)] and [str(x)].
    pandas' [NA], for one, has a truth test that raises [TypeError] and the
    text <NA>.  The fields of a dict are JSON values, as in every dict
    decoded from a response. *)
Record object : Type := {
  obj_bool : exn + bool;
  obj_str : exn + string
}.

Inductive cell : Type :=
| Plain (v : value)
| Foreign (o : object).

Definition outcome {A : Type} (r : exn + A) : result A :=
  match r with
  | inl e => Raise e
  | inr a => Ret a
  end.

(** [isinstance(phone, dict)] *)
Definition cell_is_dict (phone : cell) : bool :=
  match phone with
  | Plain v => isinstance_dict v
  | Foreign _ => false
  end.

(** [bool(phone)] *)
Definition cell_truthy (phone : cell) : result bool :=
  match phone with
  | Plain v => Ret (py_truthy v)
  | Foreign o => outcome (obj_bool o)
  end.

(** [str(phone)], which is also what the field [{phone}] of an f-string
    renders. *)
Definition cell_str (phone : cell) : result string :=
  match phone with
  | Plain v => Ret (py_str v)
  | Foreign o => outcome (obj_str o)
  end.

(** [phone.get(key, default)] *)
Definition cell_get (phone : cell) (key : string) (default : value) : result value :=
  match phone with
  | Plain v => py_get v key default
  | Foreign _ => Raise AttributeError
  end.

(** The [try] block of [normalize_phone]. *)
Definition normalize_phone_body (phone : cell) : result value :=
  if negb (cell_is_dict phone) then
    truthy <- cell_truthy phone ;;
    if (truthy : bool) then text <- cell_str phone ;; Ret (VStr text)
    else Ret (VStr "")
  else
    phone_code <- cell_get phone "phone_code" (VInt 0) ;;
    number <- cell_get phone "number" (VStr "") ;;
    if negb (py_truthy number) then Ret (VStr "")
    else if py_truthy phone_code && py_ne_zero phone_code then
      Ret (VStr (py_str phone_code ++ py_str number))
    else Ret number.
End Str.

(** ** Dates *)

(** A [datetime]: calendar date plus the time of day in microseconds. *)
Record datetime : Type := {
  year : Z;
  month : Z;
  day : Z;
  time_of_day : Z
}.

Definition is_leap (y : Z) : bool :=
  (Z.eqb (y mod 4) 0 && negb (Z.eqb (y mod 100) 0)) || Z.eqb (y mod 400) 0.

Definition days_in_month (y m : Z) : Z :=
  if Z.eqb m 2 then (if is_leap y then 29 else 28)
  else if Z.eqb m 4 || Z.eqb m 6 || Z.eqb m 9 || Z.eqb m 11 then 30
  else 31.

(** The dates [datetime] can hold: years 1 to 9999. *)
Definition valid_date (d : datetime) : Prop :=
  (1 <= year d <= 9999)%Z /\ (1 <= month d <= 12)%Z
  /\ (1 <= day d <= days_in_month (year d) (month d))%Z.

(** [d - timedelta(days=1)]; the day before 0001-01-01 does not exist. *)
Definition minus_one_day (d : datetime) : result datetime :=
  if Z.ltb 1 (day d) then
    Ret {| year := year d; month := month d; day := day d - 1;
           time_of_day := time_of_day d |}
  else if Z.ltb 1 (month d) then
    Ret {| year := year d; month := month d - 1;
           day := days_in_month (year d) (month d - 1);
           time_of_day := time_of_day d |}
  else if Z.ltb 1 (year d) then
    Ret {| year := year d - 1; month := 12; day := 31;
           time_of_day := time_of_day d |}
  else Raise OverflowError.

(** [d.replace(day=1)] *)
Definition replace_day_1 (d : datetime) : datetime :=
  {| year := year d; month := month d; day := 1; time_of_day := time_of_day d |}.

Fixpoint zeros (n : nat) : string :=
  match n with
  | O => ""
  | S k => "0" ++ zeros k
  end.

(** Left-pad with zeros up to [width] characters. *)
Definition zfill (width : nat) (s : string) : string :=
  zeros (width - String.length s) ++ s.

(** [d.strftime('%Y-%m-%d')].  The year is written with four digits; for
    years below 1000 the C library decides whether it pads, from 1000 on
    every platform prints this. *)
Definition strftime_ymd (d : datetime) : string :=
  zfill 4 (str_of_Z (year d)) ++ "-" ++ zfill 2 (str_of_Z (month d))
  ++ "-" ++ zfill 2 (str_of_Z (day d)).

(** Days before January 1st of year [y], counted from 0001-01-01. *)
Definition days_before_year (y : Z) : Z :=
  ((y - 1) * 365 + (y - 1) / 4 - (y - 1) / 100 + (y - 1) / 400)%Z.

(** Days of year [y] before the first day of month [m]. *)
Definition days_before_month (y m : Z) : Z :=
  ((if Z.eqb m 1 then 0 else if Z.eqb m 2 then 31 else if Z.eqb m 3 then 59
    else if Z.eqb m 4 then 90 else if Z.eqb m 5 then 120 else if Z.eqb m 6 then 151
    else if Z.eqb m 7 then 181 else if Z.eqb m 8 then 212 else if Z.eqb m 9 then 243
    else if Z.eqb m 10 then 273 else if Z.eqb m 11 then 304 else 334)
   + (if Z.ltb 2 m && is_leap y then 1 else 0))%Z.

(** [d.toordinal()]: 0001-01-01 is day 1. *)
Definition toordinal (d : datetime) : Z :=
  (days_before_year (year d) + days_before_month (year d) (month d) + day d)%Z.

(** The start the specification names: the first day of the month before
    the month of the run date. *)
Definition first_of_previous_month (today : datetime) : datetime :=
  if Z.eqb (month today) 1
  then {| year := year today - 1; month := 12; day := 1;
          time_of_day := time_of_day today |}
  else {| year := year today; month := month today - 1; day := 1;
          time_of_day := time_of_day today |}.

(** The first day of the month of the run date. *)
Definition first_of_this_month (today : datetime) : datetime :=
  {| year := year today; month := month today; day := 1;
     time_of_day := time_of_day today |}.

(** The default range of the entry point: [_end_date] is the day before
    today, [_start_date] is [_end_date.replace(day=1)]. *)
Definition default_date_range (today : datetime) : result (datetime * datetime) :=
  _end_date <- minus_one_day today ;;
  Ret (replace_day_1 _end_date, _end_date).

(** ** Requests, log records, tables *)

Record request : Type := {
  url : string;
  headers : list (string * string)
}.

(** The [organizations] argument: a list of keys or one bare key. *)
Inductive org_arg : Type :=
| OrgList (l : list string)
| OrgStr (s : string).

Inductive level : Type := DEBUG | INFO | WARNING | ERROR.

(** One constructor per [logging] call of the program. *)
Inductive log_event : Type :=
| LogWroteSheet (org output_file : string)
| LogSavedExcel (output_file : string)
| LogExcelError (output_file : string) (e : exn)
| LogNoApiKey (org : string)
| LogFetching (org : string) (start_date end_date : datetime)
| LogNoMoreData (org : string) (page : nat)
| LogPageError (page : nat) (org : string) (e : exn)
| LogReportStart (organizations : org_arg) (start_date end_date : datetime)
| LogConvertedToList (organizations : list string)
| LogNoValidOrgs
| LogValidOrgs (valid_orgs : list string)
| LogFetched (n : nat)
| LogNoVendorsData (org : string)
| LogExtracted (n : nat)
| LogLoadedFrames
| LogPhoneWarning (phone : string) (e : exn)
| LogNormalizedPhone (org : string)
| LogConfigNotFound (config_path : string)
| LogConfigLoaded (config_path : string)
| LogConfigInvalid (config_path : string) (e : exn).

Definition level_of (ev : log_event) : level :=
  match ev with
  | LogWroteSheet _ _ | LogSavedExcel _ | LogReportStart _ _ _
  | LogFetched _ | LogLoadedFrames | LogConfigLoaded _ => INFO
  | LogFetching _ _ _ | LogNoMoreData _ _ | LogConvertedToList _
  | LogValidOrgs _ | LogExtracted _ | LogNormalizedPhone _ => DEBUG
  | LogPhoneWarning _ _ => WARNING
  | LogExcelError _ _ | LogNoApiKey _ | LogPageError _ _ _ | LogNoValidOrgs
  | LogNoVendorsData _ | LogConfigNotFound _ | LogConfigInvalid _ _ => ERROR
  end.

(** A [DataFrame]: the number of rows and the columns in order, each with
    one cell per row.  Cells keep the JSON value of the record; the numeric
    up-casting pandas applies to a column with gaps is not described. *)
Record frame : Type := {
  nrows : nat;
  columns : list (string * list value)
}.

Definition is_request_exception (e : exn) : bool :=
  match e with RequestException _ => true | _ => false end.

Definition is_json_decode_error (e : exn) : bool :=
  match e with JSONDecodeError => true | _ => false end.

(** [except Exception] *)
Definition is_exception (e : exn) : bool := true.

(** ** pandas: building a table from records *)

Definition record_of (row : value) : result (list (string * value)) :=
  match row with
  | VDict d => Ret d
  | _ => NotModelled
  end.

(** The column labels: every key of every record, in order of first
    appearance. *)
Definition union_keys (records : list (list (string * value))) : list string :=
  fold_left
    (fun seen r =>
       fold_left
         (fun seen k => if existsb (String.eqb k) seen then seen else (seen ++ [k])%list)
         (dict_keys r) seen)
    records [].

Definition frame_of_records (records : list (list (string * value))) : frame :=
  {| nrows := List.length records;
     columns :=
       map (fun k =>
              (k, map (fun r => match dict_get k r with Some v => v | None => VNaN end)
                      records))
           (union_keys records) |}.

(** [DataFrame(df)] on a list of dict records. *)
Definition DataFrame (df : value) : result frame :=
  match df with
  | VList rows => records <- mapM record_of rows ;; Ret (frame_of_records records)
  | _ => NotModelled
  end.

(** [dataframe.rename(columns={'work_phone': 'Work Phone'}, inplace=True)] *)
Definition rename_work_phone (dataframe : frame) : frame :=
  {| nrows := nrows dataframe;
     columns :=
       map (fun col => (if String.eqb (fst col) "work_phone" then "Work Phone" else fst col,
                        snd col))
           (columns dataframe) |}.

(** [dataframe['center_name'] = ''] *)
Definition add_center_name (dataframe : frame) : frame :=
  {| nrows := nrows dataframe;
     columns := dict_set "center_name" (repeat (VStr "") (nrows dataframe))
                  (columns dataframe) |}.

(** ** The program *)

Section Program.

(** The outside world and the calls that reach it. *)
Variable W : Type.
(** [str.lower] *)
Variable lower : string -> string.
Variable container_repr : value -> string.
Variable float_repr : spec_float -> string.
(** [os.path.exists] *)
Variable os_path_exists : string -> W -> bool.
(** [open] followed by [json.load] *)
Variable json_load : string -> W -> (exn + value) * W.
(** [requests.get], [raise_for_status] and [response.json] *)
Variable requests_get_json : request -> W -> (exn + value) * W.
(** [os.makedirs(path, exist_ok=True)] and [os.path.join] *)
Variable os_makedirs : string -> W -> (exn + unit) * W.
Variable os_path_join : string -> string -> string.
(** [pd.ExcelWriter(path, engine='openpyxl')] entered and left, and
    [df.to_excel(writer, sheet_name=..., index=False)]; the writer is named
    by its path. *)
Variable excel_open : string -> W -> (exn + unit) * W.
Variable to_excel : frame -> string -> string -> W -> (exn + unit) * W.
Variable excel_close : string -> W -> (exn + unit) * W.
(** [datetime.today()] *)
Variable datetime_today : W -> datetime.

(** Machine state: the world, the requests sent so far, the log. *)
Record state : Type := {
  world : W;
  sent : list request;
  log : list log_event
}.

Definition M (A : Type) : Type := state -> result A * state.

Definition M_bind {A B : Type} (c : M A) (k : A -> M B) : M B :=
  fun st =>
    match c st with
    | (Ret a, st') => k a st'
    | (Raise e, st') => (Raise e, st')
    | (OutOfFuel, st') => (OutOfFuel, st')
    | (NotModelled, st') => (NotModelled, st')
    end.

#[local] Instance Monad_M : Monad M := {
  ret := fun A a st => (Ret a, st);
  bind := @M_bind
}.

Definition lift {A : Type} (r : result A) : M A := fun st => (r, st).

Definition raise {A : Type} (e : exn) : M A := lift (Raise e).

Definition logging (ev : log_event) : M unit :=
  fun st => (Ret tt, {| world := world st; sent := sent st; log := (log st ++ [ev])%list |}).

(** A call into the world that may raise. *)
Definition perform {A : Type} (call : W -> (exn + A) * W) : M A :=
  fun st =>
    let (r, w) := call (world st) in
    (match r with inl e => Raise e | inr a => Ret a end,
     {| world := w; sent := sent st; log := log st |}).

(** [try: body except <class> as e: handler e] *)
Definition try_except {A : Type} (body : M A) (catches : exn -> bool)
    (handler : exn -> M A) : M A :=
  fun st =>
    match body st with
    | (Raise e, st') => if catches e then handler e st' else (Raise e, st')
    | other => other
    end.

(** *** zenoti_utils/config.py *)

Definition default_config_path : string :=
  "C:/Users/softwaredeveloper/Desktop/Silkor/Kunal Project/Config/zenoti_centers.json".

Definition load_zenoti_config (config_path : string) : M value :=
  fun st =>
    if negb (os_path_exists config_path (world st)) then
      (logging (LogConfigNotFound config_path) ;;
       raise (FileNotFoundError ("Configuration file not found: " ++ config_path))) st
    else
      try_except
        (config <- perform (json_load config_path) ;;
         logging (LogConfigLoaded config_path) ;;
         ret config)
        is_json_decode_error
        (fun e => logging (LogConfigInvalid config_path e) ;; raise e) st.

(** *** fetch_vendors *)

Definition base_url : string := "https://api.zenoti.com/v1/vendors".
Definition size : nat := 100.

(** The request for one page: the URL and the [Authorization] header. *)
Definition vendors_request (api_key : value) (start_date end_date : datetime)
    (page : nat) : request :=
  {| url := base_url ++ "?page=" ++ str_of_nat page ++ "&size=" ++ str_of_nat size
            ++ "&start_date=" ++ strftime_ymd start_date
            ++ "&end_date=" ++ strftime_ymd end_date;
     headers := [("Authorization", "apikey " ++ py_str container_repr float_repr api_key)] |}.

(** [requests.get(url, headers=headers)] up to [response.json()]. *)
Definition http_get_json (req : request) : M value :=
  fun st =>
    let (r, w) := requests_get_json req (world st) in
    (match r with inl e => Raise e | inr data => Ret data end,
     {| world := w; sent := (sent st ++ [req])%list; log := log st |}).

(** [config.get('org_to_api_key', {}).get(org.lower())] *)
Definition api_key_of (config : value) (org : string) : result value :=
  mapping <- py_get config "org_to_api_key" (VDict []) ;;
  py_get mapping (lower org) VNone.

(** [data.get('vendors', []) or data.get('data', [])] *)
Definition vendors_of (data : value) : result value :=
  vendors <- py_get data "vendors" (VList []) ;;
  if py_truthy vendors then Ret vendors else py_get data "data" (VList []).

(** [config['centers_by_key'].get(api_key, {})] *)
Definition centers_of (config api_key : value) : result value :=
  by_key <- py_getitem config "centers_by_key" ;;
  table <- py_get_method by_key ;;
  dict_get_value table api_key (VDict []).

(** The body of [for vendor in vendors]; the record is updated in place,
    so the result is the record as the list holds it afterwards. *)
Definition enrich_vendor (centers vendor : value) : result value :=
  has_center <- py_contains "center_id" vendor ;;
  if (has_center : bool) then
    table <- py_get_method centers ;;
    center_id <- py_getitem vendor "center_id" ;;
    center_name <- dict_get_value table center_id center_id ;;
    vendor' <- py_setitem vendor "center_name" center_name ;;
    py_pop vendor' "center_id"
  else Ret vendor.

(** How one turn of [while True] ends. *)
Inductive loop_step : Type :=
| Break
| Continue (all_vendors : list value)
| Return (v : value).

Section Fetch.
Variables (org : string) (start_date end_date : datetime) (config api_key : value).

(** One turn of the loop: the [try] block and its handler. *)
Definition fetch_page (page : nat) (all_vendors : list value) : M loop_step :=
  try_except
    (data <- http_get_json (vendors_request api_key start_date end_date page) ;;
     vendors <- lift (vendors_of data) ;;
     if negb (py_truthy vendors) then
       logging (LogNoMoreData org page) ;;
       ret Break
     else
       centers <- lift (centers_of config api_key) ;;
       items <- lift (py_iter vendors) ;;
       enriched <- lift (mapM (enrich_vendor centers) items) ;;
       ret (Continue (all_vendors ++ enriched)%list))
    is_request_exception
    (fun e => logging (LogPageError page org e) ;; ret (Return (VDict []))).

Fixpoint fetch_loop (fuel page : nat) (all_vendors : list value) : M value :=
  match fuel with
  | O => lift OutOfFuel
  | S fuel' =>
      step <- fetch_page page all_vendors ;;
      match step with
      | Break => ret (VDict [("vendors", VList all_vendors)])
      | Continue all_vendors' => fetch_loop fuel' (S page) all_vendors'
      | Return v => ret v
      end
  end.
End Fetch.

Definition fetch_vendors (fuel : nat) (org : string) (start_date end_date : datetime)
    (config : value) : M value :=
  api_key <- lift (api_key_of config org) ;;
  if negb (py_truthy api_key) then
    logging (LogNoApiKey org) ;;
    ret (VDict [])
  else
    logging (LogFetching org start_date end_date) ;;
    fetch_loop org start_date end_date config api_key fuel 1 [].

(** *** get_vendors_report *)

(** [org.lower() in config.get('org_to_api_key', {})] *)
Definition valid_org (config : value) (org : string) : result bool :=
  mapping <- py_get config "org_to_api_key" (VDict []) ;;
  py_contains (lower org) mapping.

Fixpoint filterM {A : Type} (f : A -> result bool) (l : list A) : result (list A) :=
  match l with
  | [] => Ret []
  | x :: r =>
      keep <- f x ;;
      kept <- filterM f r ;;
      Ret (if (keep : bool) then x :: kept else kept)
  end.

(** Validate organizations. *)
Definition valid_organizations (config : value) (organizations : list string)
    : M (list string) :=
  valid_orgs <- lift (filterM (valid_org config) organizations) ;;
  match valid_orgs with
  | [] =>
      logging LogNoValidOrgs ;;
      raise (ValueError "No valid organizations found in config.")
  | _ =>
      logging (LogValidOrgs valid_orgs) ;;
      ret valid_orgs
  end.

(** Fetch raw data: [{org: fetch_vendors(org, ...) for org in valid_orgs}]. *)
Fixpoint fetch_raw_data (fuel : nat) (start_date end_date : datetime) (config : value)
    (valid_orgs : list string) (raw_data : list (string * value))
    : M (list (string * value)) :=
  match valid_orgs with
  | [] => ret raw_data
  | org :: rest =>
      data <- fetch_vendors fuel org start_date end_date config ;;
      fetch_raw_data fuel start_date end_date config rest (dict_set org data raw_data)
  end.

(** [not data or "vendors" not in data.keys()] *)
Definition no_vendors_data (data : value) : result bool :=
  if negb (py_truthy data) then Ret true
  else keys <- py_keys data ;; Ret (negb (list_mem "vendors" keys)).

(** Validate keys. *)
Fixpoint validate_keys (raw_data : list (string * value)) : M unit :=
  match raw_data with
  | [] => ret tt
  | (org, data) :: rest =>
      missing <- lift (no_vendors_data data) ;;
      if (missing : bool) then
        logging (LogNoVendorsData org) ;;
        raise (ValueError ("No vendors data found for " ++ org ++ "."))
      else validate_keys rest
  end.

(** Extract main data:
    [{org: raw_data[org]["vendors"] for org in valid_orgs
      if "vendors" in raw_data[org].keys()}]. *)
Fixpoint extract_main_data (raw_data : list (string * value)) (valid_orgs : list string)
    (extracted_data : list (string * value)) : result (list (string * value)) :=
  match valid_orgs with
  | [] => Ret extracted_data
  | org :: rest =>
      data <- match dict_get org raw_data with
              | Some data => Ret data
              | None => Raise (KeyError org)
              end ;;
      keys <- py_keys data ;;
      if list_mem "vendors" keys then
        vendors <- py_getitem data "vendors" ;;
        extract_main_data raw_data rest (dict_set org vendors extracted_data)
      else extract_main_data raw_data rest extracted_data
  end.

(** Convert to DataFrames. *)
Definition to_dataframes (extracted_data : list (string * value))
    : result (list (string * frame)) :=
  mapM (fun entry => dataframe <- DataFrame (snd entry) ;; Ret (fst entry, dataframe))
       extracted_data.

(** The handler builds its message from [{phone}] and [{e}] before it
    logs; rendering [phone] can raise, and then nothing is logged. *)
Definition normalize_phone (phone : cell) : M value :=
  try_except (lift (normalize_phone_body container_repr float_repr phone)) is_exception
    (fun e =>
       text <- lift (cell_str container_repr float_repr phone) ;;
       logging (LogPhoneWarning text e) ;;
       ret (VStr "")).

(** Normalize the [work_phone] column of one table. *)
Definition normalize_work_phone (entry : string * frame) : M (string * frame) :=
  let (org, dataframe) := entry in
  match dict_get "work_phone" (columns dataframe) with
  | Some cells =>
      cells' <- mapM (fun phone => normalize_phone (Plain phone)) cells ;;
      logging (LogNormalizedPhone org) ;;
      ret (org, {| nrows := nrows dataframe;
                   columns := dict_set "work_phone" cells' (columns dataframe) |})
  | None => ret (org, dataframe)
  end.

(** Data cleaning and formatting of one table. *)
Definition clean_and_format (entry : string * frame) : string * frame :=
  let (org, dataframe) := entry in
  let renamed :=
    if dict_mem "work_phone" (columns dataframe) then rename_work_phone dataframe
    else dataframe in
  (org, if negb (dict_mem "center_name" (columns renamed)) then add_center_name renamed
        else renamed).

(** [organizations] as a list: a bare key becomes a one-element list. *)
Definition organizations_list (organizations : org_arg) : M (list string) :=
  match organizations with
  | OrgStr s => logging (LogConvertedToList [s]) ;; ret [s]
  | OrgList l => ret l
  end.

(** The first half of [get_vendors_report], up to and including
    "Fetch raw data": the valid organizations and what was fetched. *)
Definition collect_raw_data (fuel : nat) (organizations : org_arg)
    (start_date end_date : datetime) : M (list string * list (string * value)) :=
  logging (LogReportStart organizations start_date end_date) ;;
  config <- load_zenoti_config default_config_path ;;
  organizations <- organizations_list organizations ;;
  valid_orgs <- valid_organizations config organizations ;;
  raw_data <- fetch_raw_data fuel start_date end_date config valid_orgs [] ;;
  logging (LogFetched (List.length raw_data)) ;;
  ret (valid_orgs, raw_data).

(** The second half, from "Validate keys" to the returned tables. *)
Definition build_report (valid_orgs : list string) (raw_data : list (string * value))
    : M (list (string * frame)) :=
  validate_keys raw_data ;;
  extracted_data <- lift (extract_main_data raw_data valid_orgs []) ;;
  logging (LogExtracted (List.length extracted_data)) ;;
  dataframes <- lift (to_dataframes extracted_data) ;;
  logging LogLoadedFrames ;;
  dataframes <- mapM normalize_work_phone dataframes ;;
  ret (map clean_and_format dataframes).

Definition get_vendors_report (fuel : nat) (organizations : org_arg)
    (start_date end_date : datetime) : M (list (string * frame)) :=
  collected <- collect_raw_data fuel organizations start_date end_date ;;
  build_report (fst collected) (snd collected).

(** *** export_orgs_to_excel *)

(** [with pd.ExcelWriter(output_file, engine='openpyxl') as writer: body]:
    the writer is closed on the way out, also when the body raised. *)
Definition with_excel_writer {A : Type} (output_file : string) (body : M A) : M A :=
  perform (excel_open output_file) ;;
  fun st =>
    match body st with
    | (Ret a, st') => (perform (excel_close output_file) ;; ret a) st'
    | (Raise e, st') => (perform (excel_close output_file) ;; raise e) st'
    | other => other
    end.

Fixpoint write_sheets (output_file : string) (data : list (string * frame)) : M unit :=
  match data with
  | [] => ret tt
  | (org, df) :: rest =>
      perform (to_excel df output_file org) ;;
      logging (LogWroteSheet org output_file) ;;
      write_sheets output_file rest
  end.

(** The [try] block of [export_orgs_to_excel]. *)
Definition write_workbook (output_file : string) (data : list (string * frame)) : M unit :=
  with_excel_writer output_file (write_sheets output_file data) ;;
  logging (LogSavedExcel output_file).

Definition export_orgs_to_excel (data : list (string * frame))
    (output_dir report_name date_str : string) : M unit :=
  perform (os_makedirs output_dir) ;;
  let output_file := os_path_join output_dir (report_name ++ "_" ++ date_str ++ ".xlsx") in
  try_except (write_workbook output_file data) is_exception
    (fun e => logging (LogExcelError output_file e)).

(** *** The entry point *)

Definition output_root : string :=
  "C:/Users/softwaredeveloper/Desktop/Silkor/Kunal Project/Data/".

Definition today : M datetime :=
  fun st => (Ret (datetime_today (world st)), st).

(** The [__main__] block.  [set_logging()] only sets the format and the
    threshold of the log; the log kept here records every call with its
    level. *)
Definition main (fuel : nat) : M unit :=
  config <- load_zenoti_config default_config_path ;;
  mapping <- lift (py_get config "org_to_api_key" (VDict [])) ;;
  _organizations <- lift (py_keys mapping) ;;
  now <- today ;;
  range <- lift (default_date_range now) ;;
  let (_start_date, _end_date) := (range : datetime * datetime) in
  _data <- get_vendors_report fuel (OrgList _organizations) _start_date _end_date ;;
  let name_ := "vendors" in
  let date_str := strftime_ymd _end_date in
  let output_dir := output_root ++ name_ ++ "/" ++ date_str in
  export_orgs_to_excel _data output_dir name_ date_str.

(** ** What the specification names *)

(** The outcome the specification gives for a [work_phone] value, case by
    case: a value that is not a mapping becomes its string form, or the
    empty string when it is falsy; a mapping with an empty number becomes
    the empty string; a mapping with a non-zero code becomes code followed
    by number; any other mapping becomes its number. *)
Definition normalized_phone (phone : value) : value :=
  match phone with
  | VDict d =>
      let number := match dict_get "number" d with Some n => n | None => VStr "" end in
      let phone_code := match dict_get "phone_code" d with Some c => c | None => VInt 0 end in
      if negb (py_truthy number) then VStr ""
      else if py_truthy phone_code
           then VStr (py_str container_repr float_repr phone_code
                       ++ py_str container_repr float_repr number)
           else number
  | _ => if py_truthy phone then VStr (py_str container_repr float_repr phone) else VStr ""
  end.

(** The name a center id resolves to: the entry of the table, or the raw
    id when the table has none. *)
Definition center_name_for (table : list (string * value)) (center_id : value) : value :=
  match center_id with
  | VStr k => match dict_get k table with Some name => name | None => center_id end
  | _ => center_id
  end.

(** A record after enrichment: [center_name] set, [center_id] removed. *)
Definition with_center_name (table : list (string * value)) (vendor : value) : value :=
  match vendor with
  | VDict d =>
      match dict_get "center_id" d with
      | Some center_id =>
          VDict (dict_pop "center_id"
                   (dict_set "center_name" (center_name_for table center_id) d))
      | None => vendor
      end
  | _ => vendor
  end.

(** A vendor record as the API documents it: an object whose [center_id],
    when present, can be used as a key. *)
Definition record_ok (vendor : value) : bool :=
  match vendor with
  | VDict d => match dict_get "center_id" d with
               | Some center_id => hashable center_id
               | None => true
               end
  | _ => false
  end.

Section Serves.
Variables (start_date end_date : datetime) (config api_key : value).

(** [serves p w pages w']: from world [w], the requests for pages [p],
    [p + 1], ... are answered, one per element of [pages], each with a
    non-empty vendor list whose records the loop body enriches without an
    exception into that element; [w'] is the world afterwards. *)
Inductive serves : nat -> W -> list (list value) -> W -> Prop :=
| serves_nil (p : nat) (w : W) : serves p w [] w
| serves_cons (p : nat) (w w1 w2 : W) (data vendors centers : value)
    (items enriched : list value) (rest : list (list value)) :
    requests_get_json (vendors_request api_key start_date end_date p) w = (inr data, w1) ->
    vendors_of data = Ret vendors ->
    py_truthy vendors = true ->
    centers_of config api_key = Ret centers ->
    py_iter vendors = Ret items ->
    mapM (enrich_vendor centers) items = Ret enriched ->
    serves (S p) w1 rest w2 ->
    serves p w (enriched :: rest) w2.
End Serves.

(** The organizations the filter keeps, when the API-key mapping is a dict. *)
Definition kept_organizations (mapping : list (string * value))
    (organizations : list string) : list string :=
  filter (fun org => dict_mem (lower org) mapping) organizations.

(** "A [vendors] key with data", as the specification words what the
    validation looks for: the fetch result has the key and the value under
    it is not empty. *)
Definition vendors_with_data (data : value) : bool :=
  match data with
  | VDict d => match dict_get "vendors" d with
               | Some vendors => py_truthy vendors
               | None => false
               end
  | _ => false
  end.

(** What [fetch_vendors] can return: the empty mapping, or a mapping with
    the single key [vendors] holding a list. *)
Definition fetch_shape (v : value) : Prop :=
  v = VDict [] \/ exists l, v = VDict [("vendors", VList l)].

(** The organization at which "Validate keys" stops, if any. *)
Fixpoint first_missing (raw_data : list (string * value)) : option string :=
  match raw_data with
  | [] => None
  | (org, data) :: rest =>
      match data with
      | VDict d => if dict_mem "vendors" d then first_missing rest else Some org
      | _ => None
      end
  end.

(** The table of an organization without vendors: no rows, and the
    [center_name] column the cleaning step adds. *)
Definition empty_report : frame :=
  {| nrows := 0; columns := [("center_name", [])] |}.

(** ** Notions for the further properties *)

(** The table after the phone pass: the [work_phone] column, if there is
    one, holds the normalized cells. *)
Definition normalize_column (dataframe : frame) : frame :=
  match dict_get "work_phone" (columns dataframe) with
  | Some cells =>
      {| nrows := nrows dataframe;
         columns := dict_set "work_phone" (map normalized_phone cells) (columns dataframe) |}
  | None => dataframe
  end.

(** The table after the cleaning pass. *)
Definition cleaned (dataframe : frame) : frame :=
  snd (clean_and_format (EmptyString, dataframe)).

(** The keys a dict comprehension over [l] ends up with: each key once, in
    order of first appearance. *)
Definition add_key (seen : list string) (k : string) : list string :=
  if list_mem k seen then seen else (seen ++ [k])%list.

Definition distinct (l : list string) : list string := fold_left add_key l [].

(** A [work_phone] in one of the two documented shapes, a string or a
    mapping, or no [work_phone] at all. *)
Definition phone_shape_ok (record : list (string * value)) : bool :=
  match dict_get "work_phone" record with
  | Some (VStr _) | Some (VDict _) | None => true
  | Some _ => false
  end.

(** Every column holds one cell per row. *)
Definition rectangular (dataframe : frame) : Prop :=
  Forall (fun col => List.length (snd col) = nrows dataframe) (columns dataframe).

(** Two states that differ at most in the log, and two outcomes that agree
    on everything but the log. *)
Definition same_but_log (st1 st2 : state) : Prop :=
  world st1 = world st2 /\ sent st1 = sent st2.

Definition same_outcome {A : Type} (x y : result A * state) : Prop :=
  fst x = fst y /\ same_but_log (snd x) (snd y).

(** A computation that never reads the log. *)
Definition log_blind {A : Type} (c : M A) : Prop :=
  forall st1 st2 : state, same_but_log st1 st2 -> same_outcome (c st1) (c st2).

(** [written file data w w']: starting in world [w], every sheet of [data]
    is written to [file] without an exception, in order, ending in [w']. *)
Inductive written (output_file : string) : list (string * frame) -> W -> W -> Prop :=
| written_nil (w : W) : written output_file [] w w
| written_cons (org : string) (df : frame) (rest : list (string * frame)) (w w1 w2 : W) :
    to_excel df output_file org w = (inr tt, w1) ->
    written output_file rest w1 w2 ->
    written output_file ((org, df) :: rest) w w2.

(** The file [export_orgs_to_excel] writes. *)
Definition workbook_path (output_dir report_name date_str : string) : string :=
  os_path_join output_dir (report_name ++ "_" ++ date_str ++ ".xlsx").

(** ** Properties *)

(** *** Phone normalization *)

Lemma truthy_ne_zero (v : value) : py_truthy v = true -> py_ne_zero v = true.
Proof. destruct v; simpl; auto. Qed.

Lemma normalize_phone_body_total (phone : value) :
  normalize_phone_body container_repr float_repr (Plain phone)
  = Ret (normalized_phone phone).
Proof.
  assert (Hplain : forall v : value,
             isinstance_dict v = false ->
             normalize_phone_body container_repr float_repr (Plain v)
             = Ret (if py_truthy v then VStr (py_str container_repr float_repr v)
                    else VStr "")).
  { intros v Hv. unfold normalize_phone_body.
    cbn [cell_is_dict cell_truthy cell_str bind Monad_result result_bind].
    rewrite Hv. cbn [negb]. now destruct (py_truthy v). }
  destruct phone as [| b | z | x | s | l | d];
    try (rewrite Hplain by reflexivity; reflexivity).
  unfold normalize_phone_body, normalized_phone; simpl.
  destruct (dict_get "number" d) as [number|]; simpl.
  - destruct (dict_get "phone_code" d) as [code|]; simpl.
    + destruct (py_truthy number); simpl; [|reflexivity].
      destruct (py_truthy code) eqn:Hc; simpl; [|reflexivity].
      now rewrite (truthy_ne_zero code Hc).
    + destruct (py_truthy number); reflexivity.
  - destruct (dict_get "phone_code" d) as [code|]; reflexivity.
Qed.

(** C2. For every JSON value or float in the [work_phone] field and every
    state, [normalize_phone] returns without raising and without logging,
    and its result is the one the specification describes: the string form
    of a non-mapping (the empty string when it is falsy), the empty string
    for a mapping whose number is empty, code followed by number for a
    mapping whose code is non-zero, and the number alone otherwise.  A code
    counts as non-zero when Python takes it as true, which for an integer
    code means it differs from 0.  The two worked examples of the
    specification are included.  Any other object is coerced in the same
    way when its truth test and its text raise nothing; when its truth test
    raises, the exception is caught, a warning that quotes the object is
    logged and the empty string is returned.  Whatever the cell holds,
    nothing propagates as long as the object has a text for the warning to
    quote, which every JSON value and every float has. *)
Theorem normalize_phone_correct :
  (forall (phone : value) (st : state),
      normalize_phone (Plain phone) st = (Ret (normalized_phone phone), st))
  /\ (forall z : Z, py_truthy (VInt z) = negb (Z.eqb z 0))
  /\ (forall st : state,
        normalize_phone
          (Plain (VDict [("phone_code", VInt 971); ("number", VStr "501234567")])) st
        = (Ret (VStr "971501234567"), st))
  /\ (forall st : state,
        normalize_phone
          (Plain (VDict [("phone_code", VInt 0); ("number", VStr "501234567")])) st
        = (Ret (VStr "501234567"), st))
  /\ (forall st : state,
        normalize_phone (Plain (VDict [("number", VStr "")])) st = (Ret (VStr ""), st))
  /\ (forall st : state,
        normalize_phone (Plain (VStr "12345")) st = (Ret (VStr "12345"), st))
  /\ (forall (o : object) (st : state),
        obj_bool o = inr false ->
        normalize_phone (Foreign o) st = (Ret (VStr ""), st))
  /\ (forall (o : object) (text : string) (st : state),
        obj_bool o = inr true ->
        obj_str o = inr text ->
        normalize_phone (Foreign o) st = (Ret (VStr text), st))
  /\ (forall (o : object) (e : exn) (text : string) (st : state),
        obj_bool o = inl e ->
        obj_str o = inr text ->
        normalize_phone (Foreign o) st
        = (Ret (VStr ""),
           {| world := world st; sent := sent st;
              log := (log st ++ [LogPhoneWarning text e])%list |}))
  /\ (forall (phone : cell) (text : string) (st : state),
        cell_str container_repr float_repr phone = Ret text ->
        exists (v : value) (st' : state),
          normalize_phone phone st = (Ret v, st')
          /\ world st' = world st /\ sent st' = sent st
          /\ (log st' = log st
              \/ exists e : exn,
                   v = VStr "" /\ log st' = (log st ++ [LogPhoneWarning text e])%list)).
Proof.
  assert (H : forall phone st,
             normalize_phone (Plain phone) st = (Ret (normalized_phone phone), st)).
  { intros phone st. unfold normalize_phone, try_except, lift.
    now rewrite normalize_phone_body_total. }
  assert (Hf : forall (o : object) (st : state),
             obj_bool o = inr false ->
             normalize_phone (Foreign o) st = (Ret (VStr ""), st)).
  { intros o st Hb. unfold normalize_phone, try_except, lift, normalize_phone_body.
    cbn [cell_is_dict negb cell_truthy bind Monad_result result_bind].
    now rewrite Hb. }
  assert (Ht : forall (o : object) (text : string) (st : state),
             obj_bool o = inr true -> obj_str o = inr text ->
             normalize_phone (Foreign o) st = (Ret (VStr text), st)).
  { intros o text st Hb Hs.
    unfold normalize_phone, try_except, lift, normalize_phone_body.
    cbn [cell_is_dict negb cell_truthy cell_str bind Monad_result result_bind].
    now rewrite Hb, Hs. }
  assert (He : forall (o : object) (e : exn) (text : string) (st : state),
             obj_bool o = inl e -> obj_str o = inr text ->
             normalize_phone (Foreign o) st
             = (Ret (VStr ""),
                {| world := world st; sent := sent st;
                   log := (log st ++ [LogPhoneWarning text e])%list |})).
  { intros o e text st Hb Hs.
    unfold normalize_phone, try_except, lift, normalize_phone_body.
    cbn [cell_is_dict negb cell_truthy cell_str bind Monad_result result_bind].
    rewrite Hb. cbn [outcome is_exception bind ret Monad_M]. unfold M_bind, lift.
    cbn [cell_str]. rewrite Hs. reflexivity. }
  split; [exact H|]. split; [reflexivity|].
  split; [intros; apply H|]. split; [intros; apply H|].
  split; [intros; apply H|]. split; [intros; apply H|].
  split; [exact Hf|]. split; [exact Ht|]. split; [exact He|].
  intros [phone|o] text st Hs.
  - exists (normalized_phone phone), st. rewrite H. auto.
  - cbn [cell_str] in Hs. destruct (obj_str o) as [e'|text'] eqn:Es; [discriminate Hs|].
    injection Hs as ->.
    destruct (obj_bool o) as [e|[|]] eqn:Eb.
    + eexists. eexists. rewrite (He o e text st Eb Es). cbn [world sent log].
      split; [reflexivity|]. split; [reflexivity|]. split; [reflexivity|].
      right. exists e. split; reflexivity.
    + exists (VStr text), st. rewrite (Ht o text st Eb Es). auto.
    + exists (VStr ""), st. rewrite (Hf o st Eb). auto.
Qed.

(** *** Center names *)

Lemma dict_get_set_same {A : Type} (k : string) (v : A) (d : list (string * A)) :
  dict_get k (dict_set k v d) = Some v.
Proof.
  induction d as [|[k' v'] r IH]; simpl.
  - now rewrite String.eqb_refl.
  - destruct (String.eqb k k') eqn:E; simpl; rewrite ?String.eqb_refl, ?E; auto.
Qed.

Lemma dict_get_set_other {A : Type} (k k' : string) (v : A) (d : list (string * A)) :
  k <> k' -> dict_get k (dict_set k' v d) = dict_get k d.
Proof.
  intros Hne. apply String.eqb_neq in Hne.
  induction d as [|[k0 v0] r IH]; simpl.
  - now rewrite Hne.
  - destruct (String.eqb k' k0) eqn:E; simpl.
    + apply String.eqb_eq in E. subst k0. now rewrite Hne.
    + now rewrite IH.
Qed.

Lemma dict_get_pop_same {A : Type} (k : string) (d : list (string * A)) :
  dict_get k (dict_pop k d) = None.
Proof.
  induction d as [|[k' v'] r IH]; simpl; auto.
  destruct (String.eqb k k') eqn:E; simpl; auto.
  now rewrite E.
Qed.

Lemma dict_get_pop_other {A : Type} (k k' : string) (d : list (string * A)) :
  k <> k' -> dict_get k (dict_pop k' d) = dict_get k d.
Proof.
  intros Hne.
  induction d as [|[k0 v0] r IH]; simpl; auto.
  destruct (String.eqb k' k0) eqn:E; simpl.
  - apply String.eqb_eq in E. subst k0.
    apply String.eqb_neq in Hne. now rewrite Hne.
  - now rewrite IH.
Qed.

Lemma enrich_vendor_record (table : list (string * value)) (vendor : value) :
  record_ok vendor = true ->
  enrich_vendor (VDict table) vendor = Ret (with_center_name table vendor).
Proof.
  destruct vendor; simpl; try discriminate.
  unfold enrich_vendor, with_center_name, py_contains, dict_mem; simpl.
  destruct (dict_get "center_id" d) as [cid|] eqn:E; simpl; [|reflexivity].
  intros Hh. unfold dict_get_value, center_name_for. rewrite Hh. simpl.
  destruct cid; simpl; try reflexivity; try discriminate.
Qed.

Lemma enrich_rows (table : list (string * value)) (rows : list value) :
  forallb record_ok rows = true ->
  mapM (enrich_vendor (VDict table)) rows = Ret (map (with_center_name table) rows).
Proof.
  induction rows as [|row rows IH]; simpl; [reflexivity|].
  intros H. apply andb_prop in H. destruct H as [Hrow Hrows].
  rewrite (enrich_vendor_record table row Hrow). simpl.
  now rewrite (IH Hrows).
Qed.

Lemma with_center_name_fields (table d : list (string * value)) (center_id : value) :
  dict_get "center_id" d = Some center_id ->
  exists d',
    with_center_name table (VDict d) = VDict d'
    /\ dict_get "center_name" d' = Some (center_name_for table center_id)
    /\ dict_get "center_id" d' = None
    /\ (forall k, k <> "center_id" -> k <> "center_name" -> dict_get k d' = dict_get k d).
Proof.
  intros E. eexists. simpl. rewrite E. split; [reflexivity|].
  split; [|split].
  - rewrite dict_get_pop_other by discriminate. apply dict_get_set_same.
  - apply dict_get_pop_same.
  - intros k H1 H2. rewrite dict_get_pop_other by assumption.
    now apply dict_get_set_other.
Qed.

(** *** Pagination *)

Section Paging.
Variables (org : string) (start_date end_date : datetime) (config api_key : value).

Local Abbreviation request_for := (vendors_request api_key start_date end_date).
Local Abbreviation serves := (serves start_date end_date config api_key).

Lemma fetch_page_continue (page : nat) (acc : list value) (st : state) (w1 : W)
    (data vendors centers : value) (items enriched : list value) :
  requests_get_json (request_for page) (world st) = (inr data, w1) ->
  vendors_of data = Ret vendors ->
  py_truthy vendors = true ->
  centers_of config api_key = Ret centers ->
  py_iter vendors = Ret items ->
  mapM (enrich_vendor centers) items = Ret enriched ->
  fetch_page org start_date end_date config api_key page acc st
  = (Ret (Continue (acc ++ enriched)%list),
     {| world := w1; sent := (sent st ++ [request_for page])%list; log := log st |}).
Proof.
  intros Hget Hv Ht Hc Hi He.
  unfold fetch_page, try_except, http_get_json, lift.
  cbn [bind ret Monad_M]. unfold M_bind. rewrite Hget. cbv beta iota.
  rewrite Hv. cbv beta iota. rewrite Ht. cbn [negb]. cbv beta iota.
  rewrite Hc. cbv beta iota. rewrite Hi. cbv beta iota. rewrite He. reflexivity.
Qed.

Lemma fetch_page_break (page : nat) (acc : list value) (st : state) (w1 : W)
    (data vendors : value) :
  requests_get_json (request_for page) (world st) = (inr data, w1) ->
  vendors_of data = Ret vendors ->
  py_truthy vendors = false ->
  fetch_page org start_date end_date config api_key page acc st
  = (Ret Break,
     {| world := w1; sent := (sent st ++ [request_for page])%list;
        log := (log st ++ [LogNoMoreData org page])%list |}).
Proof.
  intros Hget Hv Ht.
  unfold fetch_page, try_except, http_get_json, lift, logging.
  cbn [bind ret Monad_M]. unfold M_bind. rewrite Hget. cbv beta iota.
  rewrite Hv. cbv beta iota. rewrite Ht. reflexivity.
Qed.

Lemma fetch_page_error (page : nat) (acc : list value) (st : state) (w1 : W) (e : exn) :
  requests_get_json (request_for page) (world st) = (inl e, w1) ->
  is_request_exception e = true ->
  fetch_page org start_date end_date config api_key page acc st
  = (Ret (Return (VDict [])),
     {| world := w1; sent := (sent st ++ [request_for page])%list;
        log := (log st ++ [LogPageError page org e])%list |}).
Proof.
  intros Hget He.
  unfold fetch_page, try_except, http_get_json, lift, logging.
  cbn [bind ret Monad_M]. unfold M_bind. rewrite Hget. cbv beta iota.
  rewrite He. reflexivity.
Qed.

(** The loop runs through every page that [serves] describes, spending one
    unit of fuel and one request per page, and logs nothing on the way. *)
Lemma fetch_loop_serves (p : nat) (w w' : W) (pages : list (list value)) :
  serves p w pages w' ->
  forall (fuel : nat) (acc : list value) (st : state),
    world st = w ->
    fetch_loop org start_date end_date config api_key (List.length pages + fuel) p acc st
    = fetch_loop org start_date end_date config api_key fuel (List.length pages + p)
        (acc ++ concat pages)%list
        {| world := w';
           sent := (sent st ++ map request_for (seq p (List.length pages)))%list;
           log := log st |}.
Proof.
  induction 1 as [p w|p w w1 w2 data vendors centers items enriched rest
                     Hget Hv Ht Hc Hi He Hrest IH];
    intros fuel acc st Hw.
  - destruct st as [w0 s l]. simpl in *. subst w0.
    now rewrite !app_nil_r.
  - subst w. cbn [List.length Nat.add fetch_loop bind Monad_M]. unfold M_bind.
    rewrite (fetch_page_continue _ _ _ _ _ _ _ _ _ Hget Hv Ht Hc Hi He).
    rewrite IH by reflexivity.
    cbn [sent log world concat seq map].
    rewrite Nat.add_succ_r, <- !app_assoc. reflexivity.
Qed.

(** A page in the documented shape, a non-empty list of records, is one
    that [serves] accepts; its element is the list of resolved records. *)
Lemma serves_records (p : nat) (w w1 w2 : W) (data : value)
    (table : list (string * value)) (rows : list value) (rest : list (list value)) :
  requests_get_json (request_for p) w = (inr data, w1) ->
  vendors_of data = Ret (VList rows) ->
  rows <> [] ->
  centers_of config api_key = Ret (VDict table) ->
  forallb record_ok rows = true ->
  serves (S p) w1 rest w2 ->
  serves p w (map (with_center_name table) rows :: rest) w2.
Proof.
  intros Hget Hv Hne Hc Hok Hrest.
  apply (serves_cons start_date end_date config api_key p w w1 w2 data (VList rows)
           (VDict table) rows _ rest Hget Hv); try assumption.
  - destruct rows; [contradiction|reflexivity].
  - reflexivity.
  - now apply enrich_rows.
Qed.

Lemma fetch_vendors_with_key (fuel : nat) (st : state) :
  api_key_of config org = Ret api_key ->
  py_truthy api_key = true ->
  fetch_vendors fuel org start_date end_date config st
  = fetch_loop org start_date end_date config api_key fuel 1 []
      {| world := world st; sent := sent st;
         log := (log st ++ [LogFetching org start_date end_date])%list |}.
Proof.
  intros Hk Ht. unfold fetch_vendors, lift, logging.
  cbn [bind ret Monad_M]. unfold M_bind. rewrite Hk. cbv beta iota.
  rewrite Ht. reflexivity.
Qed.

(** C1. For an organization whose API key resolves to a true value: when
    the requests for pages 1, 2, ..., n are each answered with a non-empty
    vendor list and the request for page n + 1 is answered with an empty
    one, [fetch_vendors] run with more than n units of fuel returns the
    mapping whose [vendors] entry is the concatenation of the n enriched
    pages, and the requests it sent are exactly those for pages 1 to n + 1,
    in order, each with [size=100].  The vendor list of a response is its
    [vendors] entry, or its [data] entry when [vendors] is missing or
    empty.  So after pages of 100, 100 and 0 records it has sent 3 requests
    and holds 200 records. *)
Theorem fetch_vendors_pagination (fuel : nat) (st : state) (w1 w2 : W)
    (pages : list (list value)) (data vendors : value) :
  api_key_of config org = Ret api_key ->
  py_truthy api_key = true ->
  serves 1 (world st) pages w1 ->
  requests_get_json (request_for (S (List.length pages))) w1 = (inr data, w2) ->
  vendors_of data = Ret vendors ->
  py_truthy vendors = false ->
  List.length pages < fuel ->
  fetch_vendors fuel org start_date end_date config st
  = (Ret (VDict [("vendors", VList (concat pages))]),
     {| world := w2;
        sent := (sent st ++ map request_for (seq 1 (S (List.length pages))))%list;
        log := (log st ++ [LogFetching org start_date end_date;
                           LogNoMoreData org (S (List.length pages))])%list |})
  /\ (forall page : nat,
        url (request_for page)
        = base_url ++ "?page=" ++ str_of_nat page ++ "&size=100"
          ++ "&start_date=" ++ strftime_ymd start_date
          ++ "&end_date=" ++ strftime_ymd end_date)
  /\ (forall d : list (string * value),
        vendors_of (VDict d)
        = Ret (let vendors := match dict_get "vendors" d with
                              | Some v => v
                              | None => VList []
                              end in
               if py_truthy vendors then vendors
               else match dict_get "data" d with Some v => v | None => VList [] end))
  /\ List.length (concat pages) = list_sum (map (@List.length value) pages).
Proof.
  intros Hk Hkt Hs Hget Hv Ht Hfuel. split; [|split; [|split]].
  - rewrite (fetch_vendors_with_key fuel st Hk Hkt).
    replace fuel with (List.length pages + S (fuel - S (List.length pages))) by lia.
    rewrite (fetch_loop_serves _ _ _ _ Hs) by reflexivity.
    cbn [fetch_loop bind Monad_M]. unfold M_bind.
    rewrite Nat.add_1_r.
    erewrite fetch_page_break; [|cbn [world]; eassumption|eassumption|assumption].
    cbn [sent log world ret Monad_M].
    rewrite seq_S, map_app, <- !app_assoc. reflexivity.
  - intros page. reflexivity.
  - clear. intros d. unfold vendors_of, py_get.
    cbn [py_get_method bind Monad_result result_bind].
    destruct (py_truthy _); reflexivity.
  - clear. induction pages as [|x r IH]; simpl; [reflexivity|].
    now rewrite length_app, IH.
Qed.

(** C6. When the requests for pages 1 to n are answered with non-empty
    vendor lists and the request for page n + 1 raises a transport error,
    [fetch_vendors] returns the empty mapping: the records of the n pages
    are dropped, the failing page is requested once, and the error is
    logged. *)
Theorem fetch_vendors_transport_error (fuel : nat) (st : state) (w1 w2 : W)
    (pages : list (list value)) (e : exn) :
  api_key_of config org = Ret api_key ->
  py_truthy api_key = true ->
  serves 1 (world st) pages w1 ->
  requests_get_json (request_for (S (List.length pages))) w1 = (inl e, w2) ->
  is_request_exception e = true ->
  List.length pages < fuel ->
  fetch_vendors fuel org start_date end_date config st
  = (Ret (VDict []),
     {| world := w2;
        sent := (sent st ++ map request_for (seq 1 (S (List.length pages))))%list;
        log := (log st ++ [LogFetching org start_date end_date;
                           LogPageError (S (List.length pages)) org e])%list |}).
Proof.
  intros Hk Hkt Hs Hget He Hfuel.
  rewrite (fetch_vendors_with_key fuel st Hk Hkt).
  replace fuel with (List.length pages + S (fuel - S (List.length pages))) by lia.
  rewrite (fetch_loop_serves _ _ _ _ Hs) by reflexivity.
  cbn [fetch_loop bind Monad_M]. unfold M_bind.
  rewrite Nat.add_1_r.
  erewrite fetch_page_error; [|cbn [world]; eassumption|assumption].
  cbn [sent log world ret Monad_M].
  rewrite seq_S, map_app, <- !app_assoc. reflexivity.
Qed.

End Paging.

(** C3. On a page whose vendor list is a non-empty list of records, under
    an API key whose center table is a dict: the loop body hands on every
    record with [center_name] set and [center_id] removed.  For a record
    that carries a [center_id], [center_name] is the table's entry for that
    id, or the id itself when the table has none; [center_id] is gone and
    every other field is as it was.  A record without [center_id] is left
    as it is. *)
Theorem center_names_resolved (org : string) (start_date end_date : datetime)
    (config api_key data : value) (table : list (string * value))
    (page : nat) (acc rows : list value) (st : state) (w1 : W) :
  requests_get_json (vendors_request api_key start_date end_date page) (world st)
  = (inr data, w1) ->
  vendors_of data = Ret (VList rows) ->
  rows <> [] ->
  centers_of config api_key = Ret (VDict table) ->
  forallb record_ok rows = true ->
  fetch_page org start_date end_date config api_key page acc st
  = (Ret (Continue (acc ++ map (with_center_name table) rows)%list),
     {| world := w1;
        sent := (sent st ++ [vendors_request api_key start_date end_date page])%list;
        log := log st |})
  /\ (forall (d : list (string * value)) (center_id : value),
        In (VDict d) rows ->
        dict_get "center_id" d = Some center_id ->
        exists d',
          with_center_name table (VDict d) = VDict d'
          /\ dict_get "center_name" d' = Some (center_name_for table center_id)
          /\ dict_get "center_id" d' = None
          /\ (forall k, k <> "center_id" -> k <> "center_name" ->
                        dict_get k d' = dict_get k d))
  /\ (forall (d : list (string * value)),
        dict_get "center_id" d = None -> with_center_name table (VDict d) = VDict d)
  /\ (forall (k : string) (name : value),
        dict_get k table = Some name -> center_name_for table (VStr k) = name)
  /\ (forall k : string,
        dict_get k table = None -> center_name_for table (VStr k) = VStr k).
Proof.
  intros Hget Hv Hne Hc Hok. split; [|split; [|split; [|split]]].
  - apply (fetch_page_continue org start_date end_date config api_key page acc st w1
             data (VList rows) (VDict table) rows _ Hget Hv).
    + destruct rows; [contradiction|reflexivity].
    + assumption.
    + reflexivity.
    + now apply enrich_rows.
  - intros d center_id _ Hcid. now apply with_center_name_fields.
  - intros d Hnone. simpl. now rewrite Hnone.
  - intros k name Hk. simpl. now rewrite Hk.
  - intros k Hk. simpl. now rewrite Hk.
Qed.

(** C7. When the configuration gives the lowercased organization key no API
    key, or one that Python takes as false, [fetch_vendors] returns the empty
    mapping without raising, whatever the fuel: it logs the error, sends no
    request and leaves the world untouched. *)
Theorem fetch_vendors_no_api_key (fuel : nat) (org : string)
    (start_date end_date : datetime) (config api_key : value) (st : state) :
  api_key_of config org = Ret api_key ->
  py_truthy api_key = false ->
  fetch_vendors fuel org start_date end_date config st
  = (Ret (VDict []),
     {| world := world st; sent := sent st;
        log := (log st ++ [LogNoApiKey org])%list |}).
Proof.
  intros Hk Ht. unfold fetch_vendors, lift, logging.
  cbn [bind ret Monad_M]. unfold M_bind. rewrite Hk. cbv beta iota.
  rewrite Ht. reflexivity.
Qed.

(** *** The report builder *)

Lemma M_bind_ret {A B : Type} (c : M A) (k : A -> M B) (st st1 : state) (a : A) :
  c st = (Ret a, st1) -> M_bind c k st = k a st1.
Proof. intros H. unfold M_bind. now rewrite H. Qed.

Lemma M_bind_raise {A B : Type} (c : M A) (k : A -> M B) (st st1 : state) (e : exn) :
  c st = (Raise e, st1) -> M_bind c k st = (Raise e, st1).
Proof. intros H. unfold M_bind. now rewrite H. Qed.

Lemma M_bind_inv {A B : Type} (c : M A) (k : A -> M B) (st st' : state) (b : B) :
  M_bind c k st = (Ret b, st') ->
  exists a st1, c st = (Ret a, st1) /\ k a st1 = (Ret b, st').
Proof.
  unfold M_bind. destruct (c st) as [[a|e| |] st1]; intros H; try discriminate.
  now exists a, st1.
Qed.

Lemma filterM_valid_org (config : value) (mapping : list (string * value))
    (organizations : list string) :
  py_get config "org_to_api_key" (VDict []) = Ret (VDict mapping) ->
  filterM (valid_org config) organizations = Ret (kept_organizations mapping organizations).
Proof.
  intros Hm. induction organizations as [|org rest IH]; simpl; [reflexivity|].
  unfold valid_org at 1. rewrite Hm. simpl. rewrite IH. simpl.
  destruct (dict_mem (lower org) mapping); reflexivity.
Qed.

Lemma load_zenoti_config_ok (st : state) (config : value) (w : W) :
  os_path_exists default_config_path (world st) = true ->
  json_load default_config_path (world st) = (inr config, w) ->
  load_zenoti_config default_config_path st
  = (Ret config,
     {| world := w; sent := sent st;
        log := (log st ++ [LogConfigLoaded default_config_path])%list |}).
Proof.
  intros He Hl. unfold load_zenoti_config. rewrite He. cbn [negb].
  unfold try_except, perform, logging. cbn [bind ret Monad_M]. unfold M_bind.
  rewrite Hl. reflexivity.
Qed.

Lemma valid_organizations_run (config : value) (mapping : list (string * value))
    (organizations : list string) (st : state) :
  py_get config "org_to_api_key" (VDict []) = Ret (VDict mapping) ->
  valid_organizations config organizations st
  = match kept_organizations mapping organizations with
    | [] => (Raise (ValueError "No valid organizations found in config."),
             {| world := world st; sent := sent st;
                log := (log st ++ [LogNoValidOrgs])%list |})
    | kept => (Ret kept,
               {| world := world st; sent := sent st;
                  log := (log st ++ [LogValidOrgs kept])%list |})
    end.
Proof.
  intros Hm. unfold valid_organizations, lift.
  cbn [bind ret Monad_M]. unfold M_bind.
  rewrite (filterM_valid_org config mapping organizations Hm).
  destruct (kept_organizations mapping organizations); reflexivity.
Qed.

(** C5. When the configuration's API-key mapping is a dict (or is absent,
    which counts as the empty dict): the organizations kept are exactly the
    input keys whose lowercased form is a key of the mapping, in input
    order; the validation step raises, with [ValueError], if and only if
    none is kept, and returns the kept list otherwise; and when none is
    kept the whole report ends with that [ValueError], before any request
    is sent. *)
Theorem organizations_filtered (config : value) (mapping : list (string * value))
    (organizations : list string) :
  py_get config "org_to_api_key" (VDict []) = Ret (VDict mapping) ->
  (forall st : state,
      valid_organizations config organizations st
      = match kept_organizations mapping organizations with
        | [] => (Raise (ValueError "No valid organizations found in config."),
                 {| world := world st; sent := sent st;
                    log := (log st ++ [LogNoValidOrgs])%list |})
        | kept => (Ret kept,
                   {| world := world st; sent := sent st;
                      log := (log st ++ [LogValidOrgs kept])%list |})
        end)
  /\ (forall org : string,
        In org (kept_organizations mapping organizations)
        <-> In org organizations /\ dict_mem (lower org) mapping = true)
  /\ (forall st : state,
        (exists (e : exn) (st' : state),
            valid_organizations config organizations st = (Raise e, st'))
        <-> kept_organizations mapping organizations = [])
  /\ (forall (fuel : nat) (start_date end_date : datetime) (st : state) (w : W),
        os_path_exists default_config_path (world st) = true ->
        json_load default_config_path (world st) = (inr config, w) ->
        kept_organizations mapping organizations = [] ->
        get_vendors_report fuel (OrgList organizations) start_date end_date st
        = (Raise (ValueError "No valid organizations found in config."),
           {| world := w; sent := sent st;
              log := (log st ++ [LogReportStart (OrgList organizations) start_date end_date;
                                 LogConfigLoaded default_config_path;
                                 LogNoValidOrgs])%list |})).
Proof.
  intros Hm. split; [|split; [|split]].
  - intros st. now apply valid_organizations_run.
  - intros org. unfold kept_organizations. apply filter_In.
  - intros st. rewrite (valid_organizations_run config mapping organizations st Hm).
    destruct (kept_organizations mapping organizations) as [|org kept].
    + split; [reflexivity|]. intros _. eauto.
    + split; [|discriminate]. intros (e & st' & H). discriminate H.
  - intros fuel start_date end_date st w He Hl Hkept.
    unfold get_vendors_report, collect_raw_data.
    cbn [bind ret Monad_M organizations_list].
    apply M_bind_raise.
    erewrite M_bind_ret by reflexivity.
    erewrite M_bind_ret by (apply load_zenoti_config_ok; cbn [world]; eassumption).
    erewrite M_bind_ret by reflexivity.
    apply M_bind_raise.
    rewrite (valid_organizations_run config mapping organizations _ Hm), Hkept.
    cbn [world sent log]. rewrite <- !app_assoc. reflexivity.
Qed.

Lemma fetch_page_return (org : string) (start_date end_date : datetime)
    (config api_key : value) (page : nat) (acc : list value) (st st' : state) (v : value) :
  fetch_page org start_date end_date config api_key page acc st = (Ret (Return v), st') ->
  v = VDict [].
Proof.
  unfold fetch_page, try_except, http_get_json, lift, logging.
  cbn [bind ret Monad_M]. unfold M_bind.
  destruct (requests_get_json _ _) as [[e|data] w]; cbv beta iota.
  - destruct (is_request_exception e); intros H; inversion H; reflexivity.
  - destruct (vendors_of data) as [vendors|e| |]; cbv beta iota;
      try (intros H; discriminate H).
    + destruct (py_truthy vendors); cbn [negb]; cbv beta iota;
        try (intros H; discriminate H).
      destruct (centers_of config api_key) as [centers|e| |]; cbv beta iota;
        try (intros H; discriminate H);
        try (destruct (is_request_exception e); intros H; inversion H; reflexivity).
      destruct (py_iter vendors) as [items|e| |]; cbv beta iota;
        try (intros H; discriminate H);
        try (destruct (is_request_exception e); intros H; inversion H; reflexivity).
      destruct (mapM (enrich_vendor centers) items) as [enriched|e| |]; cbv beta iota;
        try (intros H; discriminate H);
        try (destruct (is_request_exception e); intros H; inversion H; reflexivity).
    + destruct (is_request_exception e); intros H; inversion H; reflexivity.
Qed.

Lemma fetch_loop_shape (org : string) (start_date end_date : datetime)
    (config api_key : value) (fuel : nat) :
  forall (page : nat) (acc : list value) (st st' : state) (v : value),
    fetch_loop org start_date end_date config api_key fuel page acc st = (Ret v, st') ->
    fetch_shape v.
Proof.
  induction fuel as [|fuel IH]; intros page acc st st' v.
  - discriminate.
  - cbn [fetch_loop bind Monad_M]. intros H.
    apply M_bind_inv in H. destruct H as (step & st1 & Hpage & Hk).
    destruct step as [|acc'|r].
    + inversion Hk. right. now eexists.
    + now apply IH in Hk.
    + inversion Hk. subst r. left. now apply fetch_page_return in Hpage.
Qed.

Lemma fetch_vendors_shape (fuel : nat) (org : string) (start_date end_date : datetime)
    (config : value) (st st' : state) (v : value) :
  fetch_vendors fuel org start_date end_date config st = (Ret v, st') -> fetch_shape v.
Proof.
  unfold fetch_vendors. cbn [bind ret Monad_M]. intros H.
  apply M_bind_inv in H. destruct H as (api_key & st1 & _ & Hk).
  destruct (py_truthy api_key); cbn [negb] in Hk.
  - apply M_bind_inv in Hk. destruct Hk as (u & st2 & _ & Hk).
    now apply fetch_loop_shape in Hk.
  - apply M_bind_inv in Hk. destruct Hk as (u & st2 & _ & Hk).
    inversion Hk. now left.
Qed.

Lemma dict_set_Forall {A : Type} (P : string * A -> Prop) (k : string) (v : A)
    (d : list (string * A)) :
  P (k, v) -> Forall P d -> Forall P (dict_set k v d).
Proof.
  intros Hv. induction 1 as [|[k' v'] r Hx Hr IH]; simpl.
  - now constructor.
  - destruct (String.eqb k k'); constructor; auto.
Qed.

Lemma fetch_raw_data_shape (fuel : nat) (start_date end_date : datetime) (config : value)
    (valid_orgs : list string) :
  forall (raw0 raw : list (string * value)) (st st' : state),
    Forall (fun entry => fetch_shape (snd entry)) raw0 ->
    fetch_raw_data fuel start_date end_date config valid_orgs raw0 st = (Ret raw, st') ->
    Forall (fun entry => fetch_shape (snd entry)) raw.
Proof.
  induction valid_orgs as [|org rest IH]; intros raw0 raw st st' H0.
  - intros H. inversion H. now subst.
  - cbn [fetch_raw_data bind Monad_M]. intros H.
    apply M_bind_inv in H. destruct H as (data & st1 & Hf & Hk).
    apply (IH _ _ _ _ (dict_set_Forall _ org data raw0
                         (fetch_vendors_shape _ _ _ _ _ _ _ _ Hf) H0) Hk).
Qed.

Lemma collect_raw_data_shape (fuel : nat) (organizations : org_arg)
    (start_date end_date : datetime) (st st' : state)
    (valid_orgs : list string) (raw_data : list (string * value)) :
  collect_raw_data fuel organizations start_date end_date st
  = (Ret (valid_orgs, raw_data), st') ->
  Forall (fun entry => fetch_shape (snd entry)) raw_data.
Proof.
  unfold collect_raw_data. cbn [bind ret Monad_M]. intros H.
  apply M_bind_inv in H. destruct H as (u & st1 & _ & H).
  apply M_bind_inv in H. destruct H as (config & st2 & _ & H).
  apply M_bind_inv in H. destruct H as (orgs & st3 & _ & H).
  apply M_bind_inv in H. destruct H as (valid & st4 & _ & H).
  apply M_bind_inv in H. destruct H as (raw & st5 & Hraw & H).
  apply M_bind_inv in H. destruct H as (u' & st6 & _ & H).
  inversion H. subst.
  apply (fetch_raw_data_shape _ _ _ _ _ [] _ _ _ (Forall_nil _) Hraw).
Qed.

Lemma list_mem_keys {A : Type} (k : string) (d : list (string * A)) :
  list_mem k (dict_keys d) = dict_mem k d.
Proof.
  unfold list_mem, dict_keys, dict_mem.
  induction d as [|[k' v'] d IH]; simpl; [reflexivity|].
  destruct (String.eqb k k'); simpl; auto.
Qed.

Lemma no_vendors_data_dict (d : list (string * value)) :
  no_vendors_data (VDict d) = Ret (negb (dict_mem "vendors" d)).
Proof.
  unfold no_vendors_data. destruct d as [|[k v] r]; [reflexivity|].
  cbn [py_truthy negb py_keys bind Monad_result result_bind].
  now rewrite list_mem_keys.
Qed.

Lemma validate_keys_first_missing (raw_data : list (string * value)) :
  Forall (fun entry => fetch_shape (snd entry)) raw_data ->
  forall st : state,
    validate_keys raw_data st
    = match first_missing raw_data with
      | Some org =>
          (Raise (ValueError ("No vendors data found for " ++ org ++ ".")),
           {| world := world st; sent := sent st;
              log := (log st ++ [LogNoVendorsData org])%list |})
      | None => (Ret tt, st)
      end.
Proof.
  induction 1 as [|[org data] rest Hd Hrest IH]; intros st; [reflexivity|].
  cbn [validate_keys first_missing bind Monad_M]. unfold lift, M_bind.
  cbn [snd] in Hd.
  destruct Hd as [->|[l ->]]; rewrite no_vendors_data_dict; cbv beta iota.
  - reflexivity.
  - cbn [dict_mem dict_get String.eqb Ascii.eqb Bool.eqb negb]. simpl. apply IH.
Qed.

Lemma first_missing_exists (raw_data : list (string * value)) (org : string)
    (d : list (string * value)) :
  Forall (fun entry => fetch_shape (snd entry)) raw_data ->
  In (org, VDict d) raw_data ->
  dict_mem "vendors" d = false ->
  exists org', first_missing raw_data = Some org' /\ In org' (dict_keys raw_data).
Proof.
  induction 1 as [|[org0 data0] rest Hd Hrest IH]; intros Hin Hmem; [destruct Hin|].
  cbn [snd] in Hd. cbn [first_missing dict_keys map fst].
  destruct Hd as [->|[l ->]].
  - exists org0. split; [reflexivity|now left].
  - cbn [dict_mem dict_get]. simpl.
    destruct Hin as [Heq|Hin].
    + inversion Heq. subst. discriminate Hmem.
    + destruct (IH Hin Hmem) as (org' & H1 & H2).
      exists org'. split; [assumption|now right].
Qed.

(** C4 (as amended). Once every fetch has completed, if the result fetched
    for some organization is the empty mapping or has no [vendors] key,
    which is the check [not data or "vendors" not in data.keys()], then
    [get_vendors_report] ends with a [ValueError] naming one of the fetched
    organizations, and no table is returned for any organization.  So two
    organizations, one returning data and one with an empty API key, make
    the whole report fail.  The check looks at the key, not at what is
    under it: a result whose [vendors] list is empty goes through. *)
Theorem report_aborts_when_data_missing (fuel : nat) (organizations : org_arg)
    (start_date end_date : datetime) (st st' : state)
    (valid_orgs : list string) (raw_data : list (string * value))
    (org : string) (data : value) :
  collect_raw_data fuel organizations start_date end_date st
  = (Ret (valid_orgs, raw_data), st') ->
  In (org, data) raw_data ->
  no_vendors_data data = Ret true ->
  exists org',
    In org' (dict_keys raw_data)
    /\ get_vendors_report fuel organizations start_date end_date st
       = (Raise (ValueError ("No vendors data found for " ++ org' ++ ".")),
          {| world := world st'; sent := sent st';
             log := (log st' ++ [LogNoVendorsData org'])%list |}).
Proof.
  intros Hc Hin Hno.
  pose proof (collect_raw_data_shape _ _ _ _ _ _ _ _ Hc) as Hshape.
  assert (Hd : exists d, data = VDict d /\ dict_mem "vendors" d = false).
  { rewrite Forall_forall in Hshape. specialize (Hshape _ Hin). cbn [snd] in Hshape.
    destruct Hshape as [->|[l ->]].
    - now exists [].
    - rewrite no_vendors_data_dict in Hno. discriminate Hno. }
  destruct Hd as (d & -> & Hmem).
  destruct (first_missing_exists raw_data org d Hshape Hin Hmem) as (org' & Hfm & Hkeys).
  exists org'. split; [assumption|].
  unfold get_vendors_report. cbn [bind Monad_M].
  rewrite (M_bind_ret _ _ _ _ _ Hc). cbn [fst snd].
  unfold build_report. cbn [bind Monad_M].
  apply M_bind_raise.
  now rewrite (validate_keys_first_missing raw_data Hshape st'), Hfm.
Qed.

Lemma build_report_no_vendors (org : string) (st : state) :
  build_report [org] [(org, VDict [("vendors", VList [])])] st
  = (Ret [(org, empty_report)],
     {| world := world st; sent := sent st;
        log := (log st ++ [LogExtracted 1; LogLoadedFrames])%list |}).
Proof.
  unfold build_report. cbn [bind Monad_M].
  erewrite M_bind_ret by reflexivity.
  unfold lift. cbn [extract_main_data dict_get bind Monad_result result_bind].
  rewrite String.eqb_refl.
  erewrite M_bind_ret by reflexivity.
  erewrite M_bind_ret by reflexivity.
  erewrite M_bind_ret by reflexivity.
  erewrite M_bind_ret by reflexivity.
  erewrite M_bind_ret by reflexivity.
  cbn. rewrite <- app_assoc. reflexivity.
Qed.

Lemma api_key_of_mapping (config : value) (mapping : list (string * value))
    (org : string) :
  py_get config "org_to_api_key" (VDict []) = Ret (VDict mapping) ->
  api_key_of config org
  = Ret (match dict_get (lower org) mapping with Some k => k | None => VNone end).
Proof. intros Hm. unfold api_key_of. rewrite Hm. reflexivity. Qed.

Lemma fetch_vendors_first_page_empty (fuel : nat) (org : string)
    (start_date end_date : datetime) (config api_key data vendors : value)
    (st : state) (w1 : W) :
  api_key_of config org = Ret api_key ->
  py_truthy api_key = true ->
  requests_get_json (vendors_request api_key start_date end_date 1) (world st)
  = (inr data, w1) ->
  vendors_of data = Ret vendors ->
  py_truthy vendors = false ->
  0 < fuel ->
  fetch_vendors fuel org start_date end_date config st
  = (Ret (VDict [("vendors", VList [])]),
     {| world := w1;
        sent := (sent st ++ [vendors_request api_key start_date end_date 1])%list;
        log := (log st ++ [LogFetching org start_date end_date;
                           LogNoMoreData org 1])%list |}).
Proof.
  intros Hk Hkt Hget Hv Ht Hfuel.
  rewrite (fetch_vendors_with_key org start_date end_date config api_key fuel st Hk Hkt).
  destruct fuel as [|fuel]; [lia|].
  cbn [fetch_loop bind Monad_M]. unfold M_bind.
  erewrite fetch_page_break; [|cbn [world]; eassumption|eassumption|assumption].
  cbn [sent log world ret Monad_M]. rewrite <- app_assoc. reflexivity.
Qed.

(** C10. When the configuration loads, the organization has an API key
    Python takes as true, and the first page comes back without vendor
    records: [fetch_vendors] returns [{'vendors': []}]; the check of
    "Validate keys" does not reject that value; and the report for that
    organization is returned, as a table without rows, instead of an
    error. *)
Theorem empty_first_page_accepted (fuel : nat) (org : string)
    (start_date end_date : datetime) (config api_key data vendors : value)
    (mapping : list (string * value)) (st : state) (w0 w1 : W) :
  os_path_exists default_config_path (world st) = true ->
  json_load default_config_path (world st) = (inr config, w0) ->
  py_get config "org_to_api_key" (VDict []) = Ret (VDict mapping) ->
  dict_get (lower org) mapping = Some api_key ->
  py_truthy api_key = true ->
  requests_get_json (vendors_request api_key start_date end_date 1) w0 = (inr data, w1) ->
  vendors_of data = Ret vendors ->
  py_truthy vendors = false ->
  0 < fuel ->
  (forall (sent0 : list request) (log0 : list log_event),
      fetch_vendors fuel org start_date end_date config
        {| world := w0; sent := sent0; log := log0 |}
      = (Ret (VDict [("vendors", VList [])]),
         {| world := w1;
            sent := (sent0 ++ [vendors_request api_key start_date end_date 1])%list;
            log := (log0 ++ [LogFetching org start_date end_date;
                             LogNoMoreData org 1])%list |}))
  /\ no_vendors_data (VDict [("vendors", VList [])]) = Ret false
  /\ get_vendors_report fuel (OrgList [org]) start_date end_date st
     = (Ret [(org, empty_report)],
        {| world := w1;
           sent := (sent st ++ [vendors_request api_key start_date end_date 1])%list;
           log := (log st ++ [LogReportStart (OrgList [org]) start_date end_date;
                              LogConfigLoaded default_config_path;
                              LogValidOrgs [org];
                              LogFetching org start_date end_date;
                              LogNoMoreData org 1;
                              LogFetched 1;
                              LogExtracted 1;
                              LogLoadedFrames])%list |}).
Proof.
  intros He Hl Hm Hkey Hkt Hget Hv Ht Hfuel.
  assert (Hk : api_key_of config org = Ret api_key).
  { rewrite (api_key_of_mapping config mapping org Hm). now rewrite Hkey. }
  assert (Hfetch : forall sent0 log0,
             fetch_vendors fuel org start_date end_date config
               {| world := w0; sent := sent0; log := log0 |}
             = (Ret (VDict [("vendors", VList [])]),
                {| world := w1;
                   sent := (sent0 ++ [vendors_request api_key start_date end_date 1])%list;
                   log := (log0 ++ [LogFetching org start_date end_date;
                                    LogNoMoreData org 1])%list |})).
  { intros sent0 log0.
    now apply (fetch_vendors_first_page_empty fuel org start_date end_date config
                 api_key data vendors {| world := w0; sent := sent0; log := log0 |}
                 w1 Hk Hkt Hget Hv Ht Hfuel). }
  split; [exact Hfetch|]. split; [reflexivity|].
  unfold get_vendors_report, collect_raw_data.
  cbn [bind ret Monad_M organizations_list].
  erewrite M_bind_ret; cycle 1.
  { erewrite M_bind_ret by reflexivity.
    erewrite M_bind_ret by (apply load_zenoti_config_ok; cbn [world]; eassumption).
    erewrite M_bind_ret by reflexivity.
    erewrite M_bind_ret; cycle 1.
    { rewrite (valid_organizations_run config mapping [org] _ Hm).
      unfold kept_organizations, dict_mem. cbn [filter]. rewrite Hkey. reflexivity. }
    cbn [fetch_raw_data bind ret Monad_M world sent log].
    erewrite M_bind_ret; cycle 1.
    { erewrite M_bind_ret by apply Hfetch. reflexivity. }
    erewrite M_bind_ret by reflexivity.
    reflexivity. }
  cbn [fst snd dict_set]. rewrite build_report_no_vendors.
  cbn [world sent log]. rewrite <- !app_assoc. reflexivity.
Qed.

(** *** The exporter *)

Lemma perform_cases {A : Type} (call : W -> (exn + A) * W) (st : state) :
  (exists a st', perform call st = (Ret a, st'))
  \/ (exists e st', perform call st = (Raise e, st')).
Proof.
  unfold perform. destruct (call (world st)) as [[e|a] w]; [right|left]; eauto.
Qed.

Lemma write_sheets_cases (output_file : string) (data : list (string * frame)) :
  forall st : state,
    (exists st', write_sheets output_file data st = (Ret tt, st'))
    \/ (exists e st', write_sheets output_file data st = (Raise e, st')).
Proof.
  induction data as [|[org df] rest IH]; intros st.
  - left. now exists st.
  - cbn [write_sheets bind Monad_M].
    destruct (perform_cases (to_excel df output_file org) st)
      as [(a & st1 & H1)|(e & st1 & H1)].
    + rewrite (M_bind_ret _ _ _ _ _ H1).
      erewrite M_bind_ret by reflexivity. apply IH.
    + right. exists e, st1. now apply M_bind_raise.
Qed.

Lemma write_workbook_cases (output_file : string) (data : list (string * frame))
    (st : state) :
  (exists st', write_workbook output_file data st = (Ret tt, st'))
  \/ (exists e st', write_workbook output_file data st = (Raise e, st')).
Proof.
  unfold write_workbook, with_excel_writer. cbn [bind Monad_M].
  destruct (perform_cases (excel_open output_file) st)
    as [(a & st1 & H1)|(e & st1 & H1)].
  - destruct (write_sheets_cases output_file data st1)
      as [(st2 & H2)|(e & st2 & H2)].
    + destruct (perform_cases (excel_close output_file) st2)
        as [(b & st3 & H3)|(e & st3 & H3)].
      * left. eexists. erewrite M_bind_ret; [reflexivity|].
        rewrite (M_bind_ret _ _ _ _ _ H1). rewrite H2.
        rewrite (M_bind_ret _ _ _ _ _ H3). reflexivity.
      * right. exists e, st3. apply M_bind_raise.
        rewrite (M_bind_ret _ _ _ _ _ H1). rewrite H2.
        now apply M_bind_raise.
    + destruct (perform_cases (excel_close output_file) st2)
        as [(b & st3 & H3)|(e' & st3 & H3)].
      * right. exists e, st3. apply M_bind_raise.
        rewrite (M_bind_ret _ _ _ _ _ H1). rewrite H2.
        rewrite (M_bind_ret _ _ _ _ _ H3). reflexivity.
      * right. exists e', st3. apply M_bind_raise.
        rewrite (M_bind_ret _ _ _ _ _ H1). rewrite H2.
        now apply M_bind_raise.
  - right. exists e, st1. apply M_bind_raise. now apply M_bind_raise.
Qed.

(** C9. Once the output directory exists, [export_orgs_to_excel] returns
    normally for every report mapping and every behaviour of the
    spreadsheet writer.  When opening the writer, writing a sheet or
    closing the writer raises, the exception is logged as an error and
    dropped; the value handed to the caller is the same [None] as after a
    successful write. *)
Theorem export_swallows_write_errors (data : list (string * frame))
    (output_dir report_name date_str : string) (st : state) (w1 : W) :
  os_makedirs output_dir (world st) = (inr tt, w1) ->
  let output_file :=
    os_path_join output_dir (report_name ++ "_" ++ date_str ++ ".xlsx") in
  let st1 := {| world := w1; sent := sent st; log := log st |} in
  (exists st', export_orgs_to_excel data output_dir report_name date_str st = (Ret tt, st'))
  /\ (forall (e : exn) (st2 : state),
        write_workbook output_file data st1 = (Raise e, st2) ->
        export_orgs_to_excel data output_dir report_name date_str st
        = (Ret tt, {| world := world st2; sent := sent st2;
                      log := (log st2 ++ [LogExcelError output_file e])%list |}))
  /\ (forall st2 : state,
        write_workbook output_file data st1 = (Ret tt, st2) ->
        export_orgs_to_excel data output_dir report_name date_str st = (Ret tt, st2)).
Proof.
  intros Hmk output_file st1.
  assert (Hrun : export_orgs_to_excel data output_dir report_name date_str st
                 = try_except (write_workbook output_file data) is_exception
                     (fun e => logging (LogExcelError output_file e)) st1).
  { unfold export_orgs_to_excel. cbn [bind Monad_M].
    erewrite M_bind_ret; [reflexivity|].
    unfold perform. now rewrite Hmk. }
  assert (Hraise : forall e st2,
             write_workbook output_file data st1 = (Raise e, st2) ->
             export_orgs_to_excel data output_dir report_name date_str st
             = (Ret tt, {| world := world st2; sent := sent st2;
                           log := (log st2 ++ [LogExcelError output_file e])%list |})).
  { intros e st2 H. rewrite Hrun. unfold try_except. now rewrite H. }
  assert (Hret : forall st2,
             write_workbook output_file data st1 = (Ret tt, st2) ->
             export_orgs_to_excel data output_dir report_name date_str st = (Ret tt, st2)).
  { intros st2 H. rewrite Hrun. unfold try_except. now rewrite H. }
  split; [|split; assumption].
  destruct (write_workbook_cases output_file data st1) as [(st2 & H)|(e & st2 & H)].
  - exists st2. now apply Hret.
  - eexists. apply Hraise. eassumption.
Qed.

(** ** Further properties *)

(** *** The configuration loader under the report builder *)

(** X1. Without a configuration file the report fails at once: the path is
    tested, the error is logged, [FileNotFoundError] is raised, and neither
    the file nor the API is touched. *)
Theorem report_without_config_file (fuel : nat) (organizations : org_arg)
    (start_date end_date : datetime) (st : state) :
  os_path_exists default_config_path (world st) = false ->
  get_vendors_report fuel organizations start_date end_date st
  = (Raise (FileNotFoundError ("Configuration file not found: " ++ default_config_path)),
     {| world := world st; sent := sent st;
        log := (log st ++ [LogReportStart organizations start_date end_date;
                           LogConfigNotFound default_config_path])%list |}).
Proof.
  intros He. unfold get_vendors_report, collect_raw_data.
  cbn [bind ret Monad_M]. apply M_bind_raise.
  erewrite M_bind_ret by reflexivity. apply M_bind_raise.
  unfold load_zenoti_config. cbn [world]. rewrite He. cbn [negb].
  unfold logging, raise, lift. cbn [bind ret Monad_M]. unfold M_bind.
  cbn [world sent log]. rewrite <- app_assoc. reflexivity.
Qed.

(** X2. When the configuration file exists but reading it raises, the
    exception leaves the report unchanged and no request is sent.  It is
    logged beforehand only when it is a [JSONDecodeError]; any other
    failure of the read passes through without a log entry. *)
Theorem report_with_unreadable_config (fuel : nat) (organizations : org_arg)
    (start_date end_date : datetime) (st : state) (e : exn) (w : W) :
  os_path_exists default_config_path (world st) = true ->
  json_load default_config_path (world st) = (inl e, w) ->
  get_vendors_report fuel organizations start_date end_date st
  = (Raise e,
     {| world := w; sent := sent st;
        log := (log st ++ LogReportStart organizations start_date end_date
                  :: (if is_json_decode_error e
                      then [LogConfigInvalid default_config_path e] else []))%list |}).
Proof.
  intros He Hl. unfold get_vendors_report, collect_raw_data.
  cbn [bind ret Monad_M]. apply M_bind_raise.
  erewrite M_bind_ret by reflexivity. apply M_bind_raise.
  unfold load_zenoti_config. cbn [world]. rewrite He. cbn [negb].
  unfold try_except, perform, logging, raise, lift.
  cbn [bind ret Monad_M]. unfold M_bind. cbn [world sent log]. rewrite Hl.
  destruct (is_json_decode_error e); cbn [world sent log].
  - rewrite <- app_assoc. reflexivity.
  - reflexivity.
Qed.

(** *** More on fetch_vendors *)

Section FetchOutcomes.
Variables (org : string) (start_date end_date : datetime) (config api_key : value).

Local Abbreviation request_for := (vendors_request api_key start_date end_date).
Local Abbreviation serves := (serves start_date end_date config api_key).

(** How one turn of the loop can end without an exception, and what it
    has logged by then. *)
Lemma fetch_page_outcome (page : nat) (acc : list value) (st st' : state)
    (step : loop_step) :
  fetch_page org start_date end_date config api_key page acc st = (Ret step, st') ->
  (step = Break /\ log st' = (log st ++ [LogNoMoreData org page])%list)
  \/ (exists acc', step = Continue acc' /\ log st' = log st)
  \/ (exists e, step = Return (VDict []) /\ is_request_exception e = true
                /\ log st' = (log st ++ [LogPageError page org e])%list).
Proof.
  unfold fetch_page, try_except, http_get_json, lift, logging.
  cbn [bind ret Monad_M]. unfold M_bind.
  destruct (requests_get_json _ _) as [[e|data] w]; cbv beta iota.
  - destruct (is_request_exception e) eqn:He; intros H; inversion H.
    right. right. exists e. cbn [log]. auto.
  - destruct (vendors_of data) as [vendors|e| |]; cbv beta iota;
      try (intros H; discriminate H).
    + destruct (py_truthy vendors); cbn [negb]; cbv beta iota.
      * destruct (centers_of config api_key) as [centers|e| |]; cbv beta iota;
          try (intros H; discriminate H);
          try (destruct (is_request_exception e) eqn:He; intros H; inversion H;
               right; right; exists e; cbn [log]; auto).
        destruct (py_iter vendors) as [items|e| |]; cbv beta iota;
          try (intros H; discriminate H);
          try (destruct (is_request_exception e) eqn:He; intros H; inversion H;
               right; right; exists e; cbn [log]; auto).
        destruct (mapM (enrich_vendor centers) items) as [enriched|e| |]; cbv beta iota;
          try (intros H; discriminate H);
          try (destruct (is_request_exception e) eqn:He; intros H; inversion H;
               right; right; exists e; cbn [log]; auto).
        intros H. inversion H. right. left. eexists. cbn [log]. auto.
      * intros H. inversion H. left. cbn [log]. auto.
    + destruct (is_request_exception e) eqn:He; intros H; inversion H.
      right. right. exists e. cbn [log]. auto.
Qed.

Lemma fetch_loop_outcome (fuel : nat) :
  forall (page : nat) (acc : list value) (st st' : state) (v : value),
    fetch_loop org start_date end_date config api_key fuel page acc st = (Ret v, st') ->
    (v = VDict []
     /\ exists l0 p e, log st' = (l0 ++ [LogPageError p org e])%list
                       /\ is_request_exception e = true)
    \/ (exists l l0 p, v = VDict [("vendors", VList l)]
                       /\ log st' = (l0 ++ [LogNoMoreData org p])%list).
Proof.
  induction fuel as [|fuel IH]; intros page acc st st' v.
  - discriminate.
  - cbn [fetch_loop bind Monad_M]. intros H.
    apply M_bind_inv in H. destruct H as (step & st1 & Hpage & Hk).
    apply fetch_page_outcome in Hpage.
    destruct Hpage as [[-> Hlog]|[(acc' & -> & Hlog)|(e & -> & He & Hlog)]].
    + injection Hk as <- <-. right. exists acc, (log st), page. auto.
    + now apply IH in Hk.
    + injection Hk as <- <-. left. split; [reflexivity|].
      exists (log st), page, e. auto.
Qed.

(** X4. An exception of the HTTP layer that is not a [RequestException]
    is not handled: after n good pages it leaves [fetch_vendors] as it is,
    nothing is logged for it and no mapping is returned. *)
Theorem fetch_vendors_other_exception (fuel : nat) (st : state) (w1 w2 : W)
    (pages : list (list value)) (e : exn) :
  api_key_of config org = Ret api_key ->
  py_truthy api_key = true ->
  serves 1 (world st) pages w1 ->
  requests_get_json (request_for (S (List.length pages))) w1 = (inl e, w2) ->
  is_request_exception e = false ->
  List.length pages < fuel ->
  fetch_vendors fuel org start_date end_date config st
  = (Raise e,
     {| world := w2;
        sent := (sent st ++ map request_for (seq 1 (S (List.length pages))))%list;
        log := (log st ++ [LogFetching org start_date end_date])%list |}).
Proof.
  intros Hk Hkt Hs Hget He Hfuel.
  rewrite (fetch_vendors_with_key org start_date end_date config api_key fuel st Hk Hkt).
  replace fuel with (List.length pages + S (fuel - S (List.length pages))) by lia.
  rewrite (fetch_loop_serves org _ _ _ _ _ _ _ _ Hs) by reflexivity.
  cbn [fetch_loop bind Monad_M]. apply M_bind_raise. rewrite Nat.add_1_r.
  unfold fetch_page, try_except, http_get_json.
  cbn [bind ret Monad_M]. unfold M_bind. cbn [world sent log].
  rewrite Hget. cbv beta iota. rewrite He.
  rewrite seq_S, map_app, <- !app_assoc. reflexivity.
Qed.

(** X5. A configuration without [centers_by_key] breaks the fetch as soon
    as a page holds vendors: [config['centers_by_key']] raises [KeyError],
    which is not a [RequestException], so it leaves [fetch_vendors] after
    the first request. *)
Theorem fetch_vendors_without_center_tables (fuel : nat) (st : state) (w1 : W)
    (c : list (string * value)) (data vendors : value) :
  config = VDict c ->
  dict_get "centers_by_key" c = None ->
  api_key_of config org = Ret api_key ->
  py_truthy api_key = true ->
  requests_get_json (request_for 1) (world st) = (inr data, w1) ->
  vendors_of data = Ret vendors ->
  py_truthy vendors = true ->
  0 < fuel ->
  fetch_vendors fuel org start_date end_date config st
  = (Raise (KeyError "centers_by_key"),
     {| world := w1; sent := (sent st ++ [request_for 1])%list;
        log := (log st ++ [LogFetching org start_date end_date])%list |}).
Proof.
  intros Hc Hnone Hk Hkt Hget Hv Ht Hfuel.
  rewrite (fetch_vendors_with_key org start_date end_date config api_key fuel st Hk Hkt).
  destruct fuel as [|fuel]; [lia|].
  cbn [fetch_loop bind Monad_M]. apply M_bind_raise.
  unfold fetch_page, try_except, http_get_json, lift.
  cbn [bind ret Monad_M]. unfold M_bind. cbn [world sent log].
  rewrite Hget. cbv beta iota. rewrite Hv. cbv beta iota. rewrite Ht. cbn [negb].
  cbv beta iota. unfold centers_of. rewrite Hc. cbn [py_getitem]. rewrite Hnone.
  reflexivity.
Qed.

(** X6. The loop has no page limit.  Against a server that answers every
    request with a non-empty page, from every world it can reach, no amount
    of fuel lets [fetch_vendors] return. *)
Theorem fetch_vendors_endless (reachable : W -> Prop) (fuel : nat) (st : state) :
  api_key_of config org = Ret api_key ->
  py_truthy api_key = true ->
  (forall (p : nat) (w : W),
      reachable w -> exists page w1, serves p w [page] w1 /\ reachable w1) ->
  reachable (world st) ->
  fst (fetch_vendors fuel org start_date end_date config st) = OutOfFuel.
Proof.
  intros Hk Hkt Hserve Hr.
  rewrite (fetch_vendors_with_key org start_date end_date config api_key fuel st Hk Hkt).
  assert (Hloop : forall fuel p acc st0,
             reachable (world st0) ->
             fst (fetch_loop org start_date end_date config api_key fuel p acc st0)
             = OutOfFuel).
  { clear fuel st Hr. induction fuel as [|fuel IH]; intros p acc st0 Hr0.
    - reflexivity.
    - destruct (Hserve p (world st0) Hr0) as (page & w1 & Hs & Hr1).
      change (S fuel) with (List.length [page] + fuel).
      rewrite (fetch_loop_serves org _ _ _ _ _ _ _ _ Hs) by reflexivity.
      now apply IH. }
  now apply Hloop.
Qed.

End FetchOutcomes.

(** X3. Whenever [fetch_vendors] returns, the value is either the empty
    mapping or a mapping with the single key [vendors] holding a list.  The
    empty mapping comes only with an error as the last log entry: the
    missing API key, or the transport error of the page that failed.  A
    [vendors] mapping comes only after a page without records was seen. *)
Theorem fetch_vendors_outcome (fuel : nat) (org : string)
    (start_date end_date : datetime) (config : value) (st st' : state) (v : value) :
  fetch_vendors fuel org start_date end_date config st = (Ret v, st') ->
  (v = VDict []
   /\ exists l0 ev,
        log st' = (l0 ++ [ev])%list
        /\ (ev = LogNoApiKey org
            \/ exists p e, ev = LogPageError p org e /\ is_request_exception e = true))
  \/ (exists l l0 p,
        v = VDict [("vendors", VList l)]
        /\ log st' = (l0 ++ [LogNoMoreData org p])%list).
Proof.
  unfold fetch_vendors. cbn [bind ret Monad_M]. intros H.
  apply M_bind_inv in H. destruct H as (api_key & st1 & _ & Hk).
  destruct (py_truthy api_key); cbn [negb] in Hk.
  - apply M_bind_inv in Hk. destruct Hk as (u & st2 & _ & Hk).
    apply fetch_loop_outcome in Hk.
    destruct Hk as [(-> & l0 & p & e & Hlog & He)|(l & l0 & p & -> & Hlog)].
    + left. split; [reflexivity|]. exists l0, (LogPageError p org e).
      split; [assumption|]. right. exists p, e. auto.
    + right. exists l, l0, p. auto.
  - apply M_bind_inv in Hk. destruct Hk as (u & st2 & Hlog & Hk).
    injection Hk as <- <-. left. split; [reflexivity|].
    unfold logging in Hlog. injection Hlog as _ <-.
    exists (log st1), (LogNoApiKey org). cbn [log]. auto.
Qed.

(** X7. Enrichment is idempotent on records: a record that went through
    the loop body once is left as it is by a second pass, under any center
    table, because its [center_id] is gone. *)
Theorem enrich_vendor_idempotent (table table' : list (string * value))
    (vendor : value) :
  record_ok vendor = true ->
  exists vendor',
    enrich_vendor (VDict table) vendor = Ret vendor'
    /\ enrich_vendor (VDict table') vendor' = Ret vendor'.
Proof.
  intros Hok. exists (with_center_name table vendor).
  split; [now apply enrich_vendor_record|].
  destruct vendor as [| | | | | |d]; try discriminate Hok.
  cbn [with_center_name].
  destruct (dict_get "center_id" d) as [cid|] eqn:E.
  - unfold enrich_vendor, py_contains, dict_mem.
    rewrite dict_get_pop_same. reflexivity.
  - unfold enrich_vendor, py_contains, dict_mem. rewrite E. reflexivity.
Qed.

(** *** The tables of the report *)

Lemma normalize_phone_run (phone : value) (st : state) :
  normalize_phone (Plain phone) st = (Ret (normalized_phone phone), st).
Proof.
  unfold normalize_phone, try_except, lift.
  now rewrite normalize_phone_body_total.
Qed.

Lemma mapM_pure {A B : Type} (f : A -> M B) (g : A -> B) :
  (forall x st, f x st = (Ret (g x), st)) ->
  forall (l : list A) (st : state), mapM f l st = (Ret (map g l), st).
Proof.
  intros Hf. induction l as [|x l IH]; intros st; [reflexivity|].
  cbn [mapM map bind ret Monad_M].
  rewrite (M_bind_ret _ _ _ _ _ (Hf x st)).
  rewrite (M_bind_ret _ _ _ _ _ (IH st)). reflexivity.
Qed.

Lemma normalize_work_phone_value (entry : string * frame) (st st' : state)
    (out : string * frame) :
  normalize_work_phone entry st = (Ret out, st') ->
  out = (fst entry, normalize_column (snd entry)).
Proof.
  destruct entry as [org df]. unfold normalize_work_phone, normalize_column.
  cbn [fst snd].
  destruct (dict_get "work_phone" (columns df)) as [cells|].
  - cbn [bind ret Monad_M]. intros H.
    rewrite (M_bind_ret _ _ _ _ _
               (mapM_pure (fun phone => normalize_phone (Plain phone)) _
                  normalize_phone_run cells st)) in H.
    apply M_bind_inv in H. destruct H as (u & st1 & _ & H).
    now injection H as <- _.
  - intros H. now injection H as <- _.
Qed.

Lemma mapM_normalize_work_phone (frames : list (string * frame)) :
  forall (st st' : state) (out : list (string * frame)),
    mapM normalize_work_phone frames st = (Ret out, st') ->
    out = map (fun entry => (fst entry, normalize_column (snd entry))) frames.
Proof.
  induction frames as [|entry frames IH]; intros st st' out.
  - intros H. now injection H as <- _.
  - cbn [mapM map bind ret Monad_M]. intros H.
    apply M_bind_inv in H. destruct H as (y & st1 & Hy & H).
    apply M_bind_inv in H. destruct H as (ys & st2 & Hys & H).
    injection H as <- _.
    now rewrite (normalize_work_phone_value _ _ _ _ Hy), (IH _ _ _ Hys).
Qed.

Lemma clean_and_format_cleaned (org : string) (dataframe : frame) :
  clean_and_format (org, dataframe) = (org, cleaned dataframe).
Proof. reflexivity. Qed.

Lemma mapM_result_Forall2 {A B : Type} (f : A -> result B) (l : list A) :
  forall out : list B,
    mapM f l = Ret out -> Forall2 (fun x y => f x = Ret y) l out.
Proof.
  induction l as [|x l IH]; intros out.
  - intros H. injection H as <-. constructor.
  - cbn [mapM bind ret Monad_result result_bind].
    destruct (f x) as [y|e| |] eqn:Hx; try discriminate.
    destruct (mapM f l) as [ys|e| |]; try discriminate.
    intros H. injection H as <-. constructor; auto.
Qed.

Lemma dict_set_In {A : Type} (k k' : string) (v v' : A) (d : list (string * A)) :
  In (k, v) (dict_set k' v' d) -> (k = k' /\ v = v') \/ In (k, v) d.
Proof.
  induction d as [|[k0 v0] r IH]; simpl.
  - intros [H|[]]. injection H as <- <-. now left.
  - destruct (String.eqb k' k0) eqn:E; simpl.
    + intros [H|H]; [injection H as <- <-; now left|right; now right].
    + intros [H|H]; [right; now left|].
      destruct (IH H) as [?|?]; [now left|right; now right].
Qed.

Lemma dict_get_In {A : Type} (k : string) (v : A) (d : list (string * A)) :
  dict_get k d = Some v -> In (k, v) d.
Proof.
  induction d as [|[k0 v0] r IH]; simpl; [discriminate|].
  destruct (String.eqb k k0) eqn:E.
  - apply String.eqb_eq in E. subst k0. intros H. injection H as <-. now left.
  - intros H. right. now apply IH.
Qed.

(** Where the entries of "Extract main data" come from. *)
Lemma extract_main_data_In (raw_data : list (string * value)) (valid_orgs : list string) :
  forall (acc out : list (string * value)),
    extract_main_data raw_data valid_orgs acc = Ret out ->
    forall (org : string) (v : value),
      In (org, v) out ->
      In (org, v) acc
      \/ exists data, In (org, data) raw_data /\ py_getitem data "vendors" = Ret v.
Proof.
  induction valid_orgs as [|o rest IH]; intros acc out.
  - intros H. injection H as <-. auto.
  - cbn [extract_main_data bind ret Monad_result result_bind].
    destruct (dict_get o raw_data) as [data|] eqn:Hd; [|discriminate].
    cbn [result_bind].
    destruct (py_keys data) as [keys|e| |]; try discriminate.
    cbn [result_bind].
    destruct (list_mem "vendors" keys).
    + destruct (py_getitem data "vendors") as [vendors|e| |] eqn:Hv; try discriminate.
      cbn [result_bind]. intros H org v Hin.
      destruct (IH _ _ H org v Hin) as [Hacc|Hraw]; [|now right].
      destruct (dict_set_In _ _ _ _ _ Hacc) as [[-> ->]|Hacc']; [|now left].
      right. exists data. split; [now apply dict_get_In|assumption].
    + intros H org v Hin. apply (IH _ _ H org v Hin).
Qed.

(** Every table of the report is built from the vendor list fetched for
    its organization: the records become a table, the phone pass and the
    cleaning pass are applied. *)
Lemma build_report_tables (valid_orgs : list string) (raw_data : list (string * value))
    (st st' : state) (tables : list (string * frame)) :
  build_report valid_orgs raw_data st = (Ret tables, st') ->
  forall (org : string) (df : frame),
    In (org, df) tables ->
    exists data rows records,
      In (org, data) raw_data
      /\ py_getitem data "vendors" = Ret (VList rows)
      /\ mapM record_of rows = Ret records
      /\ df = cleaned (normalize_column (frame_of_records records)).
Proof.
  unfold build_report. cbn [bind ret Monad_M]. intros H.
  apply M_bind_inv in H. destruct H as (u & st1 & _ & H).
  apply M_bind_inv in H. destruct H as (extracted & st2 & Hext & H).
  apply M_bind_inv in H. destruct H as (u2 & st3 & _ & H).
  apply M_bind_inv in H. destruct H as (frames & st4 & Hframes & H).
  apply M_bind_inv in H. destruct H as (u3 & st5 & _ & H).
  apply M_bind_inv in H. destruct H as (normalized & st6 & Hnorm & H).
  injection H as <- _.
  unfold lift in Hext, Hframes. injection Hext as Hext _. injection Hframes as Hframes _.
  rewrite (mapM_normalize_work_phone _ _ _ _ Hnorm).
  intros org df Hin. rewrite map_map in Hin. apply in_map_iff in Hin.
  destruct Hin as ([org0 df0] & Heq & Hin0).
  cbn [fst snd] in Heq. rewrite clean_and_format_cleaned in Heq.
  injection Heq as -> <-.
  apply mapM_result_Forall2 in Hframes.
  assert (Hsrc : exists v, In (org, v) extracted /\ DataFrame v = Ret df0).
  { clear - Hframes Hin0. induction Hframes as [|[o v] f ext fr Hx Hrest IH].
    - destruct Hin0.
    - cbn [fst snd bind ret Monad_result result_bind] in Hx.
      destruct Hin0 as [Heq|Hin0].
      + subst f. destruct (DataFrame v) as [d|e| |] eqn:Hd; try discriminate.
        cbn [result_bind] in Hx. injection Hx as -> ->.
        exists v. split; [now left|assumption].
      + destruct (IH Hin0) as (v' & Hin' & Hd'). exists v'. split; [now right|assumption]. }
  destruct Hsrc as (v & Hinv & Hdf).
  destruct (extract_main_data_In _ _ _ _ Hext org v Hinv) as [[]|(data & Hraw & Hget)].
  unfold DataFrame in Hdf. destruct v as [| | | | |rows|]; try discriminate.
  cbn [bind ret Monad_result result_bind] in Hdf.
  destruct (mapM record_of rows) as [records|e| |] eqn:Hrec; try discriminate.
  cbn [result_bind] in Hdf. injection Hdf as <-.
  exists data, rows, records. auto.
Qed.

Lemma get_vendors_report_inv (fuel : nat) (organizations : org_arg)
    (start_date end_date : datetime) (st st' : state) (tables : list (string * frame)) :
  get_vendors_report fuel organizations start_date end_date st = (Ret tables, st') ->
  exists valid_orgs raw_data st1,
    collect_raw_data fuel organizations start_date end_date st
    = (Ret (valid_orgs, raw_data), st1)
    /\ build_report valid_orgs raw_data st1 = (Ret tables, st').
Proof.
  unfold get_vendors_report. cbn [bind ret Monad_M]. intros H.
  apply M_bind_inv in H. destruct H as ([valid raw] & st1 & Hc & Hb).
  exists valid, raw, st1. auto.
Qed.

Lemma rename_drops_work_phone (cols : list (string * list value)) :
  dict_get "work_phone"
    (map (fun col : string * list value =>
            (if String.eqb (fst col) "work_phone" then "Work Phone" else fst col, snd col))
         cols)
  = None.
Proof.
  induction cols as [|[k c] cols IH]; [reflexivity|].
  cbn [map fst snd dict_get].
  destruct (String.eqb_spec k "work_phone") as [->|Hne].
  - assert (E : String.eqb "work_phone" "Work Phone" = false) by reflexivity.
    rewrite E. exact IH.
  - assert (E : String.eqb "work_phone" k = false).
    { apply String.eqb_neq. congruence. }
    rewrite E. exact IH.
Qed.

Lemma cleaned_columns (dataframe : frame) :
  dict_mem "center_name" (columns (cleaned dataframe)) = true
  /\ dict_mem "work_phone" (columns (cleaned dataframe)) = false.
Proof.
  unfold cleaned, clean_and_format. cbn [snd].
  set (renamed := if dict_mem "work_phone" (columns dataframe)
                  then rename_work_phone dataframe else dataframe).
  assert (Hwp : dict_get "work_phone" (columns renamed) = None).
  { subst renamed. unfold dict_mem.
    destruct (dict_get "work_phone" (columns dataframe)) eqn:E.
    - apply rename_drops_work_phone.
    - exact E. }
  destruct (dict_mem "center_name" (columns renamed)) eqn:Ec; cbn [negb].
  - split; [exact Ec|]. unfold dict_mem. now rewrite Hwp.
  - unfold add_center_name, dict_mem. cbn [columns].
    rewrite dict_get_set_same.
    rewrite dict_get_set_other by discriminate. rewrite Hwp. auto.
Qed.

(** X8. Every table [get_vendors_report] returns has a [center_name]
    column and no column labelled [work_phone], whatever the fetched
    records looked like. *)
Theorem report_tables_columns (fuel : nat) (organizations : org_arg)
    (start_date end_date : datetime) (st st' : state) (tables : list (string * frame))
    (org : string) (df : frame) :
  get_vendors_report fuel organizations start_date end_date st = (Ret tables, st') ->
  In (org, df) tables ->
  dict_mem "center_name" (columns df) = true
  /\ dict_mem "work_phone" (columns df) = false.
Proof.
  intros H Hin.
  destruct (get_vendors_report_inv _ _ _ _ _ _ _ H) as (valid & raw & st1 & _ & Hb).
  destruct (build_report_tables _ _ _ _ _ Hb org df Hin)
    as (data & rows & records & _ & _ & _ & ->).
  apply cleaned_columns.
Qed.

Lemma mapM_result_length {A B : Type} (f : A -> result B) (l : list A) (out : list B) :
  mapM f l = Ret out -> List.length out = List.length l.
Proof.
  intros H. apply mapM_result_Forall2 in H.
  induction H; simpl; auto.
Qed.

Lemma rectangular_frame_of_records (records : list (list (string * value))) :
  rectangular (frame_of_records records).
Proof.
  unfold rectangular, frame_of_records. cbn [columns nrows].
  apply Forall_forall. intros col Hin. apply in_map_iff in Hin.
  destruct Hin as (k & <- & _). cbn [snd]. apply length_map.
Qed.

Lemma rectangular_normalize_column (dataframe : frame) :
  rectangular dataframe ->
  rectangular (normalize_column dataframe)
  /\ nrows (normalize_column dataframe) = nrows dataframe.
Proof.
  intros Hr. unfold normalize_column.
  destruct (dict_get "work_phone" (columns dataframe)) as [cells|] eqn:E; [|auto].
  split; [|reflexivity]. unfold rectangular in *. cbn [columns nrows].
  apply dict_set_Forall; [|assumption]. cbn [snd]. rewrite length_map.
  apply dict_get_In in E. rewrite Forall_forall in Hr. apply (Hr _ E).
Qed.

Lemma rectangular_cleaned (dataframe : frame) :
  rectangular dataframe ->
  rectangular (cleaned dataframe) /\ nrows (cleaned dataframe) = nrows dataframe.
Proof.
  intros Hr. unfold cleaned, clean_and_format. cbn [snd].
  set (renamed := if dict_mem "work_phone" (columns dataframe)
                  then rename_work_phone dataframe else dataframe).
  assert (Hren : rectangular renamed /\ nrows renamed = nrows dataframe).
  { subst renamed. destruct (dict_mem "work_phone" (columns dataframe)); [|auto].
    split; [|reflexivity]. unfold rectangular, rename_work_phone in *.
    cbn [columns nrows]. apply Forall_forall. intros col Hin.
    apply in_map_iff in Hin. destruct Hin as (c0 & <- & Hin0). cbn [snd].
    rewrite Forall_forall in Hr. apply (Hr _ Hin0). }
  destruct Hren as [Hrec Hn].
  destruct (negb (dict_mem "center_name" (columns renamed))); [|auto].
  split; [|exact Hn]. unfold rectangular, add_center_name in *. cbn [columns nrows].
  apply dict_set_Forall; [|assumption]. cbn [snd]. apply repeat_length.
Qed.

(** X9. Every table of the report has one row per vendor record fetched
    for its organization, and each of its columns, the added [center_name]
    included, holds exactly one cell per row. *)
Theorem report_tables_rows (fuel : nat) (organizations : org_arg)
    (start_date end_date : datetime) (st st' : state) (tables : list (string * frame))
    (org : string) (df : frame) :
  get_vendors_report fuel organizations start_date end_date st = (Ret tables, st') ->
  In (org, df) tables ->
  rectangular df
  /\ exists valid_orgs raw_data st1 data rows,
       collect_raw_data fuel organizations start_date end_date st
       = (Ret (valid_orgs, raw_data), st1)
       /\ In (org, data) raw_data
       /\ py_getitem data "vendors" = Ret (VList rows)
       /\ nrows df = List.length rows.
Proof.
  intros H Hin.
  destruct (get_vendors_report_inv _ _ _ _ _ _ _ H) as (valid & raw & st1 & Hc & Hb).
  destruct (build_report_tables _ _ _ _ _ Hb org df Hin)
    as (data & rows & records & Hraw & Hget & Hrec & ->).
  pose proof (rectangular_frame_of_records records) as R0.
  destruct (rectangular_normalize_column _ R0) as [R1 N1].
  destruct (rectangular_cleaned _ R1) as [R2 N2].
  split; [exact R2|].
  exists valid, raw, st1, data, rows. repeat split; try assumption.
  rewrite N2, N1. cbn [frame_of_records nrows].
  now apply mapM_result_length in Hrec.
Qed.

Lemma list_mem_In (k : string) (l : list string) : list_mem k l = true <-> In k l.
Proof.
  unfold list_mem. rewrite existsb_exists. split.
  - intros (x & Hin & E). apply String.eqb_eq in E. now subst x.
  - intros Hin. exists k. split; [assumption|apply String.eqb_refl].
Qed.

Lemma add_key_In (seen : list string) (k x : string) :
  In x (add_key seen k) <-> In x seen \/ x = k.
Proof.
  unfold add_key. destruct (list_mem k seen) eqn:E.
  - apply list_mem_In in E. split; [auto|]. intros [H| ->]; assumption.
  - rewrite in_app_iff. simpl. split.
    + intros [H|[H|[]]]; auto.
    + intros [H|H]; auto.
Qed.

Lemma fold_add_key_In (l seen : list string) (x : string) :
  In x (fold_left add_key l seen) <-> In x seen \/ In x l.
Proof.
  revert seen. induction l as [|k l IH]; intros seen; simpl.
  - split; [auto|]. intros [H|[]]. exact H.
  - rewrite IH, add_key_In. split.
    + intros [[H|H]|H]; auto.
    + intros [H|[H|H]]; auto.
Qed.

Lemma fold_add_key_NoDup (l seen : list string) :
  NoDup seen -> NoDup (fold_left add_key l seen).
Proof.
  revert seen. induction l as [|k l IH]; intros seen Hnd; simpl; [assumption|].
  apply IH. unfold add_key. destruct (list_mem k seen) eqn:E; [assumption|].
  apply NoDup_app; [assumption|repeat constructor; intros []|].
  intros x Hin [<-|[]].
  apply list_mem_In in Hin. congruence.
Qed.

Lemma dict_keys_mem {A : Type} (k : string) (d : list (string * A)) :
  In k (dict_keys d) <-> dict_mem k d = true.
Proof. rewrite <- list_mem_In. now rewrite list_mem_keys. Qed.

Lemma union_keys_In (records : list (list (string * value))) (x : string) :
  In x (union_keys records) <-> exists r, In r records /\ dict_mem x r = true.
Proof.
  unfold union_keys.
  assert (H : forall seen,
             In x (fold_left
                     (fun seen r =>
                        fold_left
                          (fun seen k => if existsb (String.eqb k) seen then seen
                                         else (seen ++ [k])%list)
                          (dict_keys r) seen)
                     records seen)
             <-> In x seen \/ exists r, In r records /\ dict_mem x r = true).
  { induction records as [|r records IH]; intros seen; simpl.
    - split; [auto|]. intros [H|(r & [] & _)]. assumption.
    - rewrite IH. change (In x (fold_left add_key (dict_keys r) seen)
                          \/ (exists r0, In r0 records /\ dict_mem x r0 = true)
                          <-> In x seen
                              \/ (exists r0, (r = r0 \/ In r0 records)
                                             /\ dict_mem x r0 = true)).
      rewrite fold_add_key_In, dict_keys_mem. split.
      + intros [[H|H]|(r0 & H1 & H2)]; eauto.
      + intros [H|(r0 & [<-|H1] & H2)]; eauto. }
  rewrite H. simpl. split; [|auto]. intros [[]|H']. exact H'.
Qed.

Lemma dict_get_tabulate {A : Type} (f : string -> A) (keys : list string) (k : string) :
  dict_get k (map (fun k0 => (k0, f k0)) keys)
  = if list_mem k keys then Some (f k) else None.
Proof.
  unfold list_mem. induction keys as [|k0 keys IH]; [reflexivity|].
  cbn [map dict_get existsb].
  destruct (String.eqb_spec k k0) as [->|Hne]; [reflexivity|exact IH].
Qed.

Lemma rename_get_work_phone (cols : list (string * list value)) :
  Forall (fun col => fst col <> "Work Phone") cols ->
  dict_get "Work Phone"
    (map (fun col : string * list value =>
            (if String.eqb (fst col) "work_phone" then "Work Phone" else fst col, snd col))
         cols)
  = dict_get "work_phone" cols.
Proof.
  induction 1 as [|[k c] cols Hk Hrest IH]; [reflexivity|].
  cbn [map fst snd dict_get] in *.
  destruct (String.eqb_spec k "work_phone") as [->|Hne].
  - reflexivity.
  - assert (E1 : String.eqb "Work Phone" k = false).
    { apply String.eqb_neq. congruence. }
    assert (E2 : String.eqb "work_phone" k = false).
    { apply String.eqb_neq. congruence. }
    rewrite E1, E2. exact IH.
Qed.

Lemma record_of_rows (rows : list value) (records : list (list (string * value))) :
  mapM record_of rows = Ret records -> rows = map VDict records.
Proof.
  intros H. apply mapM_result_Forall2 in H.
  induction H as [|row record rows records Hr Hrest IH]; [reflexivity|].
  destruct row; try discriminate Hr. cbn [record_of] in Hr. injection Hr as ->.
  cbn [map]. now rewrite IH.
Qed.

(** The phone column of the table built from [records]. *)
Lemma work_phone_column (records : list (list (string * value))) :
  (exists r, In r records /\ dict_mem "work_phone" r = true) ->
  (forall r, In r records -> dict_mem "Work Phone" r = false) ->
  dict_get "Work Phone" (columns (cleaned (normalize_column (frame_of_records records))))
  = Some (map (fun r => match dict_get "work_phone" r with
                        | Some phone => normalized_phone phone
                        | None => VStr "nan"
                        end)
              records).
Proof.
  intros Hsome Hnone.
  set (cells := map (fun r => match dict_get "work_phone" r with
                              | Some v => v
                              | None => VNaN
                              end) records).
  assert (Hcol : dict_get "work_phone" (columns (frame_of_records records)) = Some cells).
  { unfold frame_of_records. cbn [columns].
    rewrite (dict_get_tabulate
               (fun k => map (fun r => match dict_get k r with
                                       | Some v => v
                                       | None => VNaN
                                       end) records)).
    assert (E : list_mem "work_phone" (union_keys records) = true).
    { apply list_mem_In. now apply union_keys_In. }
    now rewrite E. }
  assert (Hlabels : Forall (fun col : string * list value => fst col <> "Work Phone")
                      (columns (frame_of_records records))).
  { apply Forall_forall. intros col Hin Heq.
    unfold frame_of_records in Hin. cbn [columns] in Hin.
    apply in_map_iff in Hin. destruct Hin as (k & <- & Hk). cbn [fst] in Heq. subst k.
    apply union_keys_In in Hk. destruct Hk as (r & Hr & Hmem).
    rewrite (Hnone r Hr) in Hmem. discriminate Hmem. }
  unfold normalize_column. rewrite Hcol.
  unfold cleaned, clean_and_format. cbn [snd columns nrows].
  assert (Hmem : dict_mem "work_phone"
                   (dict_set "work_phone" (map normalized_phone cells)
                      (columns (frame_of_records records))) = true).
  { unfold dict_mem. now rewrite dict_get_set_same. }
  rewrite Hmem.
  assert (Hget : dict_get "Work Phone"
                   (columns
                      (rename_work_phone
                         {| nrows := nrows (frame_of_records records);
                            columns := dict_set "work_phone" (map normalized_phone cells)
                                         (columns (frame_of_records records)) |}))
                 = Some (map normalized_phone cells)).
  { unfold rename_work_phone. cbn [columns].
    rewrite rename_get_work_phone.
    - apply dict_get_set_same.
    - apply dict_set_Forall; [cbn [fst]; discriminate|assumption]. }
  match goal with
  | |- dict_get _ (columns (if ?c then _ else _)) = _ => destruct c
  end.
  - unfold add_center_name. cbn [columns].
    rewrite dict_get_set_other by discriminate. rewrite Hget.
    subst cells. rewrite map_map. f_equal. apply map_ext.
    intros r. destruct (dict_get "work_phone" r); reflexivity.
  - rewrite Hget. subst cells. rewrite map_map. f_equal. apply map_ext.
    intros r. destruct (dict_get "work_phone" r); reflexivity.
Qed.

(** X10. In a table of the report whose records carry [work_phone] as a
    string or a mapping (and none has a field already called
    [Work Phone]), the [Work Phone] column holds, row by row, the
    normalized phone of the record; a record without [work_phone] gets the
    string "nan", because its cell was the float [nan] and that is neither
    a mapping nor falsy. *)
Theorem report_work_phone_column (fuel : nat) (organizations : org_arg)
    (start_date end_date : datetime) (st st' : state) (tables : list (string * frame))
    (org : string) (df : frame) :
  get_vendors_report fuel organizations start_date end_date st = (Ret tables, st') ->
  In (org, df) tables ->
  exists valid_orgs raw_data st1 data records,
    collect_raw_data fuel organizations start_date end_date st
    = (Ret (valid_orgs, raw_data), st1)
    /\ In (org, data) raw_data
    /\ py_getitem data "vendors" = Ret (VList (map VDict records))
    /\ ((exists r, In r records /\ dict_mem "work_phone" r = true) ->
        (forall r, In r records -> dict_mem "Work Phone" r = false) ->
        forallb phone_shape_ok records = true ->
        dict_get "Work Phone" (columns df)
        = Some (map (fun r => match dict_get "work_phone" r with
                              | Some phone => normalized_phone phone
                              | None => VStr "nan"
                              end)
                    records)).
Proof.
  intros H Hin.
  destruct (get_vendors_report_inv _ _ _ _ _ _ _ H) as (valid & raw & st1 & Hc & Hb).
  destruct (build_report_tables _ _ _ _ _ Hb org df Hin)
    as (data & rows & records & Hraw & Hget & Hrec & ->).
  exists valid, raw, st1, data, records.
  rewrite <- (record_of_rows _ _ Hrec).
  repeat split; try assumption.
  intros Hsome Hnone _. now apply work_phone_column.
Qed.

(** *** One table per organization *)

Lemma dict_keys_set {A : Type} (k : string) (v : A) (d : list (string * A)) :
  dict_keys (dict_set k v d) = add_key (dict_keys d) k.
Proof.
  unfold add_key, list_mem, dict_keys.
  induction d as [|[k0 v0] r IH]; [reflexivity|].
  cbn [dict_set map fst existsb].
  destruct (String.eqb_spec k k0) as [->|Hne]; cbn [orb map fst].
  - reflexivity.
  - rewrite IH. destruct (existsb (String.eqb k) (map fst r)); reflexivity.
Qed.

Lemma extract_main_data_keys (raw_data : list (string * value)) (valid_orgs : list string) :
  Forall (fun entry => exists l, snd entry = VDict [("vendors", VList l)]) raw_data ->
  forall (acc out : list (string * value)),
    extract_main_data raw_data valid_orgs acc = Ret out ->
    dict_keys out = fold_left add_key valid_orgs (dict_keys acc).
Proof.
  intros Hall. induction valid_orgs as [|o rest IH]; intros acc out.
  - intros H. now injection H as <-.
  - cbn [extract_main_data bind ret Monad_result result_bind fold_left].
    destruct (dict_get o raw_data) as [data|] eqn:Hd; [|discriminate].
    cbn [result_bind].
    apply dict_get_In in Hd. rewrite Forall_forall in Hall.
    destruct (Hall _ Hd) as (l & Hdata). cbn [snd] in Hdata. subst data.
    cbn [py_keys result_bind dict_keys map fst py_getitem dict_get].
    assert (E : list_mem "vendors" ["vendors"] = true) by reflexivity.
    rewrite E. assert (E' : String.eqb "vendors" "vendors" = true) by reflexivity.
    rewrite E'. cbn [result_bind]. intros H.
    rewrite (IH _ _ H). now rewrite dict_keys_set.
Qed.

Lemma first_missing_none (raw_data : list (string * value)) :
  Forall (fun entry => fetch_shape (snd entry)) raw_data ->
  first_missing raw_data = None ->
  Forall (fun entry => exists l, snd entry = VDict [("vendors", VList l)]) raw_data.
Proof.
  induction 1 as [|[org data] rest Hd Hrest IH]; intros Hfm; [constructor|].
  cbn [snd] in Hd. cbn [first_missing] in Hfm.
  destruct Hd as [->|[l ->]].
  - discriminate Hfm.
  - assert (E : dict_mem "vendors" [("vendors", VList l)] = true) by reflexivity.
    rewrite E in Hfm. constructor; [exists l; reflexivity|now apply IH].
Qed.

Lemma to_dataframes_keys (extracted : list (string * value))
    (frames : list (string * frame)) :
  to_dataframes extracted = Ret frames -> dict_keys frames = dict_keys extracted.
Proof.
  unfold to_dataframes. intros H. apply mapM_result_Forall2 in H.
  unfold dict_keys.
  induction H as [|[o v] f ext fr Hx Hrest IH]; [reflexivity|].
  cbn [fst snd bind ret Monad_result result_bind] in Hx.
  destruct (DataFrame v) as [d|e| |]; try discriminate.
  cbn [result_bind] in Hx. injection Hx as <-. cbn [map fst]. now rewrite IH.
Qed.

Lemma build_report_keys (valid_orgs : list string) (raw_data : list (string * value))
    (st st' : state) (tables : list (string * frame)) :
  Forall (fun entry => fetch_shape (snd entry)) raw_data ->
  build_report valid_orgs raw_data st = (Ret tables, st') ->
  dict_keys tables = distinct valid_orgs.
Proof.
  intros Hshape. unfold build_report. cbn [bind ret Monad_M]. intros H.
  apply M_bind_inv in H. destruct H as (u & st1 & Hval & H).
  apply M_bind_inv in H. destruct H as (extracted & st2 & Hext & H).
  apply M_bind_inv in H. destruct H as (u2 & st3 & _ & H).
  apply M_bind_inv in H. destruct H as (frames & st4 & Hframes & H).
  apply M_bind_inv in H. destruct H as (u3 & st5 & _ & H).
  apply M_bind_inv in H. destruct H as (normalized & st6 & Hnorm & H).
  injection H as <- _.
  unfold lift in Hext, Hframes. injection Hext as Hext _. injection Hframes as Hframes _.
  rewrite (mapM_normalize_work_phone _ _ _ _ Hnorm).
  assert (Hfm : first_missing raw_data = None).
  { rewrite (validate_keys_first_missing raw_data Hshape st) in Hval.
    destruct (first_missing raw_data); [discriminate Hval|reflexivity]. }
  pose proof (first_missing_none raw_data Hshape Hfm) as Hall.
  unfold dict_keys at 1. rewrite !map_map. cbn [fst].
  transitivity (dict_keys frames).
  - unfold dict_keys. apply map_ext. intros [o f]. reflexivity.
  - rewrite (to_dataframes_keys _ _ Hframes).
    now rewrite (extract_main_data_keys raw_data valid_orgs Hall [] extracted Hext).
Qed.

Lemma collect_raw_data_valid (fuel : nat) (organizations : list string)
    (start_date end_date : datetime) (st st1 : state) (config : value)
    (mapping : list (string * value)) (w : W)
    (valid_orgs : list string) (raw_data : list (string * value)) :
  os_path_exists default_config_path (world st) = true ->
  json_load default_config_path (world st) = (inr config, w) ->
  py_get config "org_to_api_key" (VDict []) = Ret (VDict mapping) ->
  collect_raw_data fuel (OrgList organizations) start_date end_date st
  = (Ret (valid_orgs, raw_data), st1) ->
  valid_orgs = kept_organizations mapping organizations.
Proof.
  intros He Hl Hm. unfold collect_raw_data.
  cbn [bind ret Monad_M organizations_list]. intros H.
  erewrite M_bind_ret in H by reflexivity.
  erewrite M_bind_ret in H
    by (apply load_zenoti_config_ok; cbn [world]; eassumption).
  erewrite M_bind_ret in H by reflexivity.
  apply M_bind_inv in H. destruct H as (valid & st2 & Hvalid & H).
  apply M_bind_inv in H. destruct H as (raw & st3 & _ & H).
  apply M_bind_inv in H. destruct H as (u & st4 & _ & H).
  injection H as <- _ _.
  rewrite (valid_organizations_run config mapping organizations _ Hm) in Hvalid.
  destruct (kept_organizations mapping organizations); [discriminate Hvalid|].
  now injection Hvalid as <- _.
Qed.

(** X11. The report holds exactly one table per distinct valid
    organization, in the order in which the organizations first appear in
    the input: a key given twice yields one table, and two spellings that
    differ in case yield two. *)
Theorem report_one_table_per_organization (fuel : nat) (organizations : list string)
    (start_date end_date : datetime) (st st' : state) (config : value)
    (mapping : list (string * value)) (w : W) (tables : list (string * frame)) :
  os_path_exists default_config_path (world st) = true ->
  json_load default_config_path (world st) = (inr config, w) ->
  py_get config "org_to_api_key" (VDict []) = Ret (VDict mapping) ->
  get_vendors_report fuel (OrgList organizations) start_date end_date st
  = (Ret tables, st') ->
  dict_keys tables = distinct (kept_organizations mapping organizations)
  /\ NoDup (dict_keys tables)
  /\ (forall org : string,
        In org (dict_keys tables)
        <-> In org organizations /\ dict_mem (lower org) mapping = true).
Proof.
  intros He Hl Hm H.
  destruct (get_vendors_report_inv _ _ _ _ _ _ _ H) as (valid & raw & st1 & Hc & Hb).
  pose proof (collect_raw_data_shape _ _ _ _ _ _ _ _ Hc) as Hshape.
  pose proof (collect_raw_data_valid _ _ _ _ _ _ _ _ _ _ _ He Hl Hm Hc) as ->.
  rewrite (build_report_keys _ _ _ _ _ Hshape Hb).
  split; [reflexivity|]. split.
  - apply fold_add_key_NoDup. constructor.
  - intros org. unfold distinct. rewrite fold_add_key_In.
    unfold kept_organizations. rewrite filter_In. simpl.
    split; [|auto]. intros [[]|Hin]. exact Hin.
Qed.

(** *** A bare organization key *)

Lemma same_outcome_bind {A B : Type} (c1 c2 : M A) (k1 k2 : A -> M B) (st1 st2 : state) :
  same_outcome (c1 st1) (c2 st2) ->
  (forall (a : A) (st1' st2' : state),
      same_but_log st1' st2' -> same_outcome (k1 a st1') (k2 a st2')) ->
  same_outcome (M_bind c1 k1 st1) (M_bind c2 k2 st2).
Proof.
  unfold M_bind. destruct (c1 st1) as [r1 s1], (c2 st2) as [r2 s2].
  intros [Hr Hs] Hk. cbn [fst snd] in Hr, Hs. subst r2.
  destruct r1; [now apply Hk|split; assumption || reflexivity..].
Qed.

Lemma log_blind_bind {A B : Type} (c : M A) (k : A -> M B) :
  log_blind c -> (forall a, log_blind (k a)) -> log_blind (M_bind c k).
Proof.
  intros Hc Hk st1 st2 Hs. apply same_outcome_bind; [now apply Hc|].
  intros a st1' st2' Hs'. now apply Hk.
Qed.

Lemma log_blind_ret {A : Type} (a : A) : log_blind (ret a).
Proof. intros st1 st2 Hs. split; [reflexivity|exact Hs]. Qed.

Lemma log_blind_lift {A : Type} (r : result A) : log_blind (lift r).
Proof. intros st1 st2 Hs. split; [reflexivity|exact Hs]. Qed.

Lemma log_blind_logging (ev : log_event) : log_blind (logging ev).
Proof. intros st1 st2 [Hw Hs]. split; [reflexivity|]. split; assumption. Qed.

Lemma log_blind_perform {A : Type} (call : W -> (exn + A) * W) : log_blind (perform call).
Proof.
  intros st1 st2 [Hw Hs]. unfold perform. rewrite Hw.
  destruct (call (world st2)) as [r w]. split; [reflexivity|].
  split; [reflexivity|assumption].
Qed.

Lemma log_blind_http (req : request) : log_blind (http_get_json req).
Proof.
  intros st1 st2 [Hw Hs]. unfold http_get_json. rewrite Hw, Hs.
  destruct (requests_get_json req (world st2)) as [r w].
  split; [reflexivity|]. split; reflexivity.
Qed.

Lemma log_blind_try {A : Type} (body : M A) (catches : exn -> bool)
    (handler : exn -> M A) :
  log_blind body -> (forall e, log_blind (handler e)) ->
  log_blind (try_except body catches handler).
Proof.
  intros Hb Hh st1 st2 Hs. unfold try_except.
  specialize (Hb st1 st2 Hs).
  destruct (body st1) as [r1 s1], (body st2) as [r2 s2].
  destruct Hb as [Hr Hs']. cbn [fst snd] in Hr, Hs'. subst r2.
  destruct r1 as [a|e| |].
  - split; assumption || reflexivity.
  - destruct (catches e); [now apply Hh|split; assumption || reflexivity].
  - split; assumption || reflexivity.
  - split; assumption || reflexivity.
Qed.

Lemma log_blind_mapM {A B : Type} (f : A -> M B) (l : list A) :
  (forall x, log_blind (f x)) -> log_blind (mapM f l).
Proof.
  intros Hf. induction l as [|x l IH]; cbn [mapM bind ret Monad_M].
  - apply (log_blind_ret (A := list B)).
  - apply log_blind_bind; [apply Hf|]. intros y.
    apply log_blind_bind; [apply IH|]. intros ys. apply (log_blind_ret (A := list B)).
Qed.

Lemma log_blind_load_zenoti_config (config_path : string) :
  log_blind (load_zenoti_config config_path).
Proof.
  intros st1 st2 Hs. unfold load_zenoti_config.
  destruct Hs as [Hw Hs]. rewrite Hw.
  destruct (os_path_exists config_path (world st2)); cbn [negb].
  - apply log_blind_try; [| |split; assumption].
    + cbn [bind ret Monad_M]. apply log_blind_bind; [apply log_blind_perform|].
      intros config. apply log_blind_bind; [apply log_blind_logging|].
      intros _. apply (log_blind_ret (A := value)).
    + intros e. cbn [bind ret Monad_M].
      apply log_blind_bind; [apply log_blind_logging|]. intros _. apply log_blind_lift.
  - cbn [bind ret Monad_M].
    apply log_blind_bind; [apply log_blind_logging| |split; assumption].
    intros _. apply log_blind_lift.
Qed.

Lemma log_blind_fetch_page (org : string) (start_date end_date : datetime)
    (config api_key : value) (page : nat) (acc : list value) :
  log_blind (fetch_page org start_date end_date config api_key page acc).
Proof.
  unfold fetch_page. apply log_blind_try.
  - cbn [bind ret Monad_M]. apply log_blind_bind; [apply log_blind_http|].
    intros data. apply log_blind_bind; [apply log_blind_lift|]. intros vendors.
    destruct (negb (py_truthy vendors)).
    + apply log_blind_bind; [apply log_blind_logging|]. intros _.
      apply (log_blind_ret (A := loop_step)).
    + apply log_blind_bind; [apply log_blind_lift|]. intros centers.
      apply log_blind_bind; [apply log_blind_lift|]. intros items.
      apply log_blind_bind; [apply log_blind_lift|]. intros enriched.
      apply (log_blind_ret (A := loop_step)).
  - intros e. cbn [bind ret Monad_M].
    apply log_blind_bind; [apply log_blind_logging|]. intros _.
    apply (log_blind_ret (A := loop_step)).
Qed.

Lemma log_blind_fetch_loop (org : string) (start_date end_date : datetime)
    (config api_key : value) (fuel : nat) :
  forall (page : nat) (acc : list value),
    log_blind (fetch_loop org start_date end_date config api_key fuel page acc).
Proof.
  induction fuel as [|fuel IH]; intros page acc; cbn [fetch_loop bind ret Monad_M].
  - apply log_blind_lift.
  - apply log_blind_bind; [apply log_blind_fetch_page|].
    intros [|acc'|v]; [apply (log_blind_ret (A := value))|apply IH
                      |apply (log_blind_ret (A := value))].
Qed.

Lemma log_blind_fetch_vendors (fuel : nat) (org : string)
    (start_date end_date : datetime) (config : value) :
  log_blind (fetch_vendors fuel org start_date end_date config).
Proof.
  unfold fetch_vendors. cbn [bind ret Monad_M].
  apply log_blind_bind; [apply log_blind_lift|]. intros api_key.
  destruct (negb (py_truthy api_key)).
  - apply log_blind_bind; [apply log_blind_logging|]. intros _.
    apply (log_blind_ret (A := value)).
  - apply log_blind_bind; [apply log_blind_logging|]. intros _.
    apply log_blind_fetch_loop.
Qed.

Lemma log_blind_fetch_raw_data (fuel : nat) (start_date end_date : datetime)
    (config : value) (valid_orgs : list string) :
  forall raw_data : list (string * value),
    log_blind (fetch_raw_data fuel start_date end_date config valid_orgs raw_data).
Proof.
  induction valid_orgs as [|org rest IH]; intros raw_data;
    cbn [fetch_raw_data bind ret Monad_M].
  - apply (log_blind_ret (A := list (string * value))).
  - apply log_blind_bind; [apply log_blind_fetch_vendors|]. intros data. apply IH.
Qed.

Lemma log_blind_valid_organizations (config : value) (organizations : list string) :
  log_blind (valid_organizations config organizations).
Proof.
  unfold valid_organizations. cbn [bind ret Monad_M].
  apply log_blind_bind; [apply log_blind_lift|]. intros [|org valid].
  - apply log_blind_bind; [apply log_blind_logging|]. intros _. apply log_blind_lift.
  - apply log_blind_bind; [apply log_blind_logging|]. intros _.
    apply (log_blind_ret (A := list string)).
Qed.

Lemma log_blind_validate_keys (raw_data : list (string * value)) :
  log_blind (validate_keys raw_data).
Proof.
  induction raw_data as [|[org data] rest IH]; cbn [validate_keys bind ret Monad_M].
  - apply (log_blind_ret (A := unit)).
  - apply log_blind_bind; [apply log_blind_lift|]. intros [|]; [|exact IH].
    apply log_blind_bind; [apply log_blind_logging|]. intros _. apply log_blind_lift.
Qed.

Lemma log_blind_normalize_work_phone (entry : string * frame) :
  log_blind (normalize_work_phone entry).
Proof.
  destruct entry as [org df]. unfold normalize_work_phone.
  destruct (dict_get "work_phone" (columns df)) as [cells|];
    cbn [bind ret Monad_M].
  - apply log_blind_bind.
    + apply log_blind_mapM. intros phone. unfold normalize_phone.
      apply log_blind_try; [apply log_blind_lift|]. intros e. cbn [bind ret Monad_M].
      apply log_blind_bind; [apply log_blind_lift|]. intros text.
      apply log_blind_bind; [apply log_blind_logging|]. intros _.
      apply (log_blind_ret (A := value)).
    + intros cells'. apply log_blind_bind; [apply log_blind_logging|]. intros _.
      apply (log_blind_ret (A := string * frame)).
  - apply (log_blind_ret (A := string * frame)).
Qed.

Lemma log_blind_build_report (valid_orgs : list string)
    (raw_data : list (string * value)) :
  log_blind (build_report valid_orgs raw_data).
Proof.
  unfold build_report. cbn [bind ret Monad_M].
  apply log_blind_bind; [apply log_blind_validate_keys|]. intros _.
  apply log_blind_bind; [apply log_blind_lift|]. intros extracted.
  apply log_blind_bind; [apply log_blind_logging|]. intros _.
  apply log_blind_bind; [apply log_blind_lift|]. intros frames.
  apply log_blind_bind; [apply log_blind_logging|]. intros _.
  apply log_blind_bind.
  - apply log_blind_mapM. apply log_blind_normalize_work_phone.
  - intros normalized. apply (log_blind_ret (A := list (string * frame))).
Qed.

(** X12. A bare organization key is treated as the one-element list: the
    report returned (or the exception raised), the requests sent and the
    world left behind are the same; only the log differs. *)
Theorem report_for_bare_key (fuel : nat) (org : string)
    (start_date end_date : datetime) (st : state) :
  let bare := get_vendors_report fuel (OrgStr org) start_date end_date st in
  let listed := get_vendors_report fuel (OrgList [org]) start_date end_date st in
  fst bare = fst listed
  /\ world (snd bare) = world (snd listed)
  /\ sent (snd bare) = sent (snd listed).
Proof.
  cbv zeta.
  assert (H : same_outcome
                (get_vendors_report fuel (OrgStr org) start_date end_date st)
                (get_vendors_report fuel (OrgList [org]) start_date end_date st)).
  { unfold get_vendors_report, collect_raw_data. cbn [bind ret Monad_M].
    apply same_outcome_bind.
    - apply same_outcome_bind.
      + split; [reflexivity|]. split; reflexivity.
      + intros _ st1 st2 Hs. apply same_outcome_bind.
        * now apply log_blind_load_zenoti_config.
        * intros config st1' st2' Hs'. apply same_outcome_bind.
          -- cbn [organizations_list bind ret Monad_M]. unfold M_bind, logging.
             split; [reflexivity|]. destruct Hs' as [Hw Hsent]. split; assumption.
          -- intros organizations st1'' st2'' Hs''.
             revert st1'' st2'' Hs''.
             change (log_blind
                       (M_bind (valid_organizations config organizations)
                          (fun valid_orgs =>
                             M_bind (fetch_raw_data fuel start_date end_date config
                                       valid_orgs [])
                               (fun raw_data =>
                                  M_bind (logging (LogFetched (List.length raw_data)))
                                    (fun _ => ret (valid_orgs, raw_data)))))).
             apply log_blind_bind; [apply log_blind_valid_organizations|].
             intros valid. apply log_blind_bind; [apply log_blind_fetch_raw_data|].
             intros raw. apply log_blind_bind; [apply log_blind_logging|].
             intros _. apply (log_blind_ret (A := list string * list (string * value))).
    - intros [valid raw] st1 st2 Hs. now apply log_blind_build_report. }
  destruct H as [Hr [Hw Hs]]. auto.
Qed.

(** *** More on the exporter and the entry point *)

Lemma write_sheets_written (output_file : string) (data : list (string * frame))
    (w w' : W) :
  written output_file data w w' ->
  forall st : state,
    world st = w ->
    write_sheets output_file data st
    = (Ret tt,
       {| world := w'; sent := sent st;
          log := (log st ++ map (fun entry => LogWroteSheet (fst entry) output_file)
                              data)%list |}).
Proof.
  induction 1 as [w|org df rest w w1 w2 Hw Hrest IH]; intros st Hst.
  - destruct st as [w0 s l]. cbn in *. subst. now rewrite app_nil_r.
  - cbn [write_sheets bind ret Monad_M map fst].
    erewrite M_bind_ret; cycle 1.
    { unfold perform. rewrite Hst, Hw. reflexivity. }
    erewrite M_bind_ret by reflexivity.
    rewrite IH by reflexivity. cbn [sent log world].
    rewrite <- app_assoc. reflexivity.
Qed.

(** X13. When the directory can be made, the writer opened, every sheet
    written and the writer closed, [export_orgs_to_excel] writes one sheet
    per organization, in the order of the report, under the file name
    [report_name_date_str.xlsx] in the output directory, logs each sheet
    and then the saved file, and returns [None]. *)
Theorem export_writes_every_sheet (data : list (string * frame))
    (output_dir report_name date_str : string) (st : state) (w1 w2 w3 w4 : W) :
  os_makedirs output_dir (world st) = (inr tt, w1) ->
  excel_open (workbook_path output_dir report_name date_str) w1 = (inr tt, w2) ->
  written (workbook_path output_dir report_name date_str) data w2 w3 ->
  excel_close (workbook_path output_dir report_name date_str) w3 = (inr tt, w4) ->
  export_orgs_to_excel data output_dir report_name date_str st
  = (Ret tt,
     {| world := w4; sent := sent st;
        log := (log st
                ++ map (fun entry =>
                          LogWroteSheet (fst entry)
                            (workbook_path output_dir report_name date_str)) data
                ++ [LogSavedExcel (workbook_path output_dir report_name date_str)])%list |}).
Proof.
  intros Hmk Hopen Hw Hclose.
  unfold export_orgs_to_excel. cbn [bind ret Monad_M].
  erewrite M_bind_ret; cycle 1.
  { unfold perform. rewrite Hmk. reflexivity. }
  fold (workbook_path output_dir report_name date_str).
  unfold try_except, write_workbook, with_excel_writer.
  cbn [bind ret Monad_M].
  erewrite M_bind_ret; cycle 1.
  { erewrite M_bind_ret; cycle 1.
    { unfold perform. cbn [world]. rewrite Hopen. reflexivity. }
    rewrite (write_sheets_written _ _ _ _ Hw) by reflexivity.
    erewrite M_bind_ret; cycle 1.
    { unfold perform. cbn [world]. rewrite Hclose. reflexivity. }
    reflexivity. }
  unfold logging. cbn [world sent log]. rewrite <- app_assoc. reflexivity.
Qed.

(** X14. The directory is made outside the [try]: when [os.makedirs]
    raises, the exception leaves [export_orgs_to_excel], nothing is logged
    and the spreadsheet writer is never opened. *)
Theorem export_fails_without_directory (data : list (string * frame))
    (output_dir report_name date_str : string) (st : state) (e : exn) (w1 : W) :
  os_makedirs output_dir (world st) = (inl e, w1) ->
  export_orgs_to_excel data output_dir report_name date_str st
  = (Raise e, {| world := w1; sent := sent st; log := log st |}).
Proof.
  intros Hmk. unfold export_orgs_to_excel. cbn [bind ret Monad_M].
  apply M_bind_raise. unfold perform. now rewrite Hmk.
Qed.

Lemma write_workbook_closes (output_file : string) (data : list (string * frame))
    (st1 : state) (w2 : W) :
  excel_open output_file (world st1) = (inr tt, w2) ->
  exists (r : result unit) (st4 : state) (w3 : W),
    write_workbook output_file data st1 = (r, st4)
    /\ world st4 = snd (excel_close output_file w3)
    /\ (r = Ret tt \/ exists e, r = Raise e).
Proof.
  intros Hopen.
  set (st2 := {| world := w2; sent := sent st1; log := log st1 |}).
  assert (Ho : perform (excel_open output_file) st1 = (Ret tt, st2)).
  { unfold perform, st2. now rewrite Hopen. }
  unfold write_workbook, with_excel_writer. cbn [bind ret Monad_M].
  unfold M_bind at 1 2. rewrite Ho. cbv beta iota.
  destruct (write_sheets_cases output_file data st2) as [(st3 & H3)|(e & st3 & H3)];
    rewrite H3; cbv beta iota; unfold M_bind, perform, raise, lift, logging;
    destruct (excel_close output_file (world st3)) as [[e'|[]] w4] eqn:Hc;
    cbv beta iota; cbn [world sent log];
    do 2 eexists; exists (world st3); rewrite Hc; cbn [snd];
    (split; [reflexivity|]; split; [reflexivity|]; eauto).
Qed.

(** X15. Once the writer has been opened it is always closed: whatever
    happens while the sheets are written, the last thing done to the
    world is the closing of the writer. *)
Theorem export_closes_the_writer (data : list (string * frame))
    (output_dir report_name date_str : string) (st : state) (w1 w2 : W) :
  os_makedirs output_dir (world st) = (inr tt, w1) ->
  excel_open (workbook_path output_dir report_name date_str) w1 = (inr tt, w2) ->
  exists (st' : state) (w3 : W),
    export_orgs_to_excel data output_dir report_name date_str st = (Ret tt, st')
    /\ world st'
       = snd (excel_close (workbook_path output_dir report_name date_str) w3).
Proof.
  intros Hmk Hopen.
  unfold export_orgs_to_excel. cbn [bind ret Monad_M].
  erewrite M_bind_ret; cycle 1.
  { unfold perform. rewrite Hmk. reflexivity. }
  fold (workbook_path output_dir report_name date_str). unfold try_except.
  destruct (write_workbook_closes (workbook_path output_dir report_name date_str) data
              {| world := w1; sent := sent st; log := log st |} w2 Hopen)
    as (r & st4 & w3 & Hrun & Hworld & [->|(e & ->)]); rewrite Hrun.
  - exists st4, w3. auto.
  - cbn [is_exception]. unfold logging. eexists. exists w3.
    split; [reflexivity|exact Hworld].
Qed.

(** X16. A configuration that lists no organization makes the entry
    point fail: [get_vendors_report] is called with the empty list, raises
    [ValueError], and nothing is requested or exported. *)
Theorem main_without_organizations (fuel : nat) (st : state)
    (config config' : value) (w1 w2 : W) (_start_date _end_date : datetime) :
  os_path_exists default_config_path (world st) = true ->
  json_load default_config_path (world st) = (inr config, w1) ->
  py_get config "org_to_api_key" (VDict []) = Ret (VDict []) ->
  default_date_range (datetime_today w1) = Ret (_start_date, _end_date) ->
  os_path_exists default_config_path w1 = true ->
  json_load default_config_path w1 = (inr config', w2) ->
  main fuel st
  = (Raise (ValueError "No valid organizations found in config."),
     {| world := w2; sent := sent st;
        log := (log st ++ [LogConfigLoaded default_config_path;
                           LogReportStart (OrgList []) _start_date _end_date;
                           LogConfigLoaded default_config_path;
                           LogNoValidOrgs])%list |}).
Proof.
  intros He Hl Hm Hrange He' Hl'.
  unfold main. cbn [bind ret Monad_M].
  erewrite M_bind_ret by (apply load_zenoti_config_ok; eassumption).
  unfold lift at 1. erewrite M_bind_ret by (rewrite Hm; reflexivity).
  erewrite M_bind_ret by reflexivity.
  unfold today. erewrite M_bind_ret by reflexivity.
  cbn [world]. unfold lift at 1. erewrite M_bind_ret by (rewrite Hrange; reflexivity).
  apply M_bind_raise.
  unfold get_vendors_report, collect_raw_data.
  cbn [bind ret Monad_M organizations_list py_keys dict_keys map].
  apply M_bind_raise.
  erewrite M_bind_ret by reflexivity.
  erewrite M_bind_ret by (apply load_zenoti_config_ok; cbn [world]; eassumption).
  erewrite M_bind_ret by reflexivity.
  apply M_bind_raise.
  unfold valid_organizations, lift, logging, raise.
  cbn [bind ret Monad_M filterM]. unfold M_bind, lift.
  cbn [world sent log]. rewrite <- !app_assoc. reflexivity.
Qed.

(** *** The organization key in fetch_vendors *)

Lemma same_outcome_try {A : Type} (b1 b2 : M A) (catches : exn -> bool)
    (h1 h2 : exn -> M A) (st1 st2 : state) :
  same_outcome (b1 st1) (b2 st2) ->
  (forall (e : exn) (st1' st2' : state),
      same_but_log st1' st2' -> same_outcome (h1 e st1') (h2 e st2')) ->
  same_outcome (try_except b1 catches h1 st1) (try_except b2 catches h2 st2).
Proof.
  unfold try_except. destruct (b1 st1) as [r1 s1], (b2 st2) as [r2 s2].
  intros [Hr Hs] Hh. cbn [fst snd] in Hr, Hs. subst r2.
  destruct r1 as [a|e| |].
  - split; assumption || reflexivity.
  - destruct (catches e); [now apply Hh|split; assumption || reflexivity].
  - split; assumption || reflexivity.
  - split; assumption || reflexivity.
Qed.

Lemma fetch_page_any_org (org org' : string) (start_date end_date : datetime)
    (config api_key : value) (page : nat) (acc : list value) (st1 st2 : state) :
  same_but_log st1 st2 ->
  same_outcome (fetch_page org start_date end_date config api_key page acc st1)
               (fetch_page org' start_date end_date config api_key page acc st2).
Proof.
  intros Hs. unfold fetch_page. apply same_outcome_try.
  - cbn [bind ret Monad_M]. apply same_outcome_bind; [now apply log_blind_http|].
    intros data s1 s2 Hs1. apply same_outcome_bind; [now apply log_blind_lift|].
    intros vendors s1' s2' Hs2. destruct (negb (py_truthy vendors)).
    + apply same_outcome_bind.
      * split; [reflexivity|]. destruct Hs2. split; assumption.
      * intros _ t1 t2 Ht. now apply (log_blind_ret (A := loop_step)).
    + revert s1' s2' Hs2.
      change (log_blind
                (M_bind (lift (centers_of config api_key))
                   (fun centers =>
                      M_bind (lift (py_iter vendors))
                        (fun items =>
                           M_bind (lift (mapM (enrich_vendor centers) items))
                             (fun enriched => ret (Continue (acc ++ enriched)%list)))))).
      apply log_blind_bind; [apply log_blind_lift|]. intros centers.
      apply log_blind_bind; [apply log_blind_lift|]. intros items.
      apply log_blind_bind; [apply log_blind_lift|]. intros enriched.
      apply (log_blind_ret (A := loop_step)).
  - intros e s1 s2 Hs1. cbn [bind ret Monad_M]. apply same_outcome_bind.
    + split; [reflexivity|]. destruct Hs1. split; assumption.
    + intros _ t1 t2 Ht. now apply (log_blind_ret (A := loop_step)).
Qed.

Lemma fetch_loop_any_org (org org' : string) (start_date end_date : datetime)
    (config api_key : value) (fuel : nat) :
  forall (page : nat) (acc : list value) (st1 st2 : state),
    same_but_log st1 st2 ->
    same_outcome (fetch_loop org start_date end_date config api_key fuel page acc st1)
                 (fetch_loop org' start_date end_date config api_key fuel page acc st2).
Proof.
  induction fuel as [|fuel IH]; intros page acc st1 st2 Hs;
    cbn [fetch_loop bind ret Monad_M].
  - now apply log_blind_lift.
  - apply same_outcome_bind; [now apply fetch_page_any_org|].
    intros [|acc'|v] s1 s2 Hs'.
    + now apply (log_blind_ret (A := value)).
    + now apply IH.
    + now apply (log_blind_ret (A := value)).
Qed.

(** X17. The organization key matters to [fetch_vendors] only through its
    lowercased form: two keys with the same lowercased form give the same
    result, the same requests and the same world; the log entries, which
    quote the key as given, are all that differs. *)
Theorem fetch_vendors_case_insensitive (fuel : nat) (org org' : string)
    (start_date end_date : datetime) (config : value) (st : state) :
  lower org = lower org' ->
  fst (fetch_vendors fuel org start_date end_date config st)
  = fst (fetch_vendors fuel org' start_date end_date config st)
  /\ world (snd (fetch_vendors fuel org start_date end_date config st))
     = world (snd (fetch_vendors fuel org' start_date end_date config st))
  /\ sent (snd (fetch_vendors fuel org start_date end_date config st))
     = sent (snd (fetch_vendors fuel org' start_date end_date config st)).
Proof.
  intros Hlower.
  assert (H : same_outcome (fetch_vendors fuel org start_date end_date config st)
                           (fetch_vendors fuel org' start_date end_date config st)).
  { unfold fetch_vendors, api_key_of. rewrite Hlower. cbn [bind ret Monad_M].
    apply same_outcome_bind.
    - apply log_blind_lift. split; reflexivity.
    - intros api_key s1 s2 Hs. destruct (negb (py_truthy api_key)).
      + apply same_outcome_bind.
        * split; [reflexivity|]. destruct Hs. split; assumption.
        * intros _ t1 t2 Ht. now apply (log_blind_ret (A := value)).
      + apply same_outcome_bind.
        * split; [reflexivity|]. destruct Hs. split; assumption.
        * intros _ t1 t2 Ht. now apply fetch_loop_any_org. }
  destruct H as [Hr [Hw Hs]]. auto.
Qed.

(** *** The requests of one fetch *)

Lemma length_append (a b : string) :
  String.length (a ++ b) = String.length a + String.length b.
Proof.
  induction a as [|c a IH]; cbn [String.append String.length Nat.add]; [reflexivity|].
  now rewrite IH.
Qed.

Lemma append_cancel_r (a b t : string) :
  String.length a = String.length b -> a ++ t = b ++ t -> a = b.
Proof.
  revert b. induction a as [|c a IH]; intros [|c' b]; cbn [String.length String.append];
    try discriminate; [reflexivity|].
  intros Hlen H. injection Hlen as Hlen. injection H as -> H.
  f_equal. now apply IH.
Qed.

Lemma to_uint_nonnil (n : nat) : Nat.to_uint n <> Decimal.Nil.
Proof.
  rewrite <- (DecimalNat.Unsigned.of_to n), DecimalNat.Unsigned.to_of.
  apply DecimalFacts.unorm_nonnil.
Qed.

Lemma str_of_nat_inj (n m : nat) : str_of_nat n = str_of_nat m -> n = m.
Proof.
  unfold str_of_nat. intros H.
  apply DecimalNat.Unsigned.to_uint_inj.
  pose proof (NilZero.usu (Nat.to_uint n) (to_uint_nonnil n)) as Hn.
  pose proof (NilZero.usu (Nat.to_uint m) (to_uint_nonnil m)) as Hm.
  rewrite H in Hn. rewrite Hn in Hm. now injection Hm.
Qed.

Lemma NoDup_map_injective {A B : Type} (f : A -> B) (l : list A) :
  (forall x y, f x = f y -> x = y) -> NoDup l -> NoDup (map f l).
Proof.
  intros Hinj. induction 1 as [|x l Hx Hl IH]; cbn [map]; constructor; [|exact IH].
  intros Hin. apply in_map_iff in Hin. destruct Hin as (y & Hy & Hin).
  apply Hinj in Hy. now subst y.
Qed.

(** X18. Requests for different pages differ: the page number can be read
    back from the URL.  So the requests [fetch_vendors] sends for pages
    1 to n are pairwise distinct; no page is asked for twice. *)
Theorem vendors_request_distinct (api_key : value) (start_date end_date : datetime) :
  (forall p q : nat,
      vendors_request api_key start_date end_date p
      = vendors_request api_key start_date end_date q -> p = q)
  /\ (forall n : nat,
        NoDup (map (vendors_request api_key start_date end_date) (seq 1 n))).
Proof.
  assert (Hinj : forall p q : nat,
             vendors_request api_key start_date end_date p
             = vendors_request api_key start_date end_date q -> p = q).
  { intros p q H. unfold vendors_request in H. injection H as H.
    apply str_of_nat_inj. eapply append_cancel_r; [|exact H].
    apply (f_equal String.length) in H.
    rewrite !length_append in H. lia. }
  split; [exact Hinj|].
  intros n. apply NoDup_map_injective; [exact Hinj|apply seq_NoDup].
Qed.

End Program.

(** *** The default date range *)

Lemma days_before_next_year (y : Z) :
  (1 <= y)%Z ->
  days_before_year (y + 1)
  = (days_before_year y + 365 + (if is_leap y then 1 else 0))%Z.
Proof.
  intros Hy. unfold days_before_year, is_leap.
  replace (y + 1 - 1)%Z with y by lia.
  destruct (Z.eqb_spec (y mod 4) 0), (Z.eqb_spec (y mod 100) 0),
    (Z.eqb_spec (y mod 400) 0); cbn [andb orb negb];
    Z.div_mod_to_equations; lia.
Qed.

Lemma days_before_next_month (y m : Z) :
  (1 <= m < 12)%Z ->
  days_before_month y (m + 1) = (days_before_month y m + days_in_month y m)%Z.
Proof.
  intros Hm.
  assert (H : (m = 1 \/ m = 2 \/ m = 3 \/ m = 4 \/ m = 5 \/ m = 6 \/ m = 7
               \/ m = 8 \/ m = 9 \/ m = 10 \/ m = 11)%Z) by lia.
  unfold days_before_month, days_in_month.
  repeat (destruct H as [->|H]); try subst m; cbn; destruct (is_leap y); reflexivity.
Qed.

Lemma days_in_month_bounds (y m : Z) : (28 <= days_in_month y m <= 31)%Z.
Proof.
  unfold days_in_month.
  destruct (Z.eqb m 2); [destruct (is_leap y); lia|].
  destruct (Z.eqb m 4 || Z.eqb m 6 || Z.eqb m 9 || Z.eqb m 11); lia.
Qed.

(** [minus_one_day] is the day before: the ordinal drops by one, the
    result is a date, and the time of day is kept. *)
Lemma minus_one_day_spec (today : datetime) :
  valid_date today ->
  (1 < year today \/ 1 < month today \/ 1 < day today)%Z ->
  exists yesterday,
    minus_one_day today = Ret yesterday
    /\ (toordinal yesterday + 1 = toordinal today)%Z
    /\ valid_date yesterday
    /\ time_of_day yesterday = time_of_day today
    /\ ((1 < day today)%Z ->
        year yesterday = year today /\ month yesterday = month today)
    /\ (day today = 1%Z ->
        first_of_previous_month today
        = {| year := year yesterday; month := month yesterday; day := 1;
             time_of_day := time_of_day yesterday |}).
Proof.
  destruct today as [y m d t]. unfold valid_date, minus_one_day, toordinal.
  cbn [year month day time_of_day].
  intros (Hy & Hm & Hd) Hfirst.
  destruct (Z.ltb_spec 1 d) as [Hd1|Hd1].
  - eexists. split; [reflexivity|]. cbn [year month day time_of_day].
    repeat split; try lia.
  - assert (d = 1%Z) by lia. subst d.
    destruct (Z.ltb_spec 1 m) as [Hm1|Hm1].
    + eexists. split; [reflexivity|]. cbn [year month day time_of_day].
      pose proof (days_before_next_month y (m - 1) ltac:(lia)) as Hnext.
      replace (m - 1 + 1)%Z with m in Hnext by lia.
      pose proof (days_in_month_bounds y (m - 1)).
      repeat split; try lia.
      unfold first_of_previous_month. cbn [year month day time_of_day].
      destruct (Z.eqb_spec m 1); [lia|reflexivity].
    + assert (m = 1%Z) by lia. subst m.
      destruct (Z.ltb_spec 1 y) as [Hy1|Hy1]; [|lia].
      eexists. split; [reflexivity|]. cbn [year month day time_of_day].
      pose proof (days_before_next_year (y - 1) ltac:(lia)) as Hnext.
      replace (y - 1 + 1)%Z with y in Hnext by lia.
      unfold days_before_month at 1 2. cbn [Z.eqb Z.ltb Z.compare Pos.compare
        Pos.compare_cont andb].
      repeat split; try lia.
      * cbn. destruct (is_leap (y - 1)); lia.
      * cbn. lia.
Qed.

(** C8 (as amended). For every run date other than 0001-01-01, the default
    range ends on the day before the run date and starts on the first day
    of the month that contains that end date.  The start is therefore the
    first day of the current month whenever the run date is past the 1st,
    and the first day of the previous month only when the run date is the
    1st of a month. *)
Theorem default_range_month_to_date (today : datetime) :
  valid_date today ->
  (1 < year today \/ 1 < month today \/ 1 < day today)%Z ->
  exists _start_date _end_date,
    default_date_range today = Ret (_start_date, _end_date)
    /\ (toordinal _end_date + 1 = toordinal today)%Z
    /\ valid_date _end_date
    /\ time_of_day _end_date = time_of_day today
    /\ _start_date = {| year := year _end_date; month := month _end_date; day := 1;
                        time_of_day := time_of_day _end_date |}
    /\ ((1 < day today)%Z -> _start_date = first_of_this_month today)
    /\ (day today = 1%Z -> _start_date = first_of_previous_month today).
Proof.
  intros Hv Hfirst.
  destruct (minus_one_day_spec today Hv Hfirst)
    as (y & Hy & Hord & Hvy & Ht & Hsame & Hprev).
  exists (replace_day_1 y), y. unfold default_date_range. rewrite Hy.
  repeat split; try assumption; try apply Hvy.
  - intros Hd. destruct (Hsame Hd) as [H1 H2].
    unfold replace_day_1, first_of_this_month. now rewrite H1, H2, Ht.
  - intros Hd. now rewrite (Hprev Hd).
Qed.

(** On 2025-10-07 the range starts on 2025-10-01, not on 2025-09-01. *)
Lemma default_range_not_previous_month :
  let today := {| year := 2025; month := 10; day := 7; time_of_day := 0 |} in
  valid_date today
  /\ default_date_range today
     = Ret ({| year := 2025; month := 10; day := 1; time_of_day := 0 |},
            {| year := 2025; month := 10; day := 6; time_of_day := 0 |})
  /\ first_of_previous_month today
     = {| year := 2025; month := 9; day := 1; time_of_day := 0 |}
  /\ (forall _end_date : datetime,
        default_date_range today <> Ret (first_of_previous_month today, _end_date)).
Proof.
  cbv zeta. split; [|split; [|split]].
  - unfold valid_date. cbn. lia.
  - reflexivity.
  - reflexivity.
  - intros e H. discriminate H.
Qed.

Lemma default_range_month_to_date_witness :
  let today := {| year := 2025; month := 3; day := 1; time_of_day := 0 |} in
  valid_date today
  /\ (1 < year today \/ 1 < month today \/ 1 < day today)%Z
  /\ exists _start_date _end_date,
       default_date_range today = Ret (_start_date, _end_date)
       /\ (toordinal _end_date + 1 = toordinal today)%Z
       /\ valid_date _end_date
       /\ time_of_day _end_date = time_of_day today
       /\ _start_date = {| year := year _end_date; month := month _end_date; day := 1;
                           time_of_day := time_of_day _end_date |}
       /\ ((1 < day today)%Z -> _start_date = first_of_this_month today)
       /\ (day today = 1%Z -> _start_date = first_of_previous_month today).
Proof.
  cbv zeta.
  assert (Hv : valid_date {| year := 2025; month := 3; day := 1; time_of_day := 0 |}).
  { unfold valid_date. cbn. lia. }
  assert (Hf : (1 < year {| year := 2025; month := 3; day := 1; time_of_day := 0 |}
                \/ 1 < month {| year := 2025; month := 3; day := 1; time_of_day := 0 |}
                \/ 1 < day {| year := 2025; month := 3; day := 1; time_of_day := 0 |})%Z).
  { left. cbn. lia. }
  split; [exact Hv|]. split; [exact Hf|].
  exact (default_range_month_to_date _ Hv Hf).
Defined.

(** ** Worked examples *)

Arguments world {W} _.
Arguments sent {W} _.
Arguments log {W} _.

(** A world for the examples: the vendor API answers from a script, one
    entry per request; the configuration file exists and holds
    [ex_config]. *)
Definition script : Type := list (exn + value).

Definition scripted_get (req : request) (w : script) : (exn + value) * script :=
  match w with
  | answer :: rest => (answer, rest)
  | [] => (inl (RequestException "script exhausted"), [])
  end.

(** [str.lower] on the ASCII letters. *)
Definition ascii_lower_char (c : ascii) : ascii :=
  let n := nat_of_ascii c in
  if Nat.leb 65 n && Nat.leb n 90 then ascii_of_nat (n + 32) else c.

Fixpoint ascii_lower (s : string) : string :=
  match s with
  | EmptyString => EmptyString
  | String c rest => String (ascii_lower_char c) (ascii_lower rest)
  end.

Definition plain_repr (v : value) : string := "<container>".

(** The digits of the one finite float the examples use, 971.0. *)
Definition ex_float_repr (x : spec_float) : string :=
  match x with
  | S754_finite false 971 0 => "971.0"
  | _ => "<float>"
  end.

Definition ex_mapping : list (string * value) :=
  [("lebanon", VStr "key-lb"); ("kuwait", VStr "")].

Definition ex_config : value :=
  VDict [("org_to_api_key", VDict ex_mapping);
         ("centers_by_key", VDict [("key-lb", VDict [("C1", VStr "Downtown")])])].

Definition ex_exists (path : string) (w : script) : bool := true.
Definition ex_json_load (path : string) (w : script) : (exn + value) * script :=
  (inr ex_config, w).

Definition ex_start : datetime :=
  {| year := 2025; month := 10; day := 1; time_of_day := 0 |}.
Definition ex_end : datetime :=
  {| year := 2025; month := 10; day := 6; time_of_day := 0 |}.

Definition ex_state (w : script) : state script :=
  {| world := w; sent := []; log := [] |}.

Definition ex_request (page : nat) : request :=
  vendors_request plain_repr ex_float_repr (VStr "key-lb") ex_start ex_end page.

Definition ex_vendor : value :=
  VDict [("name", VStr "Acme"); ("center_id", VStr "C1")].
Definition ex_vendor_enriched : value :=
  VDict [("name", VStr "Acme"); ("center_name", VStr "Downtown")].

(** A full page under the [vendors] key, a full page under the [data] key,
    and the empty page that ends the listing. *)
Definition ex_page_vendors : value := VDict [("vendors", VList (repeat ex_vendor 100))].
Definition ex_page_data : value :=
  VDict [("vendors", VList []); ("data", VList (repeat ex_vendor 100))].
Definition ex_page_empty : value := VDict [("vendors", VList [])].

Example toordinal_example : toordinal ex_end = 739530%Z.
Proof. reflexivity. Qed.

Example ex_request_url :
  url (ex_request 2)
  = "https://api.zenoti.com/v1/vendors?page=2&size=100&start_date=2025-10-01&end_date=2025-10-06".
Proof. reflexivity. Qed.

(** pandas' [NA]: the truth test raises, the text is <NA>. *)
Definition ex_na : object :=
  {| obj_bool := inl TypeError; obj_str := inr "<NA>" |}.

(** The float 971.0, which is what pandas makes of the integer 971 in a
    column with a gap. *)
Definition ex_float_971 : value := VFloat (S754_finite false 971 0).

Lemma normalize_phone_correct_witness :
  obj_bool ex_na = inl TypeError
  /\ obj_str ex_na = inr "<NA>"
  /\ normalize_phone script plain_repr ex_float_repr (Foreign ex_na) (ex_state [])
     = (Ret (VStr ""),
        {| world := []; sent := []; log := [LogPhoneWarning "<NA>" TypeError] |})
  /\ normalize_phone script plain_repr ex_float_repr (Plain ex_float_971) (ex_state [])
     = (Ret (VStr "971.0"), ex_state [])
  /\ normalize_phone script plain_repr ex_float_repr (Plain (VFloat (S754_zero false)))
       (ex_state [])
     = (Ret (VStr ""), ex_state [])
  /\ normalize_phone script plain_repr ex_float_repr (Plain VNaN) (ex_state [])
     = (Ret (VStr "nan"), ex_state [])
  /\ normalize_phone script plain_repr ex_float_repr
       (Plain (VDict [("phone_code", ex_float_971); ("number", VStr "501234567")]))
       (ex_state [])
     = (Ret (VStr "971.0501234567"), ex_state []).
Proof.
  pose proof (normalize_phone_correct script plain_repr ex_float_repr)
    as (Hplain & _ & _ & _ & _ & _ & _ & _ & Hraise & _).
  split; [reflexivity|]. split; [reflexivity|].
  split; [exact (Hraise ex_na TypeError "<NA>" (ex_state []) eq_refl eq_refl)|].
  split; [exact (Hplain ex_float_971 (ex_state []))|].
  split; [exact (Hplain (VFloat (S754_zero false)) (ex_state []))|].
  split; [exact (Hplain VNaN (ex_state []))|].
  exact (Hplain (VDict [("phone_code", ex_float_971); ("number", VStr "501234567")])
           (ex_state [])).
Defined.

Lemma fetch_vendors_no_api_key_witness :
  (api_key_of ascii_lower ex_config "Kuwait" = Ret (VStr "")
   /\ py_truthy (VStr "") = false
   /\ fetch_vendors script ascii_lower plain_repr ex_float_repr
        scripted_get 0 "Kuwait" ex_start ex_end
        ex_config (ex_state [inr ex_page_vendors])
      = (Ret (VDict []),
         {| world := [inr ex_page_vendors]; sent := []; log := [LogNoApiKey "Kuwait"] |}))
  /\ (api_key_of ascii_lower ex_config "Qatar" = Ret VNone
      /\ py_truthy VNone = false
      /\ fetch_vendors script ascii_lower plain_repr ex_float_repr
           scripted_get 0 "Qatar" ex_start ex_end
           ex_config (ex_state [inr ex_page_vendors])
         = (Ret (VDict []),
            {| world := [inr ex_page_vendors]; sent := []; log := [LogNoApiKey "Qatar"] |})).
Proof.
  split.
  - split; [reflexivity|]. split; [reflexivity|].
    apply (fetch_vendors_no_api_key script ascii_lower plain_repr ex_float_repr
             scripted_get 0 "Kuwait"
             ex_start ex_end ex_config (VStr "") (ex_state [inr ex_page_vendors]));
      reflexivity.
  - split; [reflexivity|]. split; [reflexivity|].
    apply (fetch_vendors_no_api_key script ascii_lower plain_repr ex_float_repr
             scripted_get 0 "Qatar"
             ex_start ex_end ex_config VNone (ex_state [inr ex_page_vendors]));
      reflexivity.
Defined.

Lemma fetch_vendors_pagination_witness :
  let pages := [repeat ex_vendor_enriched 100; repeat ex_vendor_enriched 100] in
  let st := ex_state [inr ex_page_vendors; inr ex_page_data; inr ex_page_empty] in
  api_key_of ascii_lower ex_config "Lebanon" = Ret (VStr "key-lb")
  /\ py_truthy (VStr "key-lb") = true
  /\ serves script plain_repr ex_float_repr scripted_get ex_start ex_end ex_config (VStr "key-lb")
       1 (world st) pages [inr ex_page_empty]
  /\ scripted_get (ex_request 3) [inr ex_page_empty] = (inr ex_page_empty, [])
  /\ vendors_of ex_page_empty = Ret (VList [])
  /\ py_truthy (VList []) = false
  /\ List.length pages < 3
  /\ (fetch_vendors script ascii_lower plain_repr ex_float_repr
        scripted_get 3 "Lebanon" ex_start ex_end
        ex_config st
      = (Ret (VDict [("vendors", VList (concat pages))]),
         {| world := [];
            sent := [ex_request 1; ex_request 2; ex_request 3];
            log := [LogFetching "Lebanon" ex_start ex_end; LogNoMoreData "Lebanon" 3] |}))
  /\ List.length (concat pages) = 200.
Proof.
  cbv zeta.
  assert (Hs : serves script plain_repr ex_float_repr
                 scripted_get ex_start ex_end ex_config (VStr "key-lb")
                 1 [inr ex_page_vendors; inr ex_page_data; inr ex_page_empty]
                 [repeat ex_vendor_enriched 100; repeat ex_vendor_enriched 100]
                 [inr ex_page_empty]).
  { eapply (serves_cons _ _ _ _ _ _ _ _ _ _ _ _ ex_page_vendors
              (VList (repeat ex_vendor 100))
              (VDict [("C1", VStr "Downtown")]) (repeat ex_vendor 100));
      [reflexivity|reflexivity|reflexivity|reflexivity|reflexivity
      |vm_compute; reflexivity|].
    eapply (serves_cons _ _ _ _ _ _ _ _ _ _ _ _ ex_page_data
              (VList (repeat ex_vendor 100))
              (VDict [("C1", VStr "Downtown")]) (repeat ex_vendor 100));
      [reflexivity|reflexivity|reflexivity|reflexivity|reflexivity
      |vm_compute; reflexivity|].
    apply serves_nil. }
  split; [reflexivity|]. split; [reflexivity|]. split; [exact Hs|].
  split; [reflexivity|]. split; [reflexivity|]. split; [reflexivity|].
  split; [cbn; lia|].
  split; [|reflexivity].
  exact (proj1 (fetch_vendors_pagination script ascii_lower plain_repr ex_float_repr scripted_get
                  "Lebanon" ex_start ex_end ex_config (VStr "key-lb") 3
                  (ex_state [inr ex_page_vendors; inr ex_page_data; inr ex_page_empty])
                  [inr ex_page_empty] []
                  [repeat ex_vendor_enriched 100; repeat ex_vendor_enriched 100]
                  ex_page_empty (VList [])
                  eq_refl eq_refl Hs eq_refl eq_refl eq_refl (le_n 3))).
Defined.

Lemma fetch_vendors_transport_error_witness :
  let pages := [repeat ex_vendor_enriched 100] in
  let e := RequestException "503 Server Error" in
  let st := ex_state [inr ex_page_vendors; inl e] in
  api_key_of ascii_lower ex_config "Lebanon" = Ret (VStr "key-lb")
  /\ py_truthy (VStr "key-lb") = true
  /\ serves script plain_repr ex_float_repr scripted_get ex_start ex_end ex_config (VStr "key-lb")
       1 (world st) pages [inl e]
  /\ scripted_get (ex_request 2) [inl e] = (inl e, [])
  /\ is_request_exception e = true
  /\ List.length pages < 2
  /\ fetch_vendors script ascii_lower plain_repr ex_float_repr
       scripted_get 2 "Lebanon" ex_start ex_end
       ex_config st
     = (Ret (VDict []),
        {| world := [];
           sent := [ex_request 1; ex_request 2];
           log := [LogFetching "Lebanon" ex_start ex_end; LogPageError 2 "Lebanon" e] |}).
Proof.
  cbv zeta.
  assert (Hs : serves script plain_repr ex_float_repr
                 scripted_get ex_start ex_end ex_config (VStr "key-lb")
                 1 [inr ex_page_vendors; inl (RequestException "503 Server Error")]
                 [repeat ex_vendor_enriched 100]
                 [inl (RequestException "503 Server Error")]).
  { eapply (serves_cons _ _ _ _ _ _ _ _ _ _ _ _ ex_page_vendors
              (VList (repeat ex_vendor 100))
              (VDict [("C1", VStr "Downtown")]) (repeat ex_vendor 100));
      [reflexivity|reflexivity|reflexivity|reflexivity|reflexivity
      |vm_compute; reflexivity|].
    apply serves_nil. }
  split; [reflexivity|]. split; [reflexivity|]. split; [exact Hs|].
  split; [reflexivity|]. split; [reflexivity|]. split; [cbn; lia|].
  exact (fetch_vendors_transport_error script ascii_lower plain_repr ex_float_repr scripted_get
           "Lebanon" ex_start ex_end ex_config (VStr "key-lb") 2
           (ex_state [inr ex_page_vendors; inl (RequestException "503 Server Error")])
           [inl (RequestException "503 Server Error")] []
           [repeat ex_vendor_enriched 100] (RequestException "503 Server Error")
           eq_refl eq_refl Hs eq_refl eq_refl (le_n 2)).
Defined.

(** Three records: one whose center is in the table, one whose center is
    not, one without a center. *)
Definition ex_rows : list value :=
  [VDict [("name", VStr "Acme"); ("center_id", VStr "C1")];
   VDict [("center_id", VStr "C9"); ("name", VStr "Beta")];
   VDict [("name", VStr "Gamma")]].

Lemma center_names_resolved_witness :
  let table := [("C1", VStr "Downtown")] in
  let data := VDict [("vendors", VList ex_rows)] in
  let st := ex_state [inr data] in
  scripted_get (ex_request 1) (world st) = (inr data, [])
  /\ vendors_of data = Ret (VList ex_rows)
  /\ ex_rows <> []
  /\ centers_of ex_config (VStr "key-lb") = Ret (VDict table)
  /\ forallb record_ok ex_rows = true
  /\ fetch_page script plain_repr ex_float_repr scripted_get "Lebanon" ex_start ex_end ex_config
       (VStr "key-lb") 1 [] st
     = (Ret (Continue (map (with_center_name table) ex_rows)),
        {| world := []; sent := [ex_request 1]; log := [] |})
  /\ map (with_center_name table) ex_rows
     = [VDict [("name", VStr "Acme"); ("center_name", VStr "Downtown")];
        VDict [("name", VStr "Beta"); ("center_name", VStr "C9")];
        VDict [("name", VStr "Gamma")]].
Proof.
  cbv zeta.
  assert (Hne : ex_rows <> []) by discriminate.
  split; [reflexivity|]. split; [reflexivity|]. split; [exact Hne|].
  split; [reflexivity|]. split; [reflexivity|].
  split; [|reflexivity].
  exact (proj1 (center_names_resolved script plain_repr ex_float_repr scripted_get "Lebanon"
                  ex_start ex_end ex_config (VStr "key-lb")
                  (VDict [("vendors", VList ex_rows)]) [("C1", VStr "Downtown")]
                  1 [] ex_rows (ex_state [inr (VDict [("vendors", VList ex_rows)])]) []
                  eq_refl eq_refl Hne eq_refl eq_refl)).
Defined.

(** Two organizations: Lebanon has one page of one vendor, Kuwait has an
    empty API key. *)
Definition ex_two_orgs : org_arg := OrgList ["Lebanon"; "Kuwait"].
Definition ex_two_orgs_world : script :=
  [inr (VDict [("vendors", VList [ex_vendor])]); inr ex_page_empty].
Definition ex_two_orgs_raw : list (string * value) :=
  [("Lebanon", VDict [("vendors", VList [ex_vendor_enriched])]); ("Kuwait", VDict [])].
Definition ex_two_orgs_fetched : state script :=
  {| world := [];
     sent := [ex_request 1; ex_request 2];
     log := [LogReportStart ex_two_orgs ex_start ex_end;
             LogConfigLoaded default_config_path;
             LogValidOrgs ["Lebanon"; "Kuwait"];
             LogFetching "Lebanon" ex_start ex_end;
             LogNoMoreData "Lebanon" 2;
             LogNoApiKey "Kuwait";
             LogFetched 2] |}.

Lemma report_aborts_when_data_missing_witness :
  collect_raw_data script ascii_lower plain_repr ex_float_repr ex_exists ex_json_load scripted_get
    5 ex_two_orgs ex_start ex_end (ex_state ex_two_orgs_world)
  = (Ret (["Lebanon"; "Kuwait"], ex_two_orgs_raw), ex_two_orgs_fetched)
  /\ In ("Kuwait", VDict []) ex_two_orgs_raw
  /\ no_vendors_data (VDict []) = Ret true
  /\ (exists org',
        In org' (dict_keys ex_two_orgs_raw)
        /\ get_vendors_report script ascii_lower plain_repr ex_float_repr ex_exists ex_json_load
             scripted_get 5 ex_two_orgs ex_start ex_end (ex_state ex_two_orgs_world)
           = (Raise (ValueError ("No vendors data found for " ++ org' ++ ".")),
              {| world := world ex_two_orgs_fetched; sent := sent ex_two_orgs_fetched;
                 log := (log ex_two_orgs_fetched ++ [LogNoVendorsData org'])%list |}))
  /\ fst (get_vendors_report script ascii_lower plain_repr ex_float_repr ex_exists ex_json_load
            scripted_get 5 ex_two_orgs ex_start ex_end (ex_state ex_two_orgs_world))
     = Raise (ValueError "No vendors data found for Kuwait.").
Proof.
  assert (Hc : collect_raw_data script ascii_lower plain_repr ex_float_repr ex_exists ex_json_load
                 scripted_get 5 ex_two_orgs ex_start ex_end (ex_state ex_two_orgs_world)
               = (Ret (["Lebanon"; "Kuwait"], ex_two_orgs_raw), ex_two_orgs_fetched))
    by (vm_compute; reflexivity).
  assert (Hin : In ("Kuwait", VDict []) ex_two_orgs_raw) by (right; left; reflexivity).
  split; [exact Hc|]. split; [exact Hin|]. split; [reflexivity|].
  split; [|vm_compute; reflexivity].
  exact (report_aborts_when_data_missing script ascii_lower plain_repr ex_float_repr ex_exists
           ex_json_load scripted_get 5 ex_two_orgs ex_start ex_end
           (ex_state ex_two_orgs_world) ex_two_orgs_fetched ["Lebanon"; "Kuwait"]
           ex_two_orgs_raw "Kuwait" (VDict []) Hc Hin eq_refl).
Defined.

Lemma organizations_filtered_witness :
  py_get ex_config "org_to_api_key" (VDict []) = Ret (VDict ex_mapping)
  /\ kept_organizations ascii_lower ex_mapping ["Lebanon"; "Qatar"; "KUWAIT"]
     = ["Lebanon"; "KUWAIT"]
  /\ (forall st : state script,
        valid_organizations script ascii_lower ex_config ["Lebanon"; "Qatar"; "KUWAIT"] st
        = (Ret ["Lebanon"; "KUWAIT"],
           {| world := world st; sent := sent st;
              log := (log st ++ [LogValidOrgs ["Lebanon"; "KUWAIT"]])%list |}))
  /\ kept_organizations ascii_lower ex_mapping ["Qatar"; "Oman"] = []
  /\ get_vendors_report script ascii_lower plain_repr ex_float_repr
       ex_exists ex_json_load scripted_get
       5 (OrgList ["Qatar"; "Oman"]) ex_start ex_end (ex_state [inr ex_page_vendors])
     = (Raise (ValueError "No valid organizations found in config."),
        {| world := [inr ex_page_vendors]; sent := [];
           log := [LogReportStart (OrgList ["Qatar"; "Oman"]) ex_start ex_end;
                   LogConfigLoaded default_config_path;
                   LogNoValidOrgs] |}).
Proof.
  split; [reflexivity|]. split; [reflexivity|]. split; [|split; [reflexivity|]].
  - exact (proj1 (organizations_filtered script ascii_lower plain_repr ex_float_repr ex_exists
                    ex_json_load scripted_get ex_config ex_mapping
                    ["Lebanon"; "Qatar"; "KUWAIT"] eq_refl)).
  - exact (proj2 (proj2 (proj2 (organizations_filtered script ascii_lower plain_repr ex_float_repr
                                  ex_exists ex_json_load scripted_get ex_config
                                  ex_mapping ["Qatar"; "Oman"] eq_refl)))
             5 ex_start ex_end (ex_state [inr ex_page_vendors]) [inr ex_page_vendors]
             eq_refl eq_refl eq_refl).
Defined.

(** A file system on which the directory can be made and the workbook
    opened and closed, but no sheet can be written. *)
Definition ex_makedirs (path : string) (w : script) : (exn + unit) * script := (inr tt, w).
Definition ex_join (dir file : string) : string := dir ++ "/" ++ file.
Definition ex_open (path : string) (w : script) : (exn + unit) * script := (inr tt, w).
Definition ex_close (path : string) (w : script) : (exn + unit) * script := (inr tt, w).
Definition ex_to_excel_fails (df : frame) (path sheet : string) (w : script)
    : (exn + unit) * script :=
  (inl (OtherException "PermissionError"), w).

Lemma export_swallows_write_errors_witness :
  ex_makedirs "out" (world (ex_state [])) = (inr tt, [])
  /\ (exists st',
        export_orgs_to_excel script ex_makedirs ex_join ex_open ex_to_excel_fails ex_close
          [("Lebanon", empty_report)] "out" "vendors" "2025-10-06" (ex_state [])
        = (Ret tt, st'))
  /\ export_orgs_to_excel script ex_makedirs ex_join ex_open ex_to_excel_fails ex_close
       [("Lebanon", empty_report)] "out" "vendors" "2025-10-06" (ex_state [])
     = (Ret tt,
        {| world := []; sent := [];
           log := [LogExcelError "out/vendors_2025-10-06.xlsx"
                     (OtherException "PermissionError")] |}).
Proof.
  split; [reflexivity|]. split.
  - exact (proj1 (export_swallows_write_errors script ex_makedirs ex_join ex_open
                    ex_to_excel_fails ex_close [("Lebanon", empty_report)]
                    "out" "vendors" "2025-10-06" (ex_state []) [] eq_refl)).
  - exact (proj1 (proj2 (export_swallows_write_errors script ex_makedirs ex_join ex_open
                           ex_to_excel_fails ex_close [("Lebanon", empty_report)]
                           "out" "vendors" "2025-10-06" (ex_state []) [] eq_refl))
             (OtherException "PermissionError") (ex_state []) eq_refl).
Defined.

Lemma empty_first_page_accepted_witness :
  let st := ex_state [inr ex_page_empty] in
  ex_exists default_config_path (world st) = true
  /\ ex_json_load default_config_path (world st) = (inr ex_config, [inr ex_page_empty])
  /\ py_get ex_config "org_to_api_key" (VDict []) = Ret (VDict ex_mapping)
  /\ dict_get (ascii_lower "Lebanon") ex_mapping = Some (VStr "key-lb")
  /\ py_truthy (VStr "key-lb") = true
  /\ scripted_get (ex_request 1) [inr ex_page_empty] = (inr ex_page_empty, [])
  /\ vendors_of ex_page_empty = Ret (VList [])
  /\ py_truthy (VList []) = false
  /\ 0 < 1
  /\ get_vendors_report script ascii_lower plain_repr ex_float_repr
       ex_exists ex_json_load scripted_get
       1 (OrgList ["Lebanon"]) ex_start ex_end st
     = (Ret [("Lebanon", {| nrows := 0; columns := [("center_name", [])] |})],
        {| world := [];
           sent := [ex_request 1];
           log := [LogReportStart (OrgList ["Lebanon"]) ex_start ex_end;
                   LogConfigLoaded default_config_path;
                   LogValidOrgs ["Lebanon"];
                   LogFetching "Lebanon" ex_start ex_end;
                   LogNoMoreData "Lebanon" 1;
                   LogFetched 1;
                   LogExtracted 1;
                   LogLoadedFrames] |}).
Proof.
  cbv zeta.
  repeat (split; [reflexivity|]).
  split; [exact (le_n 1)|].
  exact (proj2 (proj2 (empty_first_page_accepted script ascii_lower plain_repr ex_float_repr
                         ex_exists
                         ex_json_load scripted_get 1 "Lebanon" ex_start ex_end ex_config
                         (VStr "key-lb") ex_page_empty (VList []) ex_mapping
                         (ex_state [inr ex_page_empty]) [inr ex_page_empty] []
                         eq_refl eq_refl eq_refl eq_refl eq_refl eq_refl eq_refl eq_refl
                         (le_n 1)))).
Defined.

(** Two organizations with API keys: Lebanon has one vendor, Oman has
    none.  Oman's result is [{'vendors': []}], which has the [vendors] key,
    and the report comes back with a table for each of them, Oman's
    without rows. *)
Definition ex_config_oman : value :=
  VDict [("org_to_api_key", VDict [("lebanon", VStr "key-lb"); ("oman", VStr "key-om")]);
         ("centers_by_key", VDict [("key-lb", VDict [("C1", VStr "Downtown")])])].

Definition ex_json_load_oman (path : string) (w : script) : (exn + value) * script :=
  (inr ex_config_oman, w).

Definition ex_oman_world : script :=
  [inr (VDict [("vendors", VList [ex_vendor])]); inr ex_page_empty; inr ex_page_empty].

Example report_with_an_empty_organization :
  fst (collect_raw_data script ascii_lower plain_repr ex_float_repr ex_exists ex_json_load_oman
         scripted_get 5 (OrgList ["Lebanon"; "Oman"]) ex_start ex_end
         (ex_state ex_oman_world))
  = Ret (["Lebanon"; "Oman"],
         [("Lebanon", VDict [("vendors", VList [ex_vendor_enriched])]);
          ("Oman", VDict [("vendors", VList [])])])
  /\ fst (get_vendors_report script ascii_lower plain_repr ex_float_repr ex_exists ex_json_load_oman
            scripted_get 5 (OrgList ["Lebanon"; "Oman"]) ex_start ex_end
            (ex_state ex_oman_world))
     = Ret [("Lebanon",
             {| nrows := 1;
                columns := [("name", [VStr "Acme"]); ("center_name", [VStr "Downtown"])] |});
            ("Oman", empty_report)].
Proof. split; vm_compute; reflexivity. Qed.

(** On that run every fetch completes and Oman's result has the [vendors]
    key with no data under it; yet no error is raised, and the report comes
    back with a table for Lebanon and one, without rows, for Oman. *)
Lemma report_not_aborted_without_data :
  let run :=
    get_vendors_report script ascii_lower plain_repr ex_float_repr ex_exists
      ex_json_load_oman scripted_get 5 (OrgList ["Lebanon"; "Oman"]) ex_start ex_end
      (ex_state ex_oman_world) in
  let raw_data :=
    [("Lebanon", VDict [("vendors", VList [ex_vendor_enriched])]);
     ("Oman", VDict [("vendors", VList [])])] in
  fst (collect_raw_data script ascii_lower plain_repr ex_float_repr ex_exists
         ex_json_load_oman scripted_get 5 (OrgList ["Lebanon"; "Oman"]) ex_start ex_end
         (ex_state ex_oman_world))
  = Ret (["Lebanon"; "Oman"], raw_data)
  /\ In ("Oman", VDict [("vendors", VList [])]) raw_data
  /\ vendors_with_data (VDict [("vendors", VList [])]) = false
  /\ (forall e : exn, fst run <> Raise e)
  /\ (exists lebanon oman : frame,
        fst run = Ret [("Lebanon", lebanon); ("Oman", oman)]
        /\ nrows lebanon = 1 /\ nrows oman = 0).
Proof.
  cbv zeta.
  assert (Hrun : fst (get_vendors_report script ascii_lower plain_repr ex_float_repr
                        ex_exists ex_json_load_oman scripted_get 5
                        (OrgList ["Lebanon"; "Oman"]) ex_start ex_end
                        (ex_state ex_oman_world))
                 = Ret [("Lebanon",
                         {| nrows := 1;
                            columns := [("name", [VStr "Acme"]);
                                        ("center_name", [VStr "Downtown"])] |});
                        ("Oman", empty_report)])
    by (vm_compute; reflexivity).
  split; [vm_compute; reflexivity|].
  split; [right; left; reflexivity|].
  split; [reflexivity|].
  split.
  - intros e H. rewrite Hrun in H. discriminate H.
  - eexists. eexists. split; [exact Hrun|]. split; reflexivity.
Qed.

(** *** More on the default date range *)

(** X19. For every run date the default range either cannot be computed,
    which happens exactly on 0001-01-01 where the day before does not
    exist ([OverflowError]), or it is a non-empty stretch inside one
    calendar month: it starts on the 1st, ends in the same month and year,
    and has as many days as the day number of its end. *)
Theorem default_range_within_one_month (today : datetime) :
  valid_date today ->
  (year today = 1%Z /\ month today = 1%Z /\ day today = 1%Z ->
   default_date_range today = Raise OverflowError)
  /\ ((1 < year today \/ 1 < month today \/ 1 < day today)%Z ->
      exists _start_date _end_date,
        default_date_range today = Ret (_start_date, _end_date)
        /\ valid_date _start_date /\ valid_date _end_date
        /\ year _start_date = year _end_date
        /\ month _start_date = month _end_date
        /\ day _start_date = 1%Z
        /\ (toordinal _start_date <= toordinal _end_date)%Z
        /\ (toordinal _end_date - toordinal _start_date + 1 = day _end_date)%Z).
Proof.
  intros Hv. split.
  - intros (Hy & Hm & Hd). unfold default_date_range, minus_one_day.
    rewrite Hy, Hm, Hd. reflexivity.
  - intros Hfirst.
    destruct (minus_one_day_spec today Hv Hfirst) as (y & Hy & _ & Hvy & _).
    exists (replace_day_1 y), y. unfold default_date_range. rewrite Hy.
    destruct Hvy as (Hyy & Hym & Hyd).
    pose proof (days_in_month_bounds (year y) (month y)).
    unfold toordinal, replace_day_1, valid_date. cbn [year month day time_of_day].
    repeat split; try lia.
Qed.

Lemma default_range_within_one_month_witness :
  let today := {| year := 2024; month := 3; day := 1; time_of_day := 0 |} in
  valid_date today
  /\ default_date_range today
     = Ret ({| year := 2024; month := 2; day := 1; time_of_day := 0 |},
            {| year := 2024; month := 2; day := 29; time_of_day := 0 |})
  /\ ((year today = 1%Z /\ month today = 1%Z /\ day today = 1%Z ->
       default_date_range today = Raise OverflowError)
      /\ ((1 < year today \/ 1 < month today \/ 1 < day today)%Z ->
          exists _start_date _end_date,
            default_date_range today = Ret (_start_date, _end_date)
            /\ valid_date _start_date /\ valid_date _end_date
            /\ year _start_date = year _end_date
            /\ month _start_date = month _end_date
            /\ day _start_date = 1%Z
            /\ (toordinal _start_date <= toordinal _end_date)%Z
            /\ (toordinal _end_date - toordinal _start_date + 1 = day _end_date)%Z)).
Proof.
  cbv zeta.
  assert (Hv : valid_date {| year := 2024; month := 3; day := 1; time_of_day := 0 |}).
  { unfold valid_date. cbn. lia. }
  split; [exact Hv|]. split; [reflexivity|].
  exact (default_range_within_one_month _ Hv).
Defined.

(** ** Worked examples for the further properties *)

Definition ex_no_file (path : string) (w : script) : bool := false.

Definition ex_json_broken (path : string) (w : script) : (exn + value) * script :=
  (inl JSONDecodeError, w).

Lemma report_without_config_file_witness :
  ex_no_file default_config_path (world (ex_state [inr ex_page_vendors])) = false
  /\ get_vendors_report script ascii_lower plain_repr ex_float_repr
       ex_no_file ex_json_load scripted_get
       5 ex_two_orgs ex_start ex_end (ex_state [inr ex_page_vendors])
     = (Raise (FileNotFoundError
                 ("Configuration file not found: " ++ default_config_path)),
        {| world := [inr ex_page_vendors]; sent := [];
           log := [LogReportStart ex_two_orgs ex_start ex_end;
                   LogConfigNotFound default_config_path] |}).
Proof.
  split; [reflexivity|].
  exact (report_without_config_file script ascii_lower plain_repr ex_float_repr
           ex_no_file ex_json_load
           scripted_get 5 ex_two_orgs ex_start ex_end (ex_state [inr ex_page_vendors])
           eq_refl).
Defined.

Lemma report_with_unreadable_config_witness :
  ex_exists default_config_path (world (ex_state [inr ex_page_vendors])) = true
  /\ ex_json_broken default_config_path (world (ex_state [inr ex_page_vendors]))
     = (inl JSONDecodeError, [inr ex_page_vendors])
  /\ get_vendors_report script ascii_lower plain_repr ex_float_repr
       ex_exists ex_json_broken scripted_get
       5 ex_two_orgs ex_start ex_end (ex_state [inr ex_page_vendors])
     = (Raise JSONDecodeError,
        {| world := [inr ex_page_vendors]; sent := [];
           log := [LogReportStart ex_two_orgs ex_start ex_end;
                   LogConfigInvalid default_config_path JSONDecodeError] |}).
Proof.
  split; [reflexivity|]. split; [reflexivity|].
  exact (report_with_unreadable_config script ascii_lower plain_repr ex_float_repr ex_exists
           ex_json_broken scripted_get 5 ex_two_orgs ex_start ex_end
           (ex_state [inr ex_page_vendors]) JSONDecodeError [inr ex_page_vendors]
           eq_refl eq_refl).
Defined.

Definition ex_timeout : exn := RequestException "Read timed out".

Definition ex_after_timeout : state script :=
  {| world := []; sent := [ex_request 1; ex_request 2];
     log := [LogFetching "Lebanon" ex_start ex_end; LogPageError 2 "Lebanon" ex_timeout] |}.

Lemma fetch_vendors_outcome_witness :
  fetch_vendors script ascii_lower plain_repr ex_float_repr scripted_get 2 "Lebanon" ex_start ex_end
    ex_config (ex_state [inr ex_page_vendors; inl ex_timeout])
  = (Ret (VDict []), ex_after_timeout)
  /\ ((VDict [] = VDict []
       /\ exists l0 ev,
            log ex_after_timeout = (l0 ++ [ev])%list
            /\ (ev = LogNoApiKey "Lebanon"
                \/ exists p e, ev = LogPageError p "Lebanon" e
                               /\ is_request_exception e = true))
      \/ (exists l l0 p,
            VDict [] = VDict [("vendors", VList l)]
            /\ log ex_after_timeout = (l0 ++ [LogNoMoreData "Lebanon" p])%list)).
Proof.
  assert (H : fetch_vendors script ascii_lower plain_repr ex_float_repr scripted_get 2 "Lebanon"
                ex_start ex_end ex_config (ex_state [inr ex_page_vendors; inl ex_timeout])
              = (Ret (VDict []), ex_after_timeout)) by (vm_compute; reflexivity).
  split; [exact H|].
  exact (fetch_vendors_outcome script ascii_lower plain_repr ex_float_repr scripted_get 2 "Lebanon"
           ex_start ex_end ex_config _ _ _ H).
Defined.

Definition ex_bad_body : exn := ValueError "Expecting value: line 1 column 1 (char 0)".

Lemma fetch_vendors_other_exception_witness :
  let pages := [repeat ex_vendor_enriched 100] in
  let st := ex_state [inr ex_page_vendors; inl ex_bad_body] in
  api_key_of ascii_lower ex_config "Lebanon" = Ret (VStr "key-lb")
  /\ py_truthy (VStr "key-lb") = true
  /\ serves script plain_repr ex_float_repr scripted_get ex_start ex_end ex_config (VStr "key-lb")
       1 (world st) pages [inl ex_bad_body]
  /\ scripted_get (ex_request 2) [inl ex_bad_body] = (inl ex_bad_body, [])
  /\ is_request_exception ex_bad_body = false
  /\ List.length pages < 2
  /\ fetch_vendors script ascii_lower plain_repr ex_float_repr
       scripted_get 2 "Lebanon" ex_start ex_end
       ex_config st
     = (Raise ex_bad_body,
        {| world := []; sent := [ex_request 1; ex_request 2];
           log := [LogFetching "Lebanon" ex_start ex_end] |}).
Proof.
  cbv zeta.
  assert (Hs : serves script plain_repr ex_float_repr
                 scripted_get ex_start ex_end ex_config (VStr "key-lb")
                 1 [inr ex_page_vendors; inl ex_bad_body]
                 [repeat ex_vendor_enriched 100] [inl ex_bad_body]).
  { eapply (serves_cons _ _ _ _ _ _ _ _ _ _ _ _ ex_page_vendors
              (VList (repeat ex_vendor 100))
              (VDict [("C1", VStr "Downtown")]) (repeat ex_vendor 100));
      [reflexivity|reflexivity|reflexivity|reflexivity|reflexivity
      |vm_compute; reflexivity|].
    apply serves_nil. }
  split; [reflexivity|]. split; [reflexivity|]. split; [exact Hs|].
  split; [reflexivity|]. split; [reflexivity|]. split; [cbn; lia|].
  exact (fetch_vendors_other_exception script ascii_lower plain_repr ex_float_repr scripted_get
           "Lebanon" ex_start ex_end ex_config (VStr "key-lb") 2
           (ex_state [inr ex_page_vendors; inl ex_bad_body]) [inl ex_bad_body] []
           [repeat ex_vendor_enriched 100] ex_bad_body
           eq_refl eq_refl Hs eq_refl eq_refl (le_n 2)).
Defined.

Definition ex_config_no_centers : value := VDict [("org_to_api_key", VDict ex_mapping)].

Definition ex_one_vendor_page : value := VDict [("vendors", VList [ex_vendor])].

Lemma fetch_vendors_without_center_tables_witness :
  let st := ex_state [inr ex_one_vendor_page; inr ex_page_empty] in
  ex_config_no_centers = VDict [("org_to_api_key", VDict ex_mapping)]
  /\ dict_get "centers_by_key" [("org_to_api_key", VDict ex_mapping)] = None
  /\ api_key_of ascii_lower ex_config_no_centers "Lebanon" = Ret (VStr "key-lb")
  /\ py_truthy (VStr "key-lb") = true
  /\ scripted_get (ex_request 1) (world st) = (inr ex_one_vendor_page, [inr ex_page_empty])
  /\ vendors_of ex_one_vendor_page = Ret (VList [ex_vendor])
  /\ py_truthy (VList [ex_vendor]) = true
  /\ 0 < 3
  /\ fetch_vendors script ascii_lower plain_repr ex_float_repr
       scripted_get 3 "Lebanon" ex_start ex_end
       ex_config_no_centers st
     = (Raise (KeyError "centers_by_key"),
        {| world := [inr ex_page_empty]; sent := [ex_request 1];
           log := [LogFetching "Lebanon" ex_start ex_end] |}).
Proof.
  cbv zeta.
  repeat (split; [reflexivity|]).
  split; [lia|].
  exact (fetch_vendors_without_center_tables script ascii_lower plain_repr ex_float_repr
           scripted_get
           "Lebanon" ex_start ex_end ex_config_no_centers (VStr "key-lb") 3
           (ex_state [inr ex_one_vendor_page; inr ex_page_empty]) [inr ex_page_empty]
           [("org_to_api_key", VDict ex_mapping)] ex_one_vendor_page (VList [ex_vendor])
           eq_refl eq_refl eq_refl eq_refl eq_refl eq_refl eq_refl
           (Nat.lt_0_succ 2)).
Defined.

(** A server that answers every request with the same one-vendor page;
    its world counts the requests. *)
Definition endless_get (req : request) (n : nat) : (exn + value) * nat :=
  (inr ex_one_vendor_page, S n).

Lemma fetch_vendors_endless_witness :
  api_key_of ascii_lower ex_config "Lebanon" = Ret (VStr "key-lb")
  /\ py_truthy (VStr "key-lb") = true
  /\ (forall (p : nat) (w : nat),
        True ->
        exists page w1,
          serves nat plain_repr ex_float_repr endless_get ex_start ex_end ex_config (VStr "key-lb")
            p w [page] w1 /\ True)
  /\ True
  /\ fst (fetch_vendors nat ascii_lower plain_repr ex_float_repr endless_get 1000 "Lebanon"
            ex_start ex_end ex_config {| world := 0; sent := []; log := [] |})
     = OutOfFuel.
Proof.
  assert (Hs : forall (p : nat) (w : nat),
             True ->
             exists page w1,
               serves nat plain_repr ex_float_repr
                 endless_get ex_start ex_end ex_config (VStr "key-lb")
                 p w [page] w1 /\ True).
  { intros p w _. exists [ex_vendor_enriched], (S w). split; [|exact I].
    eapply (serves_cons _ _ _ _ _ _ _ _ _ _ _ _ ex_one_vendor_page (VList [ex_vendor])
              (VDict [("C1", VStr "Downtown")]) [ex_vendor]);
      [reflexivity|reflexivity|reflexivity|reflexivity|reflexivity|reflexivity|].
    apply serves_nil. }
  split; [reflexivity|]. split; [reflexivity|]. split; [exact Hs|]. split; [exact I|].
  exact (fetch_vendors_endless nat ascii_lower plain_repr ex_float_repr endless_get "Lebanon"
           ex_start ex_end ex_config (VStr "key-lb") (fun _ => True) 1000
           {| world := 0; sent := []; log := [] |} eq_refl eq_refl Hs I).
Defined.

Lemma enrich_vendor_idempotent_witness :
  record_ok ex_vendor = true
  /\ exists vendor',
       enrich_vendor (VDict [("C1", VStr "Downtown")]) ex_vendor = Ret vendor'
       /\ enrich_vendor (VDict [("C1", VStr "Elsewhere")]) vendor' = Ret vendor'.
Proof.
  split; [reflexivity|].
  exact (enrich_vendor_idempotent [("C1", VStr "Downtown")] [("C1", VStr "Elsewhere")]
           ex_vendor eq_refl).
Defined.

(** The report for Lebanon (one vendor) and Oman (none). *)
Definition ex_oman_tables : list (string * frame) :=
  [("Lebanon",
    {| nrows := 1;
       columns := [("name", [VStr "Acme"]); ("center_name", [VStr "Downtown"])] |});
   ("Oman", empty_report)].

Definition ex_oman_run : result (list (string * frame)) * state script :=
  get_vendors_report script ascii_lower plain_repr ex_float_repr
    ex_exists ex_json_load_oman scripted_get
    5 (OrgList ["Lebanon"; "Oman"]) ex_start ex_end (ex_state ex_oman_world).

Lemma ex_oman_run_eq : ex_oman_run = (Ret ex_oman_tables, snd ex_oman_run).
Proof. vm_compute. reflexivity. Qed.

Lemma report_tables_columns_witness :
  ex_oman_run = (Ret ex_oman_tables, snd ex_oman_run)
  /\ In ("Oman", empty_report) ex_oman_tables
  /\ dict_mem "center_name" (columns empty_report) = true
  /\ dict_mem "work_phone" (columns empty_report) = false.
Proof.
  assert (Hin : In ("Oman", empty_report) ex_oman_tables) by (right; left; reflexivity).
  split; [exact ex_oman_run_eq|]. split; [exact Hin|].
  exact (report_tables_columns script ascii_lower plain_repr ex_float_repr
           ex_exists ex_json_load_oman
           scripted_get 5 (OrgList ["Lebanon"; "Oman"]) ex_start ex_end
           (ex_state ex_oman_world) (snd ex_oman_run) ex_oman_tables "Oman" empty_report
           ex_oman_run_eq Hin).
Defined.

Definition ex_lebanon_table : frame :=
  {| nrows := 1;
     columns := [("name", [VStr "Acme"]); ("center_name", [VStr "Downtown"])] |}.

Lemma report_tables_rows_witness :
  ex_oman_run = (Ret ex_oman_tables, snd ex_oman_run)
  /\ In ("Lebanon", ex_lebanon_table) ex_oman_tables
  /\ rectangular ex_lebanon_table
  /\ exists valid_orgs raw_data st1 data rows,
       collect_raw_data script ascii_lower plain_repr ex_float_repr ex_exists ex_json_load_oman
         scripted_get 5 (OrgList ["Lebanon"; "Oman"]) ex_start ex_end
         (ex_state ex_oman_world)
       = (Ret (valid_orgs, raw_data), st1)
       /\ In ("Lebanon", data) raw_data
       /\ py_getitem data "vendors" = Ret (VList rows)
       /\ nrows ex_lebanon_table = List.length rows.
Proof.
  assert (Hin : In ("Lebanon", ex_lebanon_table) ex_oman_tables) by (left; reflexivity).
  split; [exact ex_oman_run_eq|]. split; [exact Hin|].
  exact (report_tables_rows script ascii_lower plain_repr ex_float_repr ex_exists ex_json_load_oman
           scripted_get 5 (OrgList ["Lebanon"; "Oman"]) ex_start ex_end
           (ex_state ex_oman_world) (snd ex_oman_run) ex_oman_tables "Lebanon"
           ex_lebanon_table ex_oman_run_eq Hin).
Defined.

(** Three vendors: a phone given as a mapping, no phone, a phone given as
    a string. *)
Definition ex_phone_records : list (list (string * value)) :=
  [[("name", VStr "A");
    ("work_phone", VDict [("phone_code", VInt 971); ("number", VStr "501234567")])];
   [("name", VStr "B")];
   [("name", VStr "C"); ("work_phone", VStr "12345")]].

Definition ex_phone_world : script :=
  [inr (VDict [("vendors", VList (map VDict ex_phone_records))]); inr ex_page_empty].

Definition ex_phone_table : frame :=
  {| nrows := 3;
     columns := [("name", [VStr "A"; VStr "B"; VStr "C"]);
                 ("Work Phone", [VStr "971501234567"; VStr "nan"; VStr "12345"]);
                 ("center_name", [VStr ""; VStr ""; VStr ""])] |}.

Definition ex_phone_run : result (list (string * frame)) * state script :=
  get_vendors_report script ascii_lower plain_repr ex_float_repr ex_exists ex_json_load scripted_get
    5 (OrgList ["Lebanon"]) ex_start ex_end (ex_state ex_phone_world).

Lemma ex_phone_run_eq : ex_phone_run = (Ret [("Lebanon", ex_phone_table)], snd ex_phone_run).
Proof. vm_compute. reflexivity. Qed.

Lemma report_work_phone_column_witness :
  ex_phone_run = (Ret [("Lebanon", ex_phone_table)], snd ex_phone_run)
  /\ In ("Lebanon", ex_phone_table) [("Lebanon", ex_phone_table)]
  /\ (exists valid_orgs raw_data st1 data records,
        collect_raw_data script ascii_lower plain_repr ex_float_repr
          ex_exists ex_json_load scripted_get
          5 (OrgList ["Lebanon"]) ex_start ex_end (ex_state ex_phone_world)
        = (Ret (valid_orgs, raw_data), st1)
        /\ In ("Lebanon", data) raw_data
        /\ py_getitem data "vendors" = Ret (VList (map VDict records))
        /\ ((exists r, In r records /\ dict_mem "work_phone" r = true) ->
            (forall r, In r records -> dict_mem "Work Phone" r = false) ->
            forallb phone_shape_ok records = true ->
            dict_get "Work Phone" (columns ex_phone_table)
            = Some (map (fun r => match dict_get "work_phone" r with
                                  | Some phone => normalized_phone plain_repr ex_float_repr phone
                                  | None => VStr "nan"
                                  end)
                        records)))
  /\ (exists r, In r ex_phone_records /\ dict_mem "work_phone" r = true)
  /\ (forall r, In r ex_phone_records -> dict_mem "Work Phone" r = false)
  /\ forallb phone_shape_ok ex_phone_records = true
  /\ dict_get "Work Phone" (columns ex_phone_table)
     = Some [VStr "971501234567"; VStr "nan"; VStr "12345"].
Proof.
  assert (Hin : In ("Lebanon", ex_phone_table) [("Lebanon", ex_phone_table)])
    by (left; reflexivity).
  split; [exact ex_phone_run_eq|]. split; [exact Hin|]. split.
  - exact (report_work_phone_column script ascii_lower plain_repr ex_float_repr
             ex_exists ex_json_load
             scripted_get 5 (OrgList ["Lebanon"]) ex_start ex_end (ex_state ex_phone_world)
             (snd ex_phone_run) [("Lebanon", ex_phone_table)] "Lebanon" ex_phone_table
             ex_phone_run_eq Hin).
  - split.
    + eexists. split; [left; reflexivity|reflexivity].
    + split; [|split; reflexivity].
      intros r [<-|[<-|[<-|[]]]]; reflexivity.
Defined.

(** Lebanon asked for three times, in two spellings, and an unknown key. *)
Definition ex_repeated : list string := ["Lebanon"; "Qatar"; "LEBANON"; "Lebanon"].

Definition ex_repeated_run : result (list (string * frame)) * state script :=
  get_vendors_report script ascii_lower plain_repr ex_float_repr ex_exists ex_json_load scripted_get
    5 (OrgList ex_repeated) ex_start ex_end
    (ex_state [inr ex_page_empty; inr ex_page_empty; inr ex_page_empty]).

Definition ex_repeated_tables : list (string * frame) :=
  [("Lebanon", empty_report); ("LEBANON", empty_report)].

Lemma ex_repeated_run_eq : ex_repeated_run = (Ret ex_repeated_tables, snd ex_repeated_run).
Proof. vm_compute. reflexivity. Qed.

Lemma report_one_table_per_organization_witness :
  let st := ex_state [inr ex_page_empty; inr ex_page_empty; inr ex_page_empty] in
  ex_exists default_config_path (world st) = true
  /\ ex_json_load default_config_path (world st) = (inr ex_config, world st)
  /\ py_get ex_config "org_to_api_key" (VDict []) = Ret (VDict ex_mapping)
  /\ ex_repeated_run = (Ret ex_repeated_tables, snd ex_repeated_run)
  /\ (dict_keys ex_repeated_tables
      = distinct (kept_organizations ascii_lower ex_mapping ex_repeated)
      /\ NoDup (dict_keys ex_repeated_tables)
      /\ (forall org : string,
            In org (dict_keys ex_repeated_tables)
            <-> In org ex_repeated /\ dict_mem (ascii_lower org) ex_mapping = true))
  /\ distinct (kept_organizations ascii_lower ex_mapping ex_repeated)
     = ["Lebanon"; "LEBANON"]
  /\ List.length (sent (snd ex_repeated_run)) = 3.
Proof.
  cbv zeta.
  split; [reflexivity|]. split; [reflexivity|]. split; [reflexivity|].
  split; [exact ex_repeated_run_eq|].
  split; [|split; [reflexivity|vm_compute; reflexivity]].
  exact (report_one_table_per_organization script ascii_lower plain_repr ex_float_repr ex_exists
           ex_json_load scripted_get 5 ex_repeated ex_start ex_end
           (ex_state [inr ex_page_empty; inr ex_page_empty; inr ex_page_empty])
           (snd ex_repeated_run) ex_config ex_mapping
           [inr ex_page_empty; inr ex_page_empty; inr ex_page_empty] ex_repeated_tables
           eq_refl eq_refl eq_refl ex_repeated_run_eq).
Defined.


(** A file system on which every sheet can be written. *)
Definition ex_to_excel_ok (df : frame) (path sheet : string) (w : script)
    : (exn + unit) * script :=
  (inr tt, w).

Lemma export_writes_every_sheet_witness :
  ex_makedirs "out" (world (ex_state [])) = (inr tt, [])
  /\ ex_open (workbook_path ex_join "out" "vendors" "2025-10-06") [] = (inr tt, [])
  /\ written script ex_to_excel_ok (workbook_path ex_join "out" "vendors" "2025-10-06")
       ex_oman_tables [] []
  /\ ex_close (workbook_path ex_join "out" "vendors" "2025-10-06") [] = (inr tt, [])
  /\ export_orgs_to_excel script ex_makedirs ex_join ex_open ex_to_excel_ok ex_close
       ex_oman_tables "out" "vendors" "2025-10-06" (ex_state [])
     = (Ret tt,
        {| world := []; sent := [];
           log := [LogWroteSheet "Lebanon" "out/vendors_2025-10-06.xlsx";
                   LogWroteSheet "Oman" "out/vendors_2025-10-06.xlsx";
                   LogSavedExcel "out/vendors_2025-10-06.xlsx"] |}).
Proof.
  assert (Hw : written script ex_to_excel_ok
                 (workbook_path ex_join "out" "vendors" "2025-10-06") ex_oman_tables [] []).
  { apply written_cons with (w1 := []); [reflexivity|].
    apply written_cons with (w1 := []); [reflexivity|].
    apply written_nil. }
  split; [reflexivity|]. split; [reflexivity|]. split; [exact Hw|].
  split; [reflexivity|].
  exact (export_writes_every_sheet script ex_makedirs ex_join ex_open ex_to_excel_ok
           ex_close ex_oman_tables "out" "vendors" "2025-10-06" (ex_state [])
           [] [] [] [] eq_refl eq_refl Hw eq_refl).
Defined.

(** A file system on which the output directory cannot be made. *)
Definition ex_makedirs_fails (path : string) (w : script) : (exn + unit) * script :=
  (inl (OtherException "PermissionError"), w).

Lemma export_fails_without_directory_witness :
  ex_makedirs_fails "out" (world (ex_state [])) = (inl (OtherException "PermissionError"), [])
  /\ export_orgs_to_excel script ex_makedirs_fails ex_join ex_open ex_to_excel_ok ex_close
       ex_oman_tables "out" "vendors" "2025-10-06" (ex_state [])
     = (Raise (OtherException "PermissionError"),
        {| world := []; sent := []; log := [] |}).
Proof.
  split; [reflexivity|].
  exact (export_fails_without_directory script ex_makedirs_fails ex_join ex_open
           ex_to_excel_ok ex_close ex_oman_tables "out" "vendors" "2025-10-06"
           (ex_state []) (OtherException "PermissionError") [] eq_refl).
Defined.

Lemma export_closes_the_writer_witness :
  ex_makedirs "out" (world (ex_state [])) = (inr tt, [])
  /\ ex_open (workbook_path ex_join "out" "vendors" "2025-10-06") [] = (inr tt, [])
  /\ exists st' w3,
       export_orgs_to_excel script ex_makedirs ex_join ex_open ex_to_excel_fails ex_close
         ex_oman_tables "out" "vendors" "2025-10-06" (ex_state [])
       = (Ret tt, st')
       /\ world st'
          = snd (ex_close (workbook_path ex_join "out" "vendors" "2025-10-06") w3).
Proof.
  split; [reflexivity|]. split; [reflexivity|].
  exact (export_closes_the_writer script ex_makedirs ex_join ex_open ex_to_excel_fails
           ex_close ex_oman_tables "out" "vendors" "2025-10-06" (ex_state [])
           [] [] eq_refl eq_refl).
Defined.

(** A configuration file that lists no organization, read on 7 October
    2025. *)
Definition ex_config_empty : value := VDict [("org_to_api_key", VDict [])].

Definition ex_json_load_empty (path : string) (w : script) : (exn + value) * script :=
  (inr ex_config_empty, w).

Definition ex_today (w : script) : datetime :=
  {| year := 2025; month := 10; day := 7; time_of_day := 34200000000 |}.

Definition ex_month_start : datetime :=
  {| year := 2025; month := 10; day := 1; time_of_day := 34200000000 |}.

Definition ex_yesterday : datetime :=
  {| year := 2025; month := 10; day := 6; time_of_day := 34200000000 |}.

Lemma main_without_organizations_witness :
  ex_exists default_config_path (world (ex_state [])) = true
  /\ ex_json_load_empty default_config_path (world (ex_state [])) = (inr ex_config_empty, [])
  /\ py_get ex_config_empty "org_to_api_key" (VDict []) = Ret (VDict [])
  /\ default_date_range (ex_today []) = Ret (ex_month_start, ex_yesterday)
  /\ main script ascii_lower plain_repr ex_float_repr ex_exists ex_json_load_empty scripted_get
       ex_makedirs ex_join ex_open ex_to_excel_ok ex_close ex_today 5 (ex_state [])
     = (Raise (ValueError "No valid organizations found in config."),
        {| world := []; sent := [];
           log := [LogConfigLoaded default_config_path;
                   LogReportStart (OrgList []) ex_month_start ex_yesterday;
                   LogConfigLoaded default_config_path;
                   LogNoValidOrgs] |}).
Proof.
  split; [reflexivity|]. split; [reflexivity|]. split; [reflexivity|].
  split; [vm_compute; reflexivity|].
  exact (main_without_organizations script ascii_lower plain_repr ex_float_repr ex_exists
           ex_json_load_empty scripted_get ex_makedirs ex_join ex_open ex_to_excel_ok
           ex_close ex_today 5 (ex_state []) ex_config_empty ex_config_empty [] []
           ex_month_start ex_yesterday eq_refl eq_refl eq_refl eq_refl eq_refl eq_refl).
Defined.

Lemma fetch_vendors_case_insensitive_witness :
  let upper :=
    fetch_vendors script ascii_lower plain_repr ex_float_repr
      scripted_get 5 "LEBANON" ex_start ex_end
      ex_config (ex_state [inr ex_page_data; inr ex_page_empty]) in
  let exact_ :=
    fetch_vendors script ascii_lower plain_repr ex_float_repr
      scripted_get 5 "Lebanon" ex_start ex_end
      ex_config (ex_state [inr ex_page_data; inr ex_page_empty]) in
  ascii_lower "LEBANON" = ascii_lower "Lebanon"
  /\ fst upper = fst exact_
  /\ world (snd upper) = world (snd exact_)
  /\ sent (snd upper) = sent (snd exact_)
  /\ log (snd upper) <> log (snd exact_).
Proof.
  cbv zeta. split; [reflexivity|].
  pose proof (fetch_vendors_case_insensitive script ascii_lower plain_repr ex_float_repr
                scripted_get 5
                "LEBANON" "Lebanon" ex_start ex_end ex_config
                (ex_state [inr ex_page_data; inr ex_page_empty]) eq_refl)
    as (H1 & H2 & H3).
  split; [exact H1|]. split; [exact H2|]. split; [exact H3|].
  vm_compute. discriminate.
Defined.
